(** * LibRecommender: SIM, UserCF and the evaluation driver

    A shallow embedding of

    - [libreco/algorithms/sim.py]      (class [SIM]),
    - [libreco/algorithms/user_cf.py]  (class [UserCF]),
    - [libreco/evaluate/computation.py],
    - [libreco/data/transformed.py]    (class [TransformedSet]),

    together with the properties of these modules that the specification
    states.  Floating point numbers are abstracted by the rationals [Q];
    Python exceptions by the error monad [sum PyExc]; tensors of a batch
    by lists indexed by the example. *)

From Stdlib Require Import String.
From Stdlib Require Import List ZArith QArith Qround Bool Lia Lqa.
From Stdlib Require Import Permutation Sorted Arith.
From ExtLib Require Import Structures.Monad Structures.MonadExc.
From ExtLib Require Import Data.Monads.EitherMonad.
Import ListNotations MonadNotation.

Close Scope Q_scope.
Open Scope string_scope.
Open Scope list_scope.
Open Scope nat_scope.
Open Scope monad_scope.

Set Implicit Arguments.

(* ===================================================================== *)
(** * Python runtime: exceptions and values                               *)
(* ===================================================================== *)

(** The exception classes this code base can raise. *)
Inductive PyExc : Type :=
| TypeError (msg : string)
| ValueError (msg : string)
| AssertionError
| AttributeError (name : string)
| IndexError.

(** A Python computation: either an exception or a result. *)
Definition py : Type -> Type := sum PyExc.

(** [assert cond] *)
Definition py_assert (cond : bool) : py unit :=
  if cond then ret tt else raise AssertionError.

Definition raises {A} (c : py A) : Prop := exists e, c = inl e.
Definition returns {A} (c : py A) : Prop := exists a, c = inr a.

(** [x in xs] for a tuple or list of strings. *)
Definition str_in (x : string) (xs : list string) : bool :=
  existsb (String.eqb x) xs.

(** [x in xs] for a set or list of integers. *)
Definition nat_in (x : nat) (xs : list nat) : bool :=
  existsb (Nat.eqb x) xs.

(* ===================================================================== *)
(** * Stable descending sort                                              *)
(* ===================================================================== *)

(** Python's [sorted(xs, key=k, reverse=True)] and [xs.sort(key=-k)] are
    stable: elements with equal keys keep their input order.  The same
    function models [tf.math.top_k], whose documentation fixes the tie
    rule "if two elements are equal, the lower-index element appears
    first".  Insertion puts [x] in front of the first element whose key
    does not exceed the key of [x]; folding from the right then keeps equal
    keys in input order. *)
Section StableSort.
Variable A : Type.
Variable key : A -> Q.

Fixpoint insert_desc (x : A) (l : list A) : list A :=
  match l with
  | [] => [x]
  | y :: l' =>
      if Qle_bool (key y) (key x) then x :: y :: l'
      else y :: insert_desc x l'
  end.

Definition sorted_desc (l : list A) : list A :=
  fold_right insert_desc [] l.

(** [a] is ranked no later than [b]: a larger key, or an equal key and
    [a] before [b] in the order [R] of the input. *)
Definition ranked_before (R : A -> A -> Prop) (a b : A) : Prop :=
  (key b < key a)%Q \/ ((key b == key a)%Q /\ R a b).

Definition key_ge (a b : A) : Prop := (key b <= key a)%Q.
End StableSort.

(* ===================================================================== *)
(** * Tensor primitives (per example)                                     *)
(* ===================================================================== *)

(** [tf.sequence_mask(length, maxlen)], one row. *)
Definition sequence_mask (len maxlen : nat) : list bool :=
  map (fun p => p <? len) (seq 0 maxlen).

(** [tf.where(cond, x, y)], element-wise on one row. *)
Fixpoint tf_where {A} (cond : list bool) (x y : list A) : list A :=
  match cond, x, y with
  | c :: cond', a :: x', b :: y' => (if c then a else b) :: tf_where cond' x' y'
  | _, _, _ => []
  end.

(** Inner product of two vectors. *)
Fixpoint dot (u v : list Q) : Q :=
  match u, v with
  | a :: u', b :: v' => (a * b + dot u' v')%Q
  | _, _ => 0%Q
  end.

(** [tf.gather(params, indices, batch_dims=1)], one row. *)
Definition gather {A} (d : A) (params : list A) (indices : list nat) : list A :=
  map (fun i => nth i params d) indices.

(** [tf.math.top_k(scores, k, sorted=False)], the indices it returns for
    one row: the positions of the [k] largest entries, lower index first
    among equal entries.  With [sorted=False] TensorFlow leaves the order of
    the [k] results open; the model lists them by rank, and the statements
    below speak of membership and counts only.  TensorFlow rejects a [k]
    larger than the row; [SIM._check_params] keeps [search_topk] within
    [long_max_len]. *)
Definition top_k (scores : list Q) (k : nat) : list nat :=
  map fst (firstn k (sorted_desc (@snd nat Q)
                       (combine (seq 0 (length scores)) scores))).

(** [-1e9] *)
Definition neg_1e9 : Q := (-1000000000 # 1)%Q.

(** [-1e9 * tf.ones_like(scores)] *)
Definition paddings_like (scores : list Q) : list Q :=
  map (fun _ => (neg_1e9 * 1)%Q) scores.

(* ===================================================================== *)
(** * The general search unit, [SIM._gsu_module]                          *)
(* ===================================================================== *)

Module GSU.

(** One example of the batch as [_gsu_module] sees it: the candidate
    embedding (K), the long sequence embeddings (L x K) and the true
    length of the long sequence. *)
Record row : Type := {
  target_embeds : list Q;
  long_seq_embeds : list (list Q);
  long_seq_len : nat
}.

(** [tf.linalg.matmul(target, long_seq_embeds, transpose_b=True)]
    followed by [tf.squeeze]. *)
Definition raw_scores (r : row) : list Q :=
  map (dot (target_embeds r)) (long_seq_embeds r).

Definition seq_mask (long_max_len : nat) (r : row) : list bool :=
  sequence_mask (long_seq_len r) long_max_len.

(** [scores = tf.where(seq_mask, scores, paddings)] *)
Definition masked_scores (long_max_len : nat) (r : row) : list Q :=
  tf_where (seq_mask long_max_len r) (raw_scores r)
           (paddings_like (raw_scores r)).

Definition indices (long_max_len search_topk : nat) (r : row) : list nat :=
  top_k (masked_scores long_max_len r) search_topk.

(** [_gsu_module], one example: the gathered embeddings and the
    gathered mask. *)
Definition _gsu_module (long_max_len search_topk : nat) (r : row)
  : list (list Q) * list bool :=
  let idx := indices long_max_len search_topk r in
  (gather [] (long_seq_embeds r) idx,
   gather false (seq_mask long_max_len r) idx).

(** The whole batch. *)
Definition _gsu_module_batch (long_max_len search_topk : nat)
    (batch : list row) : list (list (list Q) * list bool) :=
  map (_gsu_module long_max_len search_topk) batch.

(** A placeholder row has the shape [long_max_len x K]. *)
Definition well_shaped (long_max_len : nat) (r : row) : Prop :=
  length (long_seq_embeds r) = long_max_len.

(** Number of [False] entries of a mask. *)
Definition count_false (m : list bool) : nat :=
  length (filter negb m).

End GSU.

(* ===================================================================== *)
(** * Python values, slices and calls                                     *)
(* ===================================================================== *)

(** The values that travel through the data pipeline: [None], a flag, and
    one- or two-dimensional numpy arrays of indices or of floats. *)
Inductive pyval : Type :=
| PyNone
| PyBool (b : bool)
| PyIntArray (a : list nat)
| PyFloatArray (a : list Q)
| PyIntMatrix (a : list (list nat))
| PyFloatMatrix (a : list (list Q)).

(** [slice(start, stop)] with non-negative bounds, as [compute_preds]
    builds it. *)
Record pyslice : Type := { start : nat; stop : nat }.

Definition slice_list {A} (s : pyslice) (l : list A) : list A :=
  firstn (stop s - start s) (skipn (start s) l).

(** [v[s]]: numpy clips a slice to the array; [None] is not
    subscriptable. *)
Definition py_getslice (v : pyval) (s : pyslice) : py pyval :=
  match v with
  | PyIntArray a => ret (PyIntArray (slice_list s a))
  | PyFloatArray a => ret (PyFloatArray (slice_list s a))
  | PyIntMatrix a => ret (PyIntMatrix (slice_list s a))
  | PyFloatMatrix a => ret (PyFloatMatrix (slice_list s a))
  | PyNone | PyBool _ => raise (TypeError "object is not subscriptable")
  end.

(** Number of rows of an array ([len(v)]). *)
Definition py_len (v : pyval) : nat :=
  match v with
  | PyIntArray a => length a
  | PyFloatArray a => length a
  | PyIntMatrix a => length a
  | PyFloatMatrix a => length a
  | PyNone | PyBool _ => 0
  end.

(** Binding the positional and keyword arguments of a call to the parameters
    [params] of [f] (after [self]), every one of which has the default
    [None]: positional arguments fill the parameters from the left, a
    surplus is a [TypeError]; a keyword must name a parameter that is not
    bound yet, anything else is a [TypeError]. *)
Section Call.
Definition bindings : Type := list (string * pyval).

Fixpoint lookup (name : string) (env : bindings) : option pyval :=
  match env with
  | [] => None
  | (n, v) :: env' => if String.eqb n name then Some v else lookup name env'
  end.

Fixpoint bind_positional (params : list string) (args : list pyval)
  : py bindings :=
  match args, params with
  | [], _ => ret []
  | _ :: _, [] => raise (TypeError "too many positional arguments")
  | a :: args', p :: params' =>
      env <- bind_positional params' args' ;; ret ((p, a) :: env)
  end.

Fixpoint bind_keywords (params : list string) (env : bindings)
    (kwargs : bindings) : py bindings :=
  match kwargs with
  | [] => ret env
  | (k, v) :: kwargs' =>
      if negb (str_in k params) then
        raise (TypeError ("got an unexpected keyword argument " ++ k))
      else match lookup k env with
           | Some _ =>
               raise (TypeError ("got multiple values for argument " ++ k))
           | None => bind_keywords params ((k, v) :: env) kwargs'
           end
  end.

Definition bind_call (params : list string) (args : list pyval)
    (kwargs : bindings) : py bindings :=
  env <- bind_positional params args ;;
  bind_keywords params env kwargs.

(** The value of a parameter after binding, [None] by default. *)
Definition arg (name : string) (env : bindings) : pyval :=
  match lookup name env with Some v => v | None => PyNone end.
End Call.

(* ===================================================================== *)
(** * [libreco/data/transformed.py]: class [TransformedSet]               *)
(* ===================================================================== *)

Module TransformedSet.

(** The attributes [__init__] sets.  The sparse interaction matrix
    that scipy builds from the three arrays is carried by
    [UserCF.TrainData], where [fit] reads it; its construction, the
    last statement of [__init__], is scipy's and is left out here: it
    comes after the binding of the arguments and can only add
    failures. *)
Record t : Type := {
  _user_indices : pyval;
  _item_indices : pyval;
  _labels : pyval;
  _sparse_indices : pyval;
  _dense_values : pyval
}.

(** Parameters of [__init__] after [self]. *)
Definition init_params : list string :=
  ["user_indices"; "item_indices"; "labels"; "sparse_indices";
   "dense_values"].

(** [__init__], called with positional and keyword arguments. *)
Definition __init__ (args : list pyval) (kwargs : bindings) : py t :=
  env <- bind_call init_params args kwargs ;;
  ret {| _user_indices := arg "user_indices" env;
         _item_indices := arg "item_indices" env;
         _labels := arg "labels" env;
         _sparse_indices := arg "sparse_indices" env;
         _dense_values := arg "dense_values" env |}.

(** What the class defines: methods and properties. *)
Definition class_attributes : list string :=
  ["__init__"; "__len__"; "__getitem__"; "user_indices"; "item_indices";
   "sparse_indices"; "dense_values"; "labels"; "sparse_interaction"].

(** What an instance carries. *)
Definition instance_attributes : list string :=
  ["_user_indices"; "_item_indices"; "_labels"; "_sparse_indices";
   "_dense_values"; "_sparse_interaction"].

(** Attribute lookup [obj.name] for a method call: the name must be an
    attribute of the instance or of the class. *)
Definition getattr (self : t) (name : string) : py unit :=
  if str_in name instance_attributes || str_in name class_attributes
  then ret tt
  else raise (AttributeError name).

Definition user_indices (self : t) : pyval := _user_indices self.
Definition item_indices (self : t) : pyval := _item_indices self.
Definition sparse_indices (self : t) : pyval := _sparse_indices self.
Definition dense_values (self : t) : pyval := _dense_values self.
Definition labels (self : t) : pyval := _labels self.

(** [__len__] *)
Definition __len__ (self : t) : nat := py_len (labels self).

(** [__getitem__]: a tuple of three slices. *)
Definition __getitem__ (self : t) (index : pyslice) : py (list pyval) :=
  u <- py_getslice (user_indices self) index ;;
  i <- py_getslice (item_indices self) index ;;
  l <- py_getslice (labels self) index ;;
  ret [u; i; l].

End TransformedSet.

(* ===================================================================== *)
(** * Vectors                                                             *)
(* ===================================================================== *)

(** Scalar times vector, and the element-wise sum of two vectors. *)
Definition vscale (a : Q) (v : list Q) : list Q := map (Qmult a) v.

Fixpoint vadd (u v : list Q) : list Q :=
  match u, v with
  | a :: u', b :: v' => (a + b)%Q :: vadd u' v'
  | _, _ => []
  end.

(** [tf.reduce_sum(x, axis=1)] of one example: the sum of its rows. *)
Definition reduce_sum (rows : list (list Q)) : list Q :=
  match rows with
  | [] => []
  | r :: rows' => fold_left vadd rows' r
  end.

(** [tf.zeros_like] *)
Definition zeros_like (v : list Q) : list Q := map (fun _ => 0%Q) v.

(* ===================================================================== *)
(** * Calls to collaborators                                              *)
(* ===================================================================== *)

(** A computation that calls functions of other modules: the names of the
    calls made are recorded in the order of the calls, also when the
    computation ends in an exception. *)
Definition traced (A : Type) : Type := list string -> list string * py A.

#[global] Instance Monad_traced : Monad traced :=
  {| ret := fun _ a log => (log, inr a);
     bind := fun _ _ m f log =>
       match m log with
       | (log', inr a) => f a log'
       | (log', inl e) => (log', inl e)
       end |}.

(** The call [name(...)] with outcome [c]. *)
Definition call {A} (name : string) (c : py A) : traced A :=
  fun log => (log ++ [name], c).

(** The calls made by a computation, and what it returns or raises. *)
Definition calls_made {A} (m : traced A) : list string := fst (m []).
Definition outcome {A} (m : traced A) : py A := snd (m []).

(* ===================================================================== *)
(** * [libreco/algorithms/sim.py]: class [SIM]                            *)
(* ===================================================================== *)

Module SIM.

(** The arguments of [SIM.__init__] that the code below reads.  The
    training hyper-parameters ([n_epochs], [lr], [batch_size], ...) are
    stored by the constructor and read only by the training loop.
    [data_info] is represented by what [TfBase] takes from it. *)
Record args : Type := {
  a_task : string;
  a_n_users : nat;
  a_n_items : nat;
  a_user_consumed : nat -> list nat;
  a_loss_type : string;
  a_alpha : Q;
  a_beta : Q;
  a_search_topk : Z;
  a_long_max_len : Z;
  a_short_max_len : Z;
  a_lower_bound : Q;
  a_upper_bound : Q
}.

(** The sequence cache: long sequences, long lengths, short sequences,
    short lengths, by user. *)
Definition seq_cache : Type :=
  (list (list nat) * list nat * list (list nat) * list nat)%type.

(** The instance. *)
Record t : Type := {
  task : string;
  n_users : nat;
  n_items : nat;
  user_consumed : nat -> list nat;
  lower_bound : Q;
  upper_bound : Q;
  loss_type : string;
  alpha : Q;
  beta : Q;
  search_topk : Z;
  long_max_len : Z;
  short_max_len : Z;
  cached_seqs : seq_cache
}.

(** [_check_params] *)
Definition _check_params (self : t) : py unit :=
  py_assert (Qle_bool 0 (alpha self) && Qle_bool (alpha self) 1) ;;
  py_assert (Qle_bool 0 (beta self) && Qle_bool (beta self) 1) ;;
  py_assert (0 <? short_max_len self)%Z ;;
  py_assert ((search_topk self <=? long_max_len self)%Z
             && (0 <? search_topk self)%Z) ;;
  if String.eqb (task self) "ranking"
     && negb (str_in (loss_type self) ["cross_entropy"; "focal"])
  then raise (ValueError ("unsupported `loss_type`: " ++ loss_type self))
  else ret tt.

(** The collaborators of [__init__] from other modules, each of which
    may raise: [TfBase.__init__], the configuration helpers
    [reg_config], [dropout_config] and [hidden_units_config], the
    builder of the sequence cache [get_recent_dual_seqs], and the checks
    of [utils.validate].  Apart from the cache and the two flags
    [sparse] and [dense], what they return is stored in attributes that
    nothing below reads. *)
Record helpers : Type := {
  TfBase__init__ : py unit;
  reg_config : py unit;
  dropout_config : py unit;
  hidden_units_config : py unit;
  get_recent_dual_seqs :
    nat -> (nat -> list nat) -> nat -> Z -> Z -> py seq_cache;
  check_sparse_indices : py bool;
  check_dense_values : py bool;
  sparse_feat_size : py unit;
  sparse_field_size : py unit;
  check_multi_sparse : py unit;
  dense_field_size : py unit
}.

(** The attributes of the instance once the cache is built. *)
Definition attributes (a : args) (cached : seq_cache) : t :=
  {| task := a_task a;
     n_users := a_n_users a;
     n_items := a_n_items a;
     user_consumed := a_user_consumed a;
     lower_bound := a_lower_bound a;
     upper_bound := a_upper_bound a;
     loss_type := a_loss_type a;
     alpha := a_alpha a;
     beta := a_beta a;
     search_topk := a_search_topk a;
     long_max_len := a_long_max_len a;
     short_max_len := a_short_max_len a;
     cached_seqs := cached |}.

(** [__init__], statement by statement: the base class is initialised,
    the attributes are stored, the configuration helpers run, the
    sequence cache is built, the feature checks run, and
    [self._check_params()] is the last statement; the instance exists
    only if all of that passes. *)
Definition __init__ (h : helpers) (a : args) : traced t :=
  call "TfBase.__init__" (TfBase__init__ h) ;;
  call "reg_config" (reg_config h) ;;
  call "dropout_config" (dropout_config h) ;;
  call "hidden_units_config" (hidden_units_config h) ;;
  cached <- call "get_recent_dual_seqs"
              (get_recent_dual_seqs h (a_n_users a) (a_user_consumed a)
                 (a_n_items a) (a_long_max_len a) (a_short_max_len a)) ;;
  sparse <- call "check_sparse_indices" (check_sparse_indices h) ;;
  dense <- call "check_dense_values" (check_dense_values h) ;;
  (if sparse : bool then
     call "sparse_feat_size" (sparse_feat_size h) ;;
     call "sparse_field_size" (sparse_field_size h) ;;
     call "check_multi_sparse" (check_multi_sparse h)
   else ret tt) ;;
  (if dense : bool then call "dense_field_size" (dense_field_size h)
   else ret tt) ;;
  let self := attributes a cached in
  call "_check_params" (_check_params self) ;;
  ret self.

(** Every collaborator that [__init__] calls returns. *)
Definition helpers_return (h : helpers) (a : args) : Prop :=
  TfBase__init__ h = inr tt
  /\ reg_config h = inr tt
  /\ dropout_config h = inr tt
  /\ hidden_units_config h = inr tt
  /\ returns (get_recent_dual_seqs h (a_n_users a) (a_user_consumed a)
                (a_n_items a) (a_long_max_len a) (a_short_max_len a))
  /\ exists sparse dense,
       check_sparse_indices h = inr sparse
       /\ check_dense_values h = inr dense
       /\ (sparse = true ->
           sparse_feat_size h = inr tt /\ sparse_field_size h = inr tt
           /\ check_multi_sparse h = inr tt)
       /\ (dense = true -> dense_field_size h = inr tt).

(** The configurations the specification calls invalid. *)
Definition invalid (a : args) : Prop :=
  ~ (0 <= a_alpha a <= 1)%Q \/ ~ (0 <= a_beta a <= 1)%Q
  \/ (a_short_max_len a <= 0)%Z
  \/ (a_search_topk a <= 0)%Z
  \/ (a_search_topk a > a_long_max_len a)%Z
  \/ (a_task a = "ranking"
      /\ a_loss_type a <> "cross_entropy" /\ a_loss_type a <> "focal").

(** One example of a feed: the values of the placeholders. *)
Record example : Type := {
  user_indices : nat;
  item_indices : nat;
  long_seqs : list nat;
  long_seq_lens : nat;
  short_seqs : list nat;
  short_seq_lens : nat;
  sparse_indices : list nat;
  dense_values : list Q
}.

Definition batch : Type := list example.

(** A tensor with one scalar per example, as a function of the feed. *)
Definition tensor : Type := batch -> list Q.

Section Graph.
(** Building blocks from other modules of the package:
    the rows of [combine_seq_features(data_info, "concat")], the two
    towers [dense_nn] followed by [tf_dense(units=1)] (in inference
    mode, one example at a time), [tf_attention], the feature fusion
    [_build_features] with its embedding tables, and
    [TfBase.build_topk]. *)
Variable seq_feats : nat -> list Q.
Variable first_stage_mlp : list Q -> Q.
Variable second_stage_mlp : list Q -> Q.
Variable tf_attention : list Q -> list (list Q) -> list bool -> list Q.
Variable _build_features : example -> list Q.
Variable topk_op : Type.
Variable build_topk : tensor -> topk_op.

Variable self : t.

Definition L : nat := Z.to_nat (long_max_len self).
Definition K : nat := Z.to_nat (search_topk self).

(** [tf.nn.embedding_lookup(self.seq_feats, self.item_indices)] *)
Definition target_embeds (e : example) : list Q :=
  seq_feats (item_indices e).

(** [tf.nn.embedding_lookup(self.seq_feats, self.long_seqs)] *)
Definition long_seq_embeds (e : example) : list (list Q) :=
  map seq_feats (long_seqs e).

Definition gsu_row (e : example) : GSU.row :=
  {| GSU.target_embeds := target_embeds e;
     GSU.long_seq_embeds := long_seq_embeds e;
     GSU.long_seq_len := long_seq_lens e |}.

(** [_build_first_stage], one example. *)
Definition _build_first_stage (e : example) : Q :=
  let seq_mask := sequence_mask (long_seq_lens e) L in
  let embeds := long_seq_embeds e in
  let masked :=
    tf_where seq_mask embeds (map (@zeros_like) embeds) in
  let pool_seq_embeds := reduce_sum masked in
  first_stage_mlp (target_embeds e ++ pool_seq_embeds).

Definition _esu_module (e : example)
    (top_k_seq_embeds : list (list Q)) (top_k_masks : list bool) : list Q :=
  tf_attention (target_embeds e) top_k_seq_embeds top_k_masks.

Definition _din_module (e : example) : list Q :=
  let short_seq_embeds := map seq_feats (short_seqs e) in
  let seq_mask :=
    sequence_mask (short_seq_lens e) (Z.to_nat (short_max_len self)) in
  tf_attention (target_embeds e) short_seq_embeds seq_mask.

(** [_build_second_stage], one example. *)
Definition _build_second_stage (e : example) : Q :=
  let '(top_k_seq_embeds, top_k_masks) :=
    GSU._gsu_module L K (gsu_row e) in
  let long_seq_out := _esu_module e top_k_seq_embeds top_k_masks in
  let short_seq_out := _din_module e in
  second_stage_mlp (long_seq_out ++ short_seq_out ++ _build_features e).

Definition first_stage_out : tensor := map _build_first_stage.
Definition second_stage_out : tensor := map _build_second_stage.

(** What [build_model] leaves on the instance. *)
Record graph : Type := {
  output : tensor;
  inference_output : tensor;
  serving_topk : topk_op
}.

Definition build_model : graph :=
  {| output := fun feed =>
       vadd (vscale (alpha self) (first_stage_out feed))
            (vscale (beta self) (second_stage_out feed));
     inference_output := second_stage_out;
     serving_topk := build_topk second_stage_out |}.
End Graph.

End SIM.

(* ===================================================================== *)
(** * [libreco/evaluate/computation.py]                                   *)
(* ===================================================================== *)

(** [np.maximum], [np.minimum] and [np.clip] on scalars. *)
Definition np_maximum (a b : Q) : Q := if Qle_bool a b then b else a.
Definition np_minimum (a b : Q) : Q := if Qle_bool a b then a else b.
Definition np_clip (x lo hi : Q) : Q := np_minimum (np_maximum x lo) hi.

Module Computation.

(** What the functions below read from [data_info]. *)
Record DataInfo : Type := {
  n_users : nat;
  n_items : nat;
  user2id : list (string * nat);
  item2id : list (string * nat);
  col_name_mapping : option (list string)
}.

(** The columns of the evaluation data frame that are read here. *)
Record Frame : Type := {
  user : list string;
  item : list string;
  label : list Q
}.

(** [d.get(k, default)] *)
Fixpoint dict_get (d : list (string * nat)) (k : string) (default : nat)
  : nat :=
  match d with
  | [] => default
  | (k', v) :: d' => if String.eqb k' k then v else dict_get d' k default
  end.

(** The model as the evaluation driver sees it: [Feed] is the type of a
    feed dictionary, [output] the tensor [model.output] as a function of
    the feed ([model.sess.run(model.output, feed_dict)]). *)
Record Model (Feed : Type) : Type := {
  data_info : DataInfo;
  sparse : bool;
  dense : bool;
  task : string;
  lower_bound : Q;
  upper_bound : Q;
  output : Feed -> list Q;
  _get_feed_dict : pyval -> pyval -> pyval -> pyval -> pyval -> bool -> Feed
}.

(** Anything that can be sliced into a tuple of arrays. *)
Record Dataset : Type := {
  __getitem__ : pyslice -> py (list pyval)
}.

Definition of_TransformedSet (d : TransformedSet.t) : Dataset :=
  {| __getitem__ := TransformedSet.__getitem__ d |}.

(** [[data_info.user2id.get(u, n_users) for u in users]] *)
Definition user_indices_of (di : DataInfo) (users : list string) : list nat :=
  map (fun u => dict_get (user2id di) u (n_users di)) users.

Definition item_indices_of (di : DataInfo) (items : list string) : list nat :=
  map (fun i => dict_get (item2id di) i (n_items di)) items.

Section BuildTransformedData.
Variable Feed : Type.
(** Collaborators from [libreco.feature], pandas and [data_info]. *)
Variable features_from_batch_data :
  DataInfo -> bool -> bool -> Frame -> pyval * pyval.
Variable drop_duplicates : string -> Frame -> Frame.
Variable assign_user_features : DataInfo -> Frame -> DataInfo.
Variable assign_item_features : DataInfo -> Frame -> DataInfo.

(** The statements of [build_transformed_data] after the dataset has
    been constructed; the second component of the result is
    [model.data_info] as the function leaves it. *)
Definition after_construction (model : Model Feed) (data : Frame)
    (negative_sample update_features : bool) (seed : nat)
    (transformed_data : TransformedSet.t)
  : py (TransformedSet.t * DataInfo) :=
  let di := data_info model in
  let di :=
    if update_features then
      let user_data := drop_duplicates "user" data in
      let item_data := drop_duplicates "item" data in
      assign_item_features (assign_user_features di user_data) item_data
    else di in
  (if negative_sample
   then TransformedSet.getattr transformed_data "build_negative_samples"
   else ret tt) ;;
  ret (transformed_data, di).

Definition build_transformed_data (model : Model Feed) (data : Frame)
    (negative_sample update_features : bool) (seed : nat)
  : py (TransformedSet.t * DataInfo) :=
  let di := data_info model in
  let user_indices := PyIntArray (user_indices_of di (user data)) in
  let item_indices := PyIntArray (item_indices_of di (item data)) in
  let labels := PyFloatArray (label data) in
  let '(sparse_indices, dense_values) :=
    match col_name_mapping di with
    | Some _ =>
        features_from_batch_data di (sparse model) (dense model) data
    | None => (PyNone, PyNone)
    end in
  transformed_data <-
    TransformedSet.__init__
      [user_indices; item_indices; labels; sparse_indices; dense_values]
      [("train", PyBool false)] ;;
  after_construction model data negative_sample update_features seed
    transformed_data.
End BuildTransformedData.

(** Unpacking a tuple into five names. *)
Definition unpack5 (tup : list pyval)
  : py (pyval * pyval * pyval * pyval * pyval) :=
  match tup with
  | [a; b; c; d; e] => ret (a, b, c, d, e)
  | _ => raise (ValueError "wrong number of values to unpack (expected 5)")
  end.

Section Predict.
(** [np.exp] *)
Variable np_exp : Q -> Q.
Variable Feed : Type.

Definition sigmoid (x : Q) : Q := (1 / (1 + np_exp (- x)))%Q.

Definition predict_tf_feat (model : Model Feed)
    (transformed_data : Dataset) (batch_slice : pyslice) : py (list Q) :=
  tup <- __getitem__ transformed_data batch_slice ;;
  '(user_indices, item_indices, labels, sparse_indices, dense_values) <-
    unpack5 tup ;;
  let feed_dict :=
    _get_feed_dict model user_indices item_indices sparse_indices
      dense_values PyNone false in
  (* [sess.run] of a vector tensor is an array, returned as a list *)
  let preds := output model feed_dict in
  let preds :=
    if String.eqb (task model) "rating" then
      map (fun p => np_clip p (lower_bound model) (upper_bound model)) preds
    else if String.eqb (task model) "ranking" then
      map sigmoid preds
    else preds in
  ret preds.
End Predict.

(** The view of a built [SIM] instance that the driver uses: its [task],
    its bounds and the tensor [output]. *)
Definition of_SIM (topk_op : Type) (self : SIM.t) (g : SIM.graph topk_op)
    (di : DataInfo) (sparse dense : bool)
    (_get_feed_dict :
       pyval -> pyval -> pyval -> pyval -> pyval -> bool -> SIM.batch)
  : Model SIM.batch :=
  {| data_info := di;
     sparse := sparse;
     dense := dense;
     task := SIM.task self;
     lower_bound := SIM.lower_bound self;
     upper_bound := SIM.upper_bound self;
     output := SIM.output g;
     _get_feed_dict := _get_feed_dict |}.

End Computation.

(* ===================================================================== *)
(** * Sparse matrices and numpy helpers                                   *)
(* ===================================================================== *)

(** A [scipy.sparse.csr_matrix]. *)
Record csr : Type := {
  indptr : list nat;
  indices : list nat;
  data : list Q
}.

(** [a[i]] on a numpy array with a non-negative index. *)
Definition np_index {A} (a : list A) (i : nat) : py A :=
  match nth_error a i with
  | Some x => ret x
  | None => raise IndexError
  end.

(** Row [r]: [m.indices[s]] and [m.data[s]] for
    [s = slice(m.indptr[r], m.indptr[r+1])]. *)
Definition csr_row (m : csr) (r : nat) : py (list nat * list Q) :=
  lo <- np_index (indptr m) r ;;
  hi <- np_index (indptr m) (r + 1) ;;
  let s := {| start := lo; stop := hi |} in
  ret (slice_list s (indices m), slice_list s (data m)).

(** [m.has_sorted_indices]: within every row no column index is followed
    by a smaller one. *)
Fixpoint nondecreasing (l : list nat) : bool :=
  match l with
  | a :: ((b :: _) as l') => (a <=? b) && nondecreasing l'
  | _ => true
  end.

Definition has_sorted_indices (m : csr) : bool :=
  forallb (fun r =>
             match csr_row m r with
             | inr (cols, _) => nondecreasing cols
             | inl _ => false
             end)
          (seq 0 (length (indptr m) - 1)).

(** Position of the first occurrence. *)
Fixpoint index_of (x : nat) (l : list nat) : nat :=
  match l with
  | [] => 0
  | y :: l' => if x =? y then 0 else S (index_of x l')
  end.

(** [np.intersect1d(a, b, assume_unique=True, return_indices=True)]: the
    common values in increasing order, with their positions in [a] and in
    [b]. *)
Definition intersect1d (a b : list nat)
  : list nat * list nat * list nat :=
  let common :=
    sorted_desc (fun x => (- inject_Z (Z.of_nat x))%Q)
                (filter (fun x => nat_in x b) a) in
  (common, map (fun c => index_of c a) common,
           map (fun c => index_of c b) common).

Definition qsum (l : list Q) : Q := fold_right Qplus 0%Q l.

(** [np.mean] *)
Definition np_mean (l : list Q) : Q :=
  (qsum l / inject_Z (Z.of_nat (length l)))%Q.

(** [np.average(values, weights=w)] *)
Definition np_average (values w : list Q) : Q :=
  (dot values w / qsum w)%Q.

(** [itertools.takewhile] *)
Fixpoint takewhile {A} (p : A -> bool) (l : list A) : list A :=
  match l with
  | x :: l' => if p x then x :: takewhile p l' else []
  | [] => []
  end.

(** Rounding to the nearest integer, halves to the even neighbour. *)
Definition rint (x : Q) : Z :=
  let f := Qfloor x in
  match ((x - inject_Z f) ?= (1 # 2))%Q with
  | Lt => f
  | Gt => (f + 1)%Z
  | Eq => if Z.even f then f else (f + 1)%Z
  end.

(** [round(x, 4)] *)
Definition round4 (x : Q) : Q :=
  (inject_Z (rint (x * 10000)) / 10000)%Q.

(** An index into a Python list: an integer, or a sequence of positions
    (a list or an array). *)
Inductive pyindex : Type :=
| IdxInt (i : nat)
| IdxSeq (l : list nat).

Fixpoint replace_nth {A} (n : nat) (v : A) (l : list A) : list A :=
  match l, n with
  | [], _ => []
  | _ :: l', 0 => v :: l'
  | x :: l', S n' => x :: replace_nth n' v l'
  end.

(** [l[idx] = v] on a Python list: the index must be an integer. *)
Definition list_setitem {A} (l : list A) (idx : pyindex) (v : A)
  : py (list A) :=
  match idx with
  | IdxInt i =>
      if i <? length l then ret (replace_nth i v l) else raise IndexError
  | IdxSeq _ =>
      raise (TypeError "list indices must be integers or slices, not list")
  end.

(** Reading an attribute that is [None] until [fit] has run. *)
Definition fitted {A} (name : string) (o : option A) : py A :=
  match o with
  | Some a => ret a
  | None => raise (AttributeError name)
  end.

(** Truth value of [not user] where [user] is an index or [None]. *)
Definition py_not (user : option nat) : bool :=
  match user with
  | None => true
  | Some 0 => true
  | Some (S _) => false
  end.

(** [0 < x] as a test. *)
Definition Qpos_bool (x : Q) : bool := negb (Qle_bool x 0).

(* ===================================================================== *)
(** * [libreco/algorithms/user_cf.py]: class [UserCF]                     *)
(* ===================================================================== *)

Module UserCF.

(** What [fit] reads from the training set. *)
Record TrainData : Type := {
  sparse_interaction : csr;
  td_user_consumed : nat -> list nat
}.

(** The instance.  The three matrices and [user_consumed] are [None]
    until [fit] has run. *)
Record t : Type := {
  task : string;
  k : nat;
  default_prediction : Q;
  n_users : nat;
  n_items : nat;
  sim_type : string;
  lower_bound : Q;
  upper_bound : Q;
  user_consumed : option (nat -> list nat);
  user_interaction : option csr;
  item_interaction : option csr;
  sim_matrix : option csr
}.

(** [_caution_sim_type]: the lines it prints. *)
Definition _caution_sim_type (self : t) : list string :=
  let caution_str :=
    ("Warning: " ++ sim_type self
       ++ " is not suitable for implicit data")%string in
  (if String.eqb (task self) "ranking" && String.eqb (sim_type self) "pearson"
   then [caution_str] else [])
  ++ (if String.eqb (task self) "rating" && String.eqb (sim_type self) "jaccard"
      then [caution_str] else []).

(** [__init__]: the instance and what was printed.  [global_mean],
    [n_users] and [n_items] come from [data_info], the bounds from
    [Base.__init__]. *)
Definition __init__ (task : string) (global_mean : Q) (n_users n_items : nat)
    (sim_type : string) (k : nat) (lower_bound upper_bound : Q)
  : py (t * list string) :=
  let self :=
    {| task := task;
       k := k;
       default_prediction :=
         if String.eqb task "rating" then global_mean else 0%Q;
       n_users := n_users;
       n_items := n_items;
       sim_type := sim_type;
       lower_bound := lower_bound;
       upper_bound := upper_bound;
       user_consumed := None;
       user_interaction := None;
       item_interaction := None;
       sim_matrix := None |} in
  ret (self, _caution_sim_type self).

Section Fit.
(** The similarity functions of [libreco.utils.similarities] and
    scipy's transposition.  [sim_opts] stands for the arguments
    [block_size], [num_threads], [min_common] and [mode]. *)
Variable sim_opts : Type.
Variable cosine_sim pearson_sim jaccard_sim :
  csr -> csr -> nat -> nat -> sim_opts -> csr.
Variable transpose_tocsr : csr -> csr.

(** [fit], up to the report it prints at the end. *)
Definition fit (self : t) (train_data : TrainData) (opts : sim_opts)
  : py t :=
  let user_interaction := sparse_interaction train_data in
  let item_interaction := transpose_tocsr user_interaction in
  sim_func <-
    (if String.eqb (sim_type self) "cosine" then ret cosine_sim
     else if String.eqb (sim_type self) "pearson" then ret pearson_sim
     else if String.eqb (sim_type self) "jaccard" then ret jaccard_sim
     else raise (ValueError
       "sim_type must be one of ('cosine', 'pearson', 'jaccard')")) ;;
  let sim_matrix :=
    sim_func user_interaction item_interaction (n_users self)
             (n_items self) opts in
  py_assert (has_sorted_indices sim_matrix) ;;
  ret {| task := task self;
         k := k self;
         default_prediction := default_prediction self;
         n_users := n_users self;
         n_items := n_items self;
         sim_type := sim_type self;
         lower_bound := lower_bound self;
         upper_bound := upper_bound self;
         user_consumed := Some (td_user_consumed train_data);
         user_interaction := Some user_interaction;
         item_interaction := Some item_interaction;
         sim_matrix := Some sim_matrix |}.
End Fit.

(** The result of [predict]: one value for a single pair, a list
    otherwise. *)
Inductive prediction : Type :=
| One (p : Q)
| Many (ps : list Q).

Section Predict.
(** [Base._check_unknown], inherited from the base class: the number
    of unknown entries, their index, and the two arrays as the loop is
    to read them. *)
Variable _check_unknown :
  t -> list nat -> list nat -> nat * pyindex * list nat * list nat.

(** The body of the loop for one pair: the value appended to [preds],
    if any. *)
Definition predict_pair (self : t) (sim_matrix interaction : csr)
    (u i : nat) : py (option Q) :=
  '(sim_users, sim_values) <- csr_row sim_matrix u ;;
  '(item_interacted_u, item_interacted_values) <- csr_row interaction i ;;
  let '(common_users, indices_in_u, indices_in_i) :=
    intersect1d sim_users item_interacted_u in
  let common_sims := gather 0%Q sim_values indices_in_u in
  let common_labels := gather 0%Q item_interacted_values indices_in_i in
  if (length common_users =? 0)
     || forallb (fun s => Qle_bool s 0) common_sims
  then ret (Some (default_prediction self))
  else
    let neighbors :=
      firstn (k self)
        (takewhile (fun x => Qpos_bool (snd x))
           (sorted_desc (@snd Q Q) (combine common_labels common_sims))) in
    match neighbors with
    | [] => raise (ValueError "not enough values to unpack")
    | _ :: _ =>
        let k_neighbor_labels := map fst neighbors in
        let k_neighbor_sims := map snd neighbors in
        if String.eqb (task self) "rating" then
          let sims_distribution :=
            map (fun s => (s / qsum k_neighbor_sims)%Q) k_neighbor_sims in
          let weighted_pred :=
            np_average k_neighbor_labels sims_distribution in
          ret (Some (np_clip weighted_pred (lower_bound self)
                             (upper_bound self)))
        else if String.eqb (task self) "ranking" then
          ret (Some (np_mean k_neighbor_sims))
        else ret None
    end.

Fixpoint predict_loop (self : t) (sim_matrix interaction : csr)
    (pairs : list (nat * nat)) (preds : list Q) : py (list Q) :=
  match pairs with
  | [] => ret preds
  | (u, i) :: pairs' =>
      p <- predict_pair self sim_matrix interaction u i ;;
      predict_loop self sim_matrix interaction pairs'
        (match p with Some v => preds ++ [v] | None => preds end)
  end.

Definition predict (self : t) (user item : list nat) : py prediction :=
  let '(unknown_num, unknown_index, user, item) :=
    _check_unknown self user item in
  sim_matrix <- fitted "indptr" (sim_matrix self) ;;
  interaction <- fitted "indptr" (item_interaction self) ;;
  preds <- predict_loop self sim_matrix interaction (combine user item) [] ;;
  preds <-
    (if 0 <? unknown_num
     then list_setitem preds unknown_index (default_prediction self)
     else ret preds) ;;
  if length user =? 1 then p <- np_index preds 0 ;; ret (One p)
  else ret (Many preds).
End Predict.

(** The result of [recommend_user]: [None], [-1], or the ranked list. *)
Inductive recommendation : Type :=
| RecoNone
| RecoMinusOne
| RecoList (l : list (nat * Q)).

(** Modelled from the spec: [Base._check_unknown_user], inherited from
    the base class, whose code is not at hand.  A user index within the
    trained range [0 .. n_users - 1] is known and returned; the reserved
    index [n_users] and anything beyond stand for an unknown user, for
    whom [None] is returned. *)
Definition _check_unknown_user (self : t) (user : nat) : option nat :=
  if user <? n_users self then Some user else None.

(** [defaultdict(lambda: [0.0, 0])]: item -> [sim, count], in insertion
    order. *)
Definition scores : Type := list (nat * (Q * Q)).

(** [result[i][0] += a; result[i][1] += b] *)
Fixpoint bump (result : scores) (i : nat) (a b : Q) : scores :=
  match result with
  | [] => [(i, ((0 + a)%Q, (0 + b)%Q))]
  | (j, (s, c)) :: result' =>
      if j =? i then (j, ((s + a)%Q, (c + b)%Q)) :: result'
      else (j, (s, c)) :: bump result' i a b
  end.

(** The inner loop over the items of one neighbour. *)
Fixpoint add_items (u_consumed : list nat) (n_sim : Q)
    (items : list (nat * Q)) (result : scores) : scores :=
  match items with
  | [] => result
  | (i, v) :: items' =>
      if nat_in i u_consumed then add_items u_consumed n_sim items' result
      else add_items u_consumed n_sim items'
             (bump result i (n_sim * v)%Q n_sim)
  end.

(** The outer loop over the neighbours. *)
Fixpoint add_neighbors (user_interaction : csr) (u_consumed : list nat)
    (k_nbs_and_sims : list (nat * Q)) (result : scores) : py scores :=
  match k_nbs_and_sims with
  | [] => ret result
  | (n, n_sim) :: rest =>
      '(n_interacted_items, n_interacted_values) <-
        csr_row user_interaction n ;;
      add_neighbors user_interaction u_consumed rest
        (add_items u_consumed n_sim
           (combine n_interacted_items n_interacted_values) result)
  end.

Section Recommend.
(** [random.sample] *)
Variable random_sample : list (nat * Q) -> nat -> list (nat * Q).

(** [recommend_user]; [n_rec] is a count. *)
Definition recommend_user (self : t) (user n_rec : nat)
    (random_rec : bool) : py recommendation :=
  let user := _check_unknown_user self user in
  if py_not user then ret RecoNone
  else
    let user := match user with Some u => u | None => 0 end in
    sim <- fitted "indptr" (sim_matrix self) ;;
    '(sim_users, sim_values) <- csr_row sim user ;;
    if (length sim_users =? 0)
       || forallb (fun v => Qle_bool v 0) sim_values
    then ret RecoMinusOne
    else
      let k_nbs_and_sims :=
        firstn (k self)
          (sorted_desc (@snd nat Q) (combine sim_users sim_values)) in
      consumed <- fitted "__getitem__" (user_consumed self) ;;
      let u_consumed := consumed user in
      ui <- fitted "indices" (user_interaction self) ;;
      result <- add_neighbors ui u_consumed k_nbs_and_sims [] ;;
      let rank_items :=
        map (fun kv => (fst kv, round4 (fst (snd kv) / snd (snd kv))%Q))
            result in
      let rank_items := sorted_desc (@snd nat Q) rank_items in
      if random_rec then
        if length rank_items <? n_rec then ret (RecoList rank_items)
        else ret (RecoList (random_sample rank_items n_rec))
      else ret (RecoList (firstn n_rec rank_items)).
End Recommend.

End UserCF.

(* ===================================================================== *)
(** * Auxiliary notions                                                   *)
(* ===================================================================== *)

(** Order of the positions of a row. *)
Definition by_index (a b : nat * Q) : Prop := fst a < fst b.

(** The tests of [SIM._check_params], as one boolean. *)
Definition params_ok (self : SIM.t) : bool :=
  (Qle_bool 0 (SIM.alpha self) && Qle_bool (SIM.alpha self) 1)
  && (Qle_bool 0 (SIM.beta self) && Qle_bool (SIM.beta self) 1)
  && (0 <? SIM.short_max_len self)%Z
  && ((SIM.search_topk self <=? SIM.long_max_len self)%Z
      && (0 <? SIM.search_topk self)%Z)
  && negb (String.eqb (SIM.task self) "ranking"
           && negb (str_in (SIM.loss_type self) ["cross_entropy"; "focal"])).

(** What [predict_tf_feat] makes of the scores. *)
Definition transformed (np_exp : Q -> Q) (Feed : Type)
    (model : Computation.Model Feed) (scores : list Q) : list Q :=
  if String.eqb (Computation.task model) "rating" then
    map (fun p => np_clip p (Computation.lower_bound model)
                          (Computation.upper_bound model)) scores
  else if String.eqb (Computation.task model) "ranking" then
    map (Computation.sigmoid np_exp) scores
  else scores.



(** Modelled from the spec: [Base._check_unknown], inherited from the
    base class, whose code is not at hand.  The entries of a request whose
    user or item lies outside the trained range are counted and their
    positions listed; their IDs are mapped to the reserved sentinel IDs
    [n_users] and [n_items]. *)
Definition _check_unknown_by_range (self : UserCF.t) (user item : list nat)
  : nat * pyindex * list nat * list nat :=
  let known (ui : nat * nat) :=
    (fst ui <? UserCF.n_users self) && (snd ui <? UserCF.n_items self) in
  let unknown_index :=
    map fst (filter (fun x => negb (known (snd x)))
                    (combine (seq 0 (length user)) (combine user item))) in
  (length unknown_index, IdxSeq unknown_index,
   map (fun u => if u <? UserCF.n_users self then u else UserCF.n_users self)
       user,
   map (fun i => if i <? UserCF.n_items self then i else UserCF.n_items self)
       item).


(* ===================================================================== *)
(** * Concrete inputs                                                     *)
(* ===================================================================== *)

Module Examples.

(** Rows for the search unit: candidate [1], sequence embeddings of
    dimension one. *)
Definition gsu_row_4_of_5 : GSU.row :=
  {| GSU.target_embeds := [1%Q];
     GSU.long_seq_embeds := [[3%Q]; [5%Q]; [5%Q]; [1%Q]; [7%Q]];
     GSU.long_seq_len := 4 |}.

Definition gsu_row_1_of_3 : GSU.row :=
  {| GSU.target_embeds := [1%Q];
     GSU.long_seq_embeds := [[4%Q]; [0%Q]; [0%Q]];
     GSU.long_seq_len := 1 |}.

(** A row whose only real position scores below [-1e9]. *)
Definition gsu_row_below_sentinel : GSU.row :=
  {| GSU.target_embeds := [1%Q];
     GSU.long_seq_embeds := [[(-2000000000 # 1)%Q]; [0%Q]; [0%Q]];
     GSU.long_seq_len := 1 |}.

(** A small instance of the building blocks of the SIM graph: item [i]
    is embedded as [(i, 1)], the towers sum their input, attention is a
    masked sum. *)
Definition seq_feats (i : nat) : list Q := [inject_Z (Z.of_nat i); 1%Q].
Definition tower (v : list Q) : Q := qsum v.
Definition attention (query : list Q) (keys : list (list Q))
    (mask : list bool) : list Q :=
  reduce_sum (tf_where mask keys (map (@zeros_like) keys)).
Definition no_features (e : SIM.example) : list Q := [].
Definition topk_stub (t : SIM.tensor) : unit := tt.
Definition no_cache (n : nat) (c : nat -> list nat) (m : nat) (l s : Z)
  : SIM.seq_cache := ([], [], [], []).

(** Collaborators that all return; the data has no sparse and no
    dense features. *)
Definition sim_helpers : SIM.helpers :=
  {| SIM.TfBase__init__ := inr tt;
     SIM.reg_config := inr tt;
     SIM.dropout_config := inr tt;
     SIM.hidden_units_config := inr tt;
     SIM.get_recent_dual_seqs :=
       fun n c m l s => inr (no_cache n c m l s);
     SIM.check_sparse_indices := inr false;
     SIM.check_dense_values := inr false;
     SIM.sparse_feat_size := inr tt;
     SIM.sparse_field_size := inr tt;
     SIM.check_multi_sparse := inr tt;
     SIM.dense_field_size := inr tt |}.

Definition sim_args (task : string) (alpha beta : Q) : SIM.args :=
  {| SIM.a_task := task;
     SIM.a_n_users := 2;
     SIM.a_n_items := 4;
     SIM.a_user_consumed := fun _ => [];
     SIM.a_loss_type := "cross_entropy";
     SIM.a_alpha := alpha;
     SIM.a_beta := beta;
     SIM.a_search_topk := 2;
     SIM.a_long_max_len := 3;
     SIM.a_short_max_len := 2;
     SIM.a_lower_bound := 0%Q;
     SIM.a_upper_bound := 100%Q |}.

Definition sim_self (task : string) (alpha beta : Q) : SIM.t :=
  {| SIM.task := task;
     SIM.n_users := 2;
     SIM.n_items := 4;
     SIM.user_consumed := fun _ => [];
     SIM.lower_bound := 0%Q;
     SIM.upper_bound := 100%Q;
     SIM.loss_type := "cross_entropy";
     SIM.alpha := alpha;
     SIM.beta := beta;
     SIM.search_topk := 2;
     SIM.long_max_len := 3;
     SIM.short_max_len := 2;
     SIM.cached_seqs := ([], [], [], []) |}.

Definition sim_graph (self : SIM.t) : SIM.graph unit :=
  SIM.build_model seq_feats tower tower attention no_features topk_stub self.

(** User 0 scored against item 1, with history [2, 3] (long, padded
    with the sentinel item 4) and [3] (short). *)
Definition one_example : SIM.example :=
  {| SIM.user_indices := 0;
     SIM.item_indices := 1;
     SIM.long_seqs := [2; 3; 4];
     SIM.long_seq_lens := 2;
     SIM.short_seqs := [3; 4];
     SIM.short_seq_lens := 1;
     SIM.sparse_indices := [];
     SIM.dense_values := [] |}.

Definition feed_of (users items sparse dense labels : pyval)
    (is_training : bool) : SIM.batch :=
  match users, items with
  | PyIntArray us, PyIntArray its =>
      map (fun ui =>
             {| SIM.user_indices := fst ui;
                SIM.item_indices := snd ui;
                SIM.long_seqs := [2; 3; 4];
                SIM.long_seq_lens := 2;
                SIM.short_seqs := [3; 4];
                SIM.short_seq_lens := 1;
                SIM.sparse_indices := [];
                SIM.dense_values := [] |})
          (combine us its)
  | _, _ => []
  end.

Definition data_info : Computation.DataInfo :=
  {| Computation.n_users := 2;
     Computation.n_items := 4;
     Computation.user2id := [("ann", 0); ("bob", 1)];
     Computation.item2id := [("w", 0); ("x", 1); ("y", 2); ("z", 3)];
     Computation.col_name_mapping := None |}.

Definition sim_model (self : SIM.t) : Computation.Model SIM.batch :=
  Computation.of_SIM self (sim_graph self) data_info false false feed_of.

(** A dataset whose slices carry the five arrays the driver unpacks. *)
Definition five_columns : Computation.Dataset :=
  {| Computation.__getitem__ := fun s =>
       u <- py_getslice (PyIntArray [0; 1]) s ;;
       i <- py_getslice (PyIntArray [1; 2]) s ;;
       l <- py_getslice (PyFloatArray [1%Q; 0%Q]) s ;;
       ret [u; i; l; PyNone; PyNone] |}.

Definition first_row : pyslice := {| start := 0; stop := 1 |}.

(** A rational stand-in for [np.exp], for runs of the rating task,
    which never calls it. *)
Definition exp_stub (x : Q) : Q := 1%Q.

(** An evaluation frame with a user the model has never seen. *)
Definition frame_with_stranger : Computation.Frame :=
  {| Computation.user := ["ann"; "zed"];
     Computation.item := ["x"; "y"];
     Computation.label := [1%Q; 0%Q] |}.

End Examples.

Module UserCFExamples.

(** Three users, six items: user 0 has consumed item 5, user 1 item 0,
    user 2 item 2.  User 1 is similar to user 0 (0.9) and to user 2
    (0.8). *)
Definition interactions : csr :=
  {| indptr := [0; 1; 2; 3];
     indices := [5; 0; 2];
     data := [1%Q; 1%Q; 1%Q] |}.

Definition interactions_T : csr :=
  {| indptr := [0; 1; 1; 2; 2; 2; 3];
     indices := [1; 2; 0];
     data := [1%Q; 1%Q; 1%Q] |}.

Definition similarities : csr :=
  {| indptr := [0; 0; 2; 2];
     indices := [0; 2];
     data := [(9 # 10)%Q; (8 # 10)%Q] |}.

Definition consumed (u : nat) : list nat :=
  match u with
  | 0 => [5]
  | 1 => [0]
  | _ => [2]
  end.

Definition fitted_model : UserCF.t :=
  {| UserCF.task := "ranking";
     UserCF.k := 20;
     UserCF.default_prediction := 0%Q;
     UserCF.n_users := 3;
     UserCF.n_items := 6;
     UserCF.sim_type := "cosine";
     UserCF.lower_bound := 0%Q;
     UserCF.upper_bound := 0%Q;
     UserCF.user_consumed := Some consumed;
     UserCF.user_interaction := Some interactions;
     UserCF.item_interaction := Some interactions_T;
     UserCF.sim_matrix := Some similarities |}.

Definition train_data : UserCF.TrainData :=
  {| UserCF.sparse_interaction := interactions;
     UserCF.td_user_consumed := consumed |}.

(** Stand-ins for the similarity functions and the transposition. *)
Definition sim_stub (a b : csr) (n m : nat) (opts : unit) : csr :=
  similarities.
Definition transpose_stub (a : csr) : csr := interactions_T.
Definition sample_stub (l : list (nat * Q)) (n : nat) : list (nat * Q) :=
  firstn n l.

End UserCFExamples.

(* ===================================================================== *)
(** * [libreco/evaluate/computation.py]: the evaluation loops             *)
(* ===================================================================== *)

(** [range(0, n, step)]: a zero step is a [ValueError], a negative step
    gives nothing, a positive step the multiples of [step] below [n]. *)
Definition py_range0 (n : nat) (step : Z) : py (list nat) :=
  if (step =? 0)%Z then raise (ValueError "range() arg 3 must not be zero")
  else if (step <? 0)%Z then ret []
  else
    let s := Z.to_nat step in
    ret (map (fun j => j * s) (seq 0 ((n + s - 1) / s))).

(** [d[k] = v] on a dictionary kept in insertion order. *)
Fixpoint dict_set {V} (d : list (nat * V)) (k : nat) (v : V)
  : list (nat * V) :=
  match d with
  | [] => [(k, v)]
  | (k', v') :: d' =>
      if k' =? k then (k', v) :: d' else (k', v') :: dict_set d' k v
  end.

(** Dropping repeated neighbours of a sorted list. *)
Fixpoint drop_repeats (l : list nat) : list nat :=
  match l with
  | a :: ((b :: _) as l') =>
      if a =? b then drop_repeats l' else a :: drop_repeats l'
  | _ => l
  end.

(** [np.unique(l).tolist()]: the values of [l], sorted, once each. *)
Definition np_unique (l : list nat) : list nat :=
  drop_repeats (sorted_desc (fun x => (- inject_Z (Z.of_nat x))%Q) l).

Module Loops.

(** The evaluation data as the loops see it: it can be sliced, and it
  has labels; both dataset classes define [__len__] as
  [len(self.labels)]. *)
Record EvalData : Type := {
dataset : Computation.Dataset;
labels : list Q
}.

Definition __len__ (data : EvalData) : nat := length (labels data).

Section ComputePreds.
Variable np_exp : Q -> Q.
Variable Feed : Type.

(** The body of the loop of [compute_preds], over the batch starts. *)
Fixpoint compute_preds_loop (model : Computation.Model Feed)
(data : EvalData) (batch_size : nat) (starts : list nat)
(y_pred y_label : list Q) : py (list Q * list Q) :=
  match starts with
  | [] => ret (y_pred, y_label)
  | batch_data :: starts' =>
  let batch_slice :=
    {| start := batch_data; stop := batch_data + batch_size |} in
  let batch_labels := slice_list batch_slice (labels data) in
  preds <-
    Computation.predict_tf_feat np_exp model (dataset data) batch_slice ;;
  compute_preds_loop model data batch_size starts'
    (y_pred ++ preds) (y_label ++ batch_labels)
  end.

Definition compute_preds (model : Computation.Model Feed) (data : EvalData)
(batch_size : Z) : py (list Q * list Q) :=
  starts <- py_range0 (__len__ data) batch_size ;;
  compute_preds_loop model data (Z.to_nat batch_size) starts [] [].

Definition compute_probs (model : Computation.Model Feed) (data : EvalData)
(batch_size : Z) : py (list Q * list Q) :=
  compute_preds model data batch_size.
End ComputePreds.

(** A [TransformedSet] with an array of floating point labels, as
  [compute_preds] receives it. *)
Definition of_TransformedSet (d : TransformedSet.t) (float_labels : list Q)
: EvalData :=
{| dataset := Computation.of_TransformedSet d;
   labels := float_labels |}.

Section ComputeRecommends.
(** [model.recommend_user(u, k, inner_id=True)] *)
Variable recommend_user : nat -> nat -> py UserCF.recommendation.

(** [not reco or reco == -1] *)
Definition no_reco (reco : UserCF.recommendation) : bool :=
  match reco with
  | UserCF.RecoNone | UserCF.RecoMinusOne | UserCF.RecoList [] => true
  | UserCF.RecoList (_ :: _) => false
  end.

Definition items_of (reco : UserCF.recommendation) : list nat :=
  match reco with
  | UserCF.RecoList l => map fst l
  | _ => []
  end.

(** User [u] gets a list that is not empty, or nothing to show. *)
Definition served (k u : nat) : Prop :=
  exists reco, recommend_user u k = inr reco /\ no_reco reco = false.

Definition unserved (k u : nat) : Prop :=
  exists reco, recommend_user u k = inr reco /\ no_reco reco = true.

(** The loop of [compute_recommends]: the dictionary and the users
without a recommendation. *)
Fixpoint compute_recommends_loop (users : list nat) (k : nat)
(y_recommends : list (nat * list nat)) (no_rec_users : list nat)
  : py (list (nat * list nat) * list nat) :=
  match users with
  | [] => ret (y_recommends, no_rec_users)
  | u :: users' =>
  reco <- recommend_user u k ;;
  if no_reco reco then
    compute_recommends_loop users' k y_recommends (no_rec_users ++ [u])
  else
    compute_recommends_loop users' k
      (dict_set y_recommends u (items_of reco)) no_rec_users
  end.

(** [compute_recommends].  [list(set(users).difference(no_rec_users))]
lists each user that remains once; a set has no order of its own, the
model gives the list in ascending order, as CPython does for small
indices. *)
Definition compute_recommends (users : list nat) (k : nat)
  : py (list (nat * list nat) * list nat) :=
  '(y_recommends, no_rec_users) <- compute_recommends_loop users k [] [] ;;
  let no_rec_num := length no_rec_users in
  let users :=
if 0 <? no_rec_num then
  filter (fun u => negb (nat_in u no_rec_users)) (np_unique users)
else users in
  ret (y_recommends, users).
End ComputeRecommends.

(** The call [model.recommend_user(u, k, inner_id=True)] when the model
  is a [UserCF]: the parameters of [UserCF.recommend_user] after [self]
  are [user], [n_rec] and [random_rec].  The two integers are passed as
  one-element arrays; binding reads positions and names only. *)
Definition usercf_recommend_user_params : list string :=
["user"; "n_rec"; "random_rec"].

Definition usercf_recommend_user
  (random_sample : list (nat * Q) -> nat -> list (nat * Q))
  (self : UserCF.t) (u k : nat) : py UserCF.recommendation :=
bind_call usercf_recommend_user_params
  [PyIntArray [u]; PyIntArray [k]] [("inner_id", PyBool true)] ;;
UserCF.recommend_user random_sample self u k false.

End Loops.

(* ===================================================================== *)
(** * numpy: [unique], [repeat] and strided slices                        *)
(* ===================================================================== *)

(** [np.repeat(a, r)] *)
Definition np_repeat {A} (a : list A) (r : nat) : list A :=
  flat_map (fun x => repeat x r) a.

(** [f] applied to every element and its position, counted from [q]. *)
Fixpoint mapi_from {A B} (q : nat) (f : nat -> A -> B) (l : list A) : list B :=
  match l with
  | [] => []
  | x :: l' => f q x :: mapi_from (S q) f l'
  end.

(** Number of positions [first, first + step, ...] below [n]. *)
Definition stride_count (n first step : nat) : nat :=
  if first <? n then (n - first + step - 1) / step else 0.

(** [a[first::step]] for a positive [step]. *)
Definition stride {A} (first step : nat) (a : list A) : list A :=
  flat_map (fun j => match nth_error a (first + j * step) with
                     | Some x => [x]
                     | None => []
                     end)
           (seq 0 (stride_count (length a) first step)).

(** Is [q] one of the positions [first, first + step, ...]? *)
Definition on_stride (first step q : nat) : bool :=
  (first <=? q) && ((q - first) mod step =? 0).

(** [a[first::step] = vals] for a positive [step]: the shapes must agree,
    a single value is broadcast. *)
Definition set_stride {A} (first step : nat) (vals : list A) (a : list A)
  : py (list A) :=
  let n := stride_count (length a) first step in
  if length vals =? n then
    ret (mapi_from 0 (fun q x =>
           if on_stride first step q
           then nth ((q - first) / step) vals x else x) a)
  else match vals with
       | [v] =>
           ret (mapi_from 0 (fun q x =>
                  if on_stride first step q then v else x) a)
       | _ => raise (ValueError "could not broadcast input array")
       end.

(* ===================================================================== *)
(** * [libreco/data/transformed.py]: class [TransformedEvalSet]           *)
(* ===================================================================== *)

(** The exceptions of [build_negatives]: those of [PyExc], and the
    division by zero of its assertion. *)
Inductive NegExc : Type :=
| Raised (e : PyExc)
| ZeroDivisionError.

Module TransformedEvalSet.

(** [user_consumed[u].append(i)] on a [defaultdict(list)]. *)
Fixpoint dict_append (d : list (nat * list nat)) (u i : nat)
: list (nat * list nat) :=
match d with
| [] => [(u, [i])]
| (u', items) :: d' =>
    if u' =? u then (u', items ++ [i]) :: d'
    else (u', items) :: dict_append d' u i
end.

(** [zip(users, items, labels)] *)
Fixpoint zip3 (us is_ : list nat) (ls : list Q) : list (nat * nat * Q) :=
match us, is_, ls with
| u :: us', i :: is', l :: ls' => (u, i, l) :: zip3 us' is' ls'
| _, _, _ => []
end.

(** [_get_positive_consumed], on the three arrays. *)
Definition _get_positive_consumed (user_indices item_indices : list nat)
  (labels : list Q) : list (nat * list nat) :=
let label_all_positive := forallb (fun lb => Qeq_bool lb 0) labels in
let user_consumed :=
  fold_left
    (fun d uil =>
       match uil with
       | (u, i, lb) =>
           if label_all_positive || negb (Qeq_bool lb 0)
           then dict_append d u i else d
       end)
    (zip3 user_indices item_indices labels) [] in
map (fun ui => (fst ui, np_unique (snd ui))) user_consumed.

(** The instance. *)
Record t : Type := {
user_indices : list nat;
item_indices : list nat;
labels : list Q;
has_sampled : bool;
positive_consumed : list (nat * list nat)
}.

Definition __init__ (user_indices item_indices : list nat)
  (labels : list Q) : t :=
{| user_indices := user_indices;
   item_indices := item_indices;
   labels := labels;
   has_sampled := false;
   positive_consumed :=
     _get_positive_consumed user_indices item_indices labels |}.

Definition __len__ (self : t) : nat := length (labels self).

(** [__getitem__] with a slice. *)
Definition __getitem__ (self : t) (index : pyslice)
: list nat * list nat * list Q :=
(slice_list index (user_indices self),
 slice_list index (item_indices self),
 slice_list index (labels self)).

Section BuildNegatives.
(** [libreco.sampling.negatives_from_unconsumed] after
[set_random_seed(seed)]: the sampler, given the seed, the consumed
sets, the users, the items, [n_items] and [num_neg]. *)
Variable negatives_from_unconsumed :
  nat -> list (nat * list nat) -> list nat -> list nat -> nat -> nat ->
  list nat.

Definition _sample_neg_items (seed : nat) (self : t)
(users items : list nat) (n_items num_neg : nat) : list nat :=
  let user_consumed_set := positive_consumed self in
  negatives_from_unconsumed seed user_consumed_set users items n_items num_neg.

(** The loop [for i in range(num_neg)] over the negatives. *)
Fixpoint place_negatives (num_neg : nat) (items_neg : list nat)
(rounds : list nat) (item_indices : list nat) : py (list nat) :=
  match rounds with
  | [] => ret item_indices
  | i :: rounds' =>
  item_indices <-
    set_stride (i + 1) (num_neg + 1) (stride i num_neg items_neg)
      item_indices ;;
  place_negatives num_neg items_neg rounds' item_indices
  end.

(** [build_negatives]: the instance as a successful run leaves it. *)
Definition build_negatives (self : t) (n_items num_neg seed : nat)
  : sum NegExc t :=
  let items_neg :=
_sample_neg_items seed self (user_indices self) (item_indices self)
  n_items num_neg in
  let users' := np_repeat (user_indices self) (num_neg + 1) in
  let items' := np_repeat (item_indices self) (num_neg + 1) in
  let zeros := map (fun _ => 0%Q) items' in
  match set_stride 0 (num_neg + 1) [1%Q] zeros with
  | inl e => inl (Raised e)
  | inr labels' =>
  if num_neg =? 0 then inl ZeroDivisionError
  else if negb (Qeq_bool
                  (inject_Z (Z.of_nat (length items')))
                  (inject_Z (Z.of_nat (length items_neg * (num_neg + 1)))
                   / inject_Z (Z.of_nat num_neg)))
  then inl (Raised AssertionError)
  else match place_negatives num_neg items_neg (seq 0 num_neg) items' with
       | inl e => inl (Raised e)
       | inr items'' =>
           inr {| user_indices := users';
                  item_indices := items'';
                  labels := labels';
                  has_sampled := true;
                  positive_consumed := positive_consumed self |}
       end
  end.
End BuildNegatives.

End TransformedEvalSet.

(** Item [i] is listed under user [u] in a dictionary of item lists. *)
Definition listed_under (d : list (nat * list nat)) (u i : nat) : Prop :=
  exists items, In (u, items) d /\ In i items.





(** The values of a prediction of [UserCF.predict]. *)
Definition prediction_values (p : UserCF.prediction) : list Q :=
  match p with
  | UserCF.One v => [v]
  | UserCF.Many vs => vs
  end.

(* ===================================================================== *)
(** * More concrete inputs                                                *)
(* ===================================================================== *)

Module MoreExamples.

(** Four interactions of two users; the second one has label 0. *)
Definition eval_set : TransformedEvalSet.t :=
TransformedEvalSet.__init__ [0; 0; 1; 0] [3; 1; 2; 3]
  [1%Q; 0%Q; 1%Q; 1%Q].

(** A sampler that hands out the items [10, 11, 12, ...]. *)
Definition count_up (seed : nat) (consumed : list (nat * list nat))
  (users items : list nat) (n_items num_neg : nat) : list nat :=
seq 10 (length items * num_neg).

(** A sampler that returns too few items. *)
Definition too_few (seed : nat) (consumed : list (nat * list nat))
  (users items : list nat) (n_items num_neg : nat) : list nat :=
[10].

(** A model method that recommends items [7] and [8] to even users and
  nothing to odd ones. *)
Definition even_only (u k : nat) : py UserCF.recommendation :=
if Nat.even u then ret (UserCF.RecoList [(7, 1%Q); (8, (1 # 2)%Q)])
else ret UserCF.RecoMinusOne.

(** Labels of the five-column dataset of [Examples]. *)
Definition five_columns_data : Loops.EvalData :=
{| Loops.dataset := Examples.five_columns;
   Loops.labels := [1%Q; 0%Q] |}.

(** A [TransformedSet] of two rows. *)
Definition two_rows : TransformedSet.t :=
{| TransformedSet._user_indices := PyIntArray [0; 1];
   TransformedSet._item_indices := PyIntArray [1; 2];
   TransformedSet._labels := PyFloatArray [1%Q; 0%Q];
   TransformedSet._sparse_indices := PyNone;
   TransformedSet._dense_values := PyNone |}.

(** The example of [Examples] with another item in the padding of its
  long sequence. *)
Definition other_padding : SIM.example :=
{| SIM.user_indices := 0;
   SIM.item_indices := 1;
   SIM.long_seqs := [2; 3; 0];
   SIM.long_seq_lens := 2;
   SIM.short_seqs := [3; 4];
   SIM.short_seq_lens := 1;
   SIM.sparse_indices := [];
   SIM.dense_values := [] |}.

(** The fitted model of [UserCFExamples] for the rating task, with
  ratings from 1 to 5. *)
Definition rating_model : UserCF.t :=
{| UserCF.task := "rating";
   UserCF.k := 20;
   UserCF.default_prediction := 3%Q;
   UserCF.n_users := 3;
   UserCF.n_items := 6;
   UserCF.sim_type := "cosine";
   UserCF.lower_bound := 1%Q;
   UserCF.upper_bound := 5%Q;
   UserCF.user_consumed := Some UserCFExamples.consumed;
   UserCF.user_interaction := Some UserCFExamples.interactions;
   UserCF.item_interaction := Some UserCFExamples.interactions_T;
   UserCF.sim_matrix := Some UserCFExamples.similarities |}.

(** A row whose two real positions score [-2e9] and [-3e9], below the
  sentinel, and whose padding position is the third. *)
Definition gsu_row_padding_wins : GSU.row :=
{| GSU.target_embeds := [1%Q];
   GSU.long_seq_embeds :=
     [[(-2000000000 # 1)%Q]; [(-3000000000 # 1)%Q]; [0%Q]];
   GSU.long_seq_len := 2 |}.

(** The rating instance of the examples with the bounds [1] and [5]: its
  fused score for the example, [20], lies above the upper bound. *)
Definition narrow_bounds : SIM.t :=
let self := Examples.sim_self "rating" 1 1 in
{| SIM.task := SIM.task self;
   SIM.n_users := SIM.n_users self;
   SIM.n_items := SIM.n_items self;
   SIM.user_consumed := SIM.user_consumed self;
   SIM.lower_bound := 1%Q;
   SIM.upper_bound := 5%Q;
   SIM.loss_type := SIM.loss_type self;
   SIM.alpha := SIM.alpha self;
   SIM.beta := SIM.beta self;
   SIM.search_topk := SIM.search_topk self;
   SIM.long_max_len := SIM.long_max_len self;
   SIM.short_max_len := SIM.short_max_len self;
   SIM.cached_seqs := SIM.cached_seqs self |}.

(** The instance [UserCF("ranking", data_info)] before [fit]. *)
Definition unfitted_model : UserCF.t :=
{| UserCF.task := "ranking";
   UserCF.k := 20;
   UserCF.default_prediction := 0%Q;
   UserCF.n_users := 3;
   UserCF.n_items := 6;
   UserCF.sim_type := "cosine";
   UserCF.lower_bound := 0%Q;
   UserCF.upper_bound := 0%Q;
   UserCF.user_consumed := None;
   UserCF.user_interaction := None;
   UserCF.item_interaction := None;
   UserCF.sim_matrix := None |}.

End MoreExamples.

(* ===================================================================== *)
(* ===================================================================== *)
(** *                          Properties                                 *)
(* ===================================================================== *)
(* ===================================================================== *)

(* ===================================================================== *)
(** * Facts about the stable sort                                         *)
(* ===================================================================== *)

Section SortFacts.
Variable A : Type.
Variable key : A -> Q.

Lemma insert_desc_perm (x : A) (l : list A) :
  Permutation (insert_desc key x l) (x :: l).
Proof.
  induction l as [|y l IH]; simpl; [reflexivity|].
  destruct (Qle_bool (key y) (key x)); [reflexivity|].
  rewrite IH. apply perm_swap.
Qed.

Lemma sorted_desc_perm (l : list A) : Permutation (sorted_desc key l) l.
Proof.
  induction l as [|x l IH]; simpl; [constructor|].
  rewrite insert_desc_perm. now constructor.
Qed.

Lemma sorted_desc_length (l : list A) : length (sorted_desc key l) = length l.
Proof. apply Permutation_length, sorted_desc_perm. Qed.

Lemma sorted_desc_In (x : A) (l : list A) : In x (sorted_desc key l) <-> In x l.
Proof.
  split; apply Permutation_in; [|symmetry]; apply sorted_desc_perm.
Qed.

Section Stability.
Variable R : A -> A -> Prop.

Lemma insert_desc_ranked (x : A) (l : list A) :
  Forall (R x) l ->
  StronglySorted (ranked_before key R) l ->
  StronglySorted (ranked_before key R) (insert_desc key x l).
Proof.
  induction l as [|y l IH]; intros HR Hs; simpl.
  - constructor; constructor.
  - apply StronglySorted_inv in Hs as [Hs Hy].
    inversion HR as [|? ? Hxy HRl]; subst.
    destruct (Qle_bool (key y) (key x)) eqn:E.
    + apply Qle_bool_iff in E.
      constructor; [constructor; assumption|].
      constructor.
      * destruct (Qle_lt_or_eq _ _ E) as [Hlt|Heq];
          [left; exact Hlt | right; split; assumption].
      * rewrite Forall_forall in *. intros z Hz.
        assert (Hzy : (key z <= key y)%Q).
        { destruct (Hy z Hz) as [Hlt|[Heq _]]; [lra|rewrite Heq; lra]. }
        assert (Hzx : (key z <= key x)%Q) by lra.
        destruct (Qle_lt_or_eq _ _ Hzx) as [Hlt|Heq];
          [left; exact Hlt | right; split; auto].
    + assert (Hlt : (key x < key y)%Q).
      { apply Qnot_le_lt. intro H. apply Qle_bool_iff in H. congruence. }
      constructor; [apply IH; assumption|].
      rewrite Forall_forall in *. intros z Hz.
      apply (Permutation_in _ (insert_desc_perm x l)) in Hz.
      destruct Hz as [<-|Hz]; [left; exact Hlt | apply Hy, Hz].
Qed.

Lemma sorted_desc_ranked (l : list A) :
  StronglySorted R l ->
  StronglySorted (ranked_before key R) (sorted_desc key l).
Proof.
  induction 1 as [|x l Hs IH Hx]; simpl; [constructor|].
  apply insert_desc_ranked; [|exact IH].
  rewrite Forall_forall in *. intros z Hz.
  apply Hx, sorted_desc_In, Hz.
Qed.
End Stability.

Lemma StronglySorted_weaken (R S : A -> A -> Prop) (l : list A) :
  (forall a b, R a b -> S a b) -> StronglySorted R l -> StronglySorted S l.
Proof.
  intros HRS. induction 1 as [|x l Hs IH Hx]; constructor; auto.
  eapply Forall_impl; [|exact Hx]. auto.
Qed.

Lemma StronglySorted_total (l : list A) :
  StronglySorted (fun _ _ => True) l.
Proof.
  induction l; constructor; auto. apply Forall_forall. auto.
Qed.

(** The output is in descending order of the key. *)
Lemma sorted_desc_key_ge (l : list A) :
  StronglySorted (key_ge key) (sorted_desc key l).
Proof.
  apply StronglySorted_weaken with (R := ranked_before key (fun _ _ => True)).
  - unfold key_ge. intros a b [H|[H _]]; [lra|rewrite H; lra].
  - apply sorted_desc_ranked, StronglySorted_total.
Qed.

Lemma StronglySorted_app_inv (R : A -> A -> Prop) (l1 l2 : list A) :
  StronglySorted R (l1 ++ l2) ->
  forall a b, In a l1 -> In b l2 -> R a b.
Proof.
  induction l1 as [|x l1 IH]; simpl; intros Hs a b Ha Hb; [contradiction|].
  apply StronglySorted_inv in Hs as [Hs Hx].
  destruct Ha as [<-|Ha]; [|eauto].
  rewrite Forall_forall in Hx. apply Hx, in_or_app. now right.
Qed.

End SortFacts.

(* ===================================================================== *)
(** * Facts about the tensor primitives                                   *)
(* ===================================================================== *)

Lemma sequence_mask_length (len maxlen : nat) :
  length (sequence_mask len maxlen) = maxlen.
Proof. unfold sequence_mask. now rewrite length_map, length_seq. Qed.

Lemma sequence_mask_nth (len maxlen p : nat) :
  nth p (sequence_mask len maxlen) false = (p <? maxlen) && (p <? len).
Proof.
  unfold sequence_mask.
  destruct (Nat.ltb_spec p maxlen) as [H|H]; simpl.
  - rewrite nth_indep with (d' := 0 <? len)
      by now rewrite length_map, length_seq.
    rewrite (map_nth (fun q => q <? len) (seq 0 maxlen) 0 p).
    now rewrite seq_nth.
  - apply nth_overflow. now rewrite length_map, length_seq.
Qed.

Lemma tf_where_length {A} (c : list bool) (x y : list A) :
  length c = length x -> length y = length x ->
  length (tf_where c x y) = length x.
Proof.
  revert x y. induction c as [|b c IH]; intros [|a x] [|a' y]; simpl;
    try discriminate; auto.
Qed.

Lemma tf_where_nth {A} (d : A) (c : list bool) (x y : list A) (p : nat) :
  length c = length x -> length y = length x -> p < length x ->
  nth p (tf_where c x y) d = if nth p c false then nth p x d else nth p y d.
Proof.
  revert x y p. induction c as [|b c IH]; intros [|a x] [|a' y] p; simpl;
    try discriminate; try lia.
  intros Hc Hy Hp. destruct p as [|p]; [reflexivity|].
  apply IH; lia.
Qed.

Lemma paddings_like_length (s : list Q) : length (paddings_like s) = length s.
Proof. apply length_map. Qed.

Lemma paddings_like_nth (s : list Q) (p : nat) :
  p < length s -> nth p (paddings_like s) 0%Q = neg_1e9.
Proof.
  intros Hp. unfold paddings_like.
  rewrite nth_indep with (d' := (neg_1e9 * 1)%Q) by now rewrite length_map.
  now rewrite (map_nth (fun _ : Q => (neg_1e9 * 1)%Q) s 0%Q p).
Qed.

(* ===================================================================== *)
(** * Facts about [top_k]                                                 *)
(* ===================================================================== *)

Lemma map_fst_combine_seq (l : list Q) (s : nat) :
  map fst (combine (seq s (length l)) l) = seq s (length l).
Proof.
  revert s. induction l as [|x l IH]; intros s; simpl; [reflexivity|].
  now rewrite IH.
Qed.

Lemma combine_seq_sorted (l : list Q) (s : nat) :
  StronglySorted by_index (combine (seq s (length l)) l).
Proof.
  revert s. induction l as [|x l IH]; intros s; simpl; constructor.
  - apply IH.
  - apply Forall_forall. intros [i y] Hin. unfold by_index; simpl.
    apply in_combine_l, in_seq in Hin. lia.
Qed.

Lemma combine_seq_In (l : list Q) (i : nat) (x : Q) :
  In (i, x) (combine (seq 0 (length l)) l) <-> i < length l /\ nth i l 0%Q = x.
Proof.
  split.
  - intros Hin.
    destruct (In_nth _ _ (0, 0%Q) Hin) as (p & Hp & Hnth).
    rewrite length_combine, length_seq, Nat.min_id in Hp.
    rewrite combine_nth in Hnth by apply length_seq.
    rewrite seq_nth in Hnth by assumption.
    inversion Hnth; subst. auto.
  - intros [Hi <-].
    replace (i, nth i l 0%Q)
      with (nth i (combine (seq 0 (length l)) l) (0, 0%Q)).
    + apply nth_In. now rewrite length_combine, length_seq, Nat.min_id.
    + rewrite combine_nth by apply length_seq.
      now rewrite seq_nth.
Qed.

Section TopK.
Variable scores : list Q.
Variable k : nat.

Let ranked : list (nat * Q) :=
  sorted_desc (@snd nat Q) (combine (seq 0 (length scores)) scores).

Lemma ranked_fst_perm : Permutation (map fst ranked) (seq 0 (length scores)).
Proof.
  unfold ranked. rewrite <- map_fst_combine_seq at 2.
  apply Permutation_map, sorted_desc_perm.
Qed.

Lemma top_k_length : k <= length scores -> length (top_k scores k) = k.
Proof.
  intros Hk. unfold top_k. rewrite length_map.
  apply firstn_length_le.
  now rewrite sorted_desc_length, length_combine, length_seq, Nat.min_id.
Qed.

Lemma top_k_NoDup : NoDup (top_k scores k).
Proof.
  unfold top_k. rewrite <- firstn_map.
  assert (H : NoDup (map fst ranked)).
  { eapply Permutation_NoDup; [symmetry; apply ranked_fst_perm|].
    apply seq_NoDup. }
  rewrite <- (firstn_skipn k (map fst ranked)) in H.
  eapply NoDup_app_remove_r, H.
Qed.

Lemma top_k_bound (i : nat) : In i (top_k scores k) -> i < length scores.
Proof.
  unfold top_k. rewrite <- firstn_map. intros Hin.
  assert (H : In i (map fst ranked)).
  { rewrite <- (firstn_skipn k (map fst ranked)). apply in_or_app. now left. }
  apply (Permutation_in _ ranked_fst_perm), in_seq in H. lia.
Qed.

(** Exactness: every selected position outranks every position that was
    left out, by score first and by the lower index among equals. *)
Lemma top_k_exact (i j : nat) :
  In i (top_k scores k) -> j < length scores -> ~ In j (top_k scores k) ->
  (nth j scores 0 < nth i scores 0)%Q
  \/ ((nth j scores 0 == nth i scores 0)%Q /\ i < j).
Proof.
  intros Hi Hj Hnj. unfold top_k in *.
  apply in_map_iff in Hi as ([i' x] & Hfst & Hi). simpl in Hfst; subst i'.
  assert (Hx : nth i scores 0%Q = x).
  { assert (H : In (i, x) ranked).
    { rewrite <- (firstn_skipn k ranked). apply in_or_app. now left. }
    apply sorted_desc_In, combine_seq_In in H. tauto. }
  assert (Hjr : In (j, nth j scores 0%Q) (skipn k ranked)).
  { assert (H : In (j, nth j scores 0%Q) ranked)
      by (apply sorted_desc_In, combine_seq_In; auto).
    rewrite <- (firstn_skipn k ranked) in H.
    apply in_app_or in H as [H|H]; [|exact H].
    exfalso. apply Hnj. apply in_map_iff. now exists (j, nth j scores 0%Q). }
  assert (Hs : StronglySorted (ranked_before (@snd nat Q) by_index) ranked)
    by apply sorted_desc_ranked, combine_seq_sorted.
  rewrite <- (firstn_skipn k ranked) in Hs.
  pose proof (@StronglySorted_app_inv _ _ _ _ Hs _ _ Hi Hjr) as H.
  unfold ranked_before, by_index in H; simpl in H. now rewrite Hx.
Qed.
End TopK.

(* ===================================================================== *)
(** * The general search unit                                             *)
(* ===================================================================== *)

Section GSUFacts.
Variable L : nat.
Variable r : GSU.row.
Hypothesis Hshape : GSU.well_shaped L r.

Lemma raw_scores_length : length (GSU.raw_scores r) = L.
Proof. unfold GSU.raw_scores. now rewrite length_map. Qed.

Lemma masked_scores_length : length (GSU.masked_scores L r) = L.
Proof.
  unfold GSU.masked_scores, GSU.seq_mask.
  rewrite tf_where_length; rewrite ?sequence_mask_length,
    ?paddings_like_length, raw_scores_length; reflexivity.
Qed.

Lemma masked_scores_nth (p : nat) :
  p < L ->
  nth p (GSU.masked_scores L r) 0%Q
  = if p <? GSU.long_seq_len r then nth p (GSU.raw_scores r) 0%Q
    else neg_1e9.
Proof.
  intros Hp. unfold GSU.masked_scores, GSU.seq_mask.
  rewrite tf_where_nth; rewrite ?sequence_mask_length,
    ?paddings_like_length, ?raw_scores_length; try reflexivity; try assumption.
  rewrite sequence_mask_nth.
  destruct (Nat.ltb_spec p L); [simpl|lia].
  destruct (p <? GSU.long_seq_len r); [reflexivity|].
  apply paddings_like_nth. now rewrite raw_scores_length.
Qed.

Lemma indices_bound (k i : nat) : In i (GSU.indices L k r) -> i < L.
Proof.
  intros H. apply top_k_bound in H. now rewrite masked_scores_length in H.
Qed.

(** The gathered mask, entry by entry: a selected position is marked
    real exactly when it lies below the true length. *)
Lemma gathered_mask_eq (k : nat) :
  snd (GSU._gsu_module L k r)
  = map (fun i => i <? GSU.long_seq_len r) (GSU.indices L k r).
Proof.
  unfold GSU._gsu_module, gather; simpl.
  apply map_ext_in. intros i Hi. unfold GSU.seq_mask.
  rewrite sequence_mask_nth.
  apply indices_bound in Hi.
  destruct (Nat.ltb_spec i L); [reflexivity|lia].
Qed.

(** When no real position scores below the sentinel, every real
    position is selected as soon as there is room for all of them. *)
Lemma real_positions_selected (k p : nat) :
  k <= L -> GSU.long_seq_len r < k ->
  (forall q, q < GSU.long_seq_len r ->
             (neg_1e9 <= nth q (GSU.raw_scores r) 0)%Q) ->
  p < GSU.long_seq_len r -> In p (GSU.indices L k r).
Proof.
  intros Hk Hlen Hraw Hp.
  destruct (in_dec Nat.eq_dec p (GSU.indices L k r)) as [Hin|Hnin];
    [exact Hin|exfalso].
  assert (Hreal : forall i, In i (GSU.indices L k r) ->
                            i < GSU.long_seq_len r).
  { intros i Hi.
    destruct (Nat.lt_ge_cases i (GSU.long_seq_len r)) as [|Hge]; [assumption|].
    exfalso. pose proof (@indices_bound _ _ Hi) as HiL.
    unfold GSU.indices in Hi, Hnin.
    assert (HpL : p < length (GSU.masked_scores L r))
      by (rewrite masked_scores_length; lia).
    pose proof (@top_k_exact _ _ _ _ Hi HpL Hnin) as Hex.
    rewrite !masked_scores_nth in Hex by lia.
    destruct (Nat.ltb_spec p (GSU.long_seq_len r)); [|lia].
    destruct (Nat.ltb_spec i (GSU.long_seq_len r)); [lia|].
    specialize (Hraw p Hp).
    destruct Hex as [Hex|[_ Hex]]; [lra|lia]. }
  assert (Hnd : NoDup (p :: GSU.indices L k r)).
  { constructor; [exact Hnin|apply top_k_NoDup]. }
  assert (Hincl : incl (p :: GSU.indices L k r)
                       (seq 0 (GSU.long_seq_len r))).
  { intros x [<-|Hx]; apply in_seq; [lia|]. specialize (Hreal x Hx). lia. }
  pose proof (@NoDup_incl_length _ _ _ Hnd Hincl) as Hle.
  simpl in Hle. rewrite length_seq in Hle.
  unfold GSU.indices in Hle.
  rewrite top_k_length in Hle by (rewrite masked_scores_length; lia).
  lia.
Qed.

Lemma count_false_gathered (k : nat) :
  k <= L -> GSU.long_seq_len r < k ->
  (forall q, q < GSU.long_seq_len r ->
             (neg_1e9 <= nth q (GSU.raw_scores r) 0)%Q) ->
  GSU.count_false (snd (GSU._gsu_module L k r)) = k - GSU.long_seq_len r.
Proof.
  intros Hk Hlen Hraw.
  rewrite gathered_mask_eq. unfold GSU.count_false.
  rewrite filter_map_swap, length_map.
  set (idx := GSU.indices L k r).
  set (real := fun i => i <? GSU.long_seq_len r).
  pose proof (filter_length real idx) as Hsplit.
  assert (Hidx : length idx = k).
  { unfold idx, GSU.indices. apply top_k_length.
    now rewrite masked_scores_length. }
  assert (Hreal : length (filter real idx) = GSU.long_seq_len r).
  { transitivity (length (seq 0 (GSU.long_seq_len r)));
      [|apply length_seq].
    apply Permutation_length, NoDup_Permutation.
    - apply NoDup_filter, top_k_NoDup.
    - apply seq_NoDup.
    - intros x. rewrite filter_In, in_seq. unfold real.
      split.
      + intros [_ Hx]. apply Nat.ltb_lt in Hx. lia.
      + intros [_ Hx]. split; [|now apply Nat.ltb_lt].
        apply real_positions_selected; auto. }
  unfold real in *. simpl in *. lia.
Qed.
End GSUFacts.

(** C1, as amended.  For every example of the batch: in the scores
    handed to the top-K selection a real position keeps its relevance
    score and every padding position (index at or beyond [long_seq_len])
    carries the sentinel [-1e9]; hence a padding position is selected in
    place of a real position only if that real position scores strictly
    below the sentinel.  The embeddings and the mask that are returned are
    gathered at the same selected indices: entry by entry, the embedding is
    the row of the long sequence at the selected position and the mask bit
    tells whether that position lies below the true length, so a selected
    padding position stays [false] in the gathered mask. *)
Theorem gsu_masks_padding_and_gathers_mask :
  forall (L k : nat) (batch : list GSU.row) (r : GSU.row),
    In r batch -> GSU.well_shaped L r ->
    let idx := GSU.indices L k r in
    let out := GSU._gsu_module L k r in
    In out (GSU._gsu_module_batch L k batch)
    /\ (forall p, p < L ->
          nth p (GSU.masked_scores L r) 0%Q
          = if p <? GSU.long_seq_len r then nth p (GSU.raw_scores r) 0%Q
            else neg_1e9)
    /\ (forall p q,
          In p idx -> GSU.long_seq_len r <= p ->
          q < GSU.long_seq_len r -> q < L -> ~ In q idx ->
          (nth q (GSU.raw_scores r) 0 < neg_1e9)%Q)
    /\ combine (fst out) (snd out)
       = map (fun i => (nth i (GSU.long_seq_embeds r) [],
                        i <? GSU.long_seq_len r)) idx
    /\ length (fst out) = length idx
    /\ length (snd out) = length idx
    /\ (forall j, j < length idx ->
                  GSU.long_seq_len r <= nth j idx 0 ->
                  nth j (snd out) true = false).
Proof.
  intros L k batch r Hin Hshape idx out.
  assert (Hmask : snd out = map (fun i => i <? GSU.long_seq_len r) idx)
    by (apply gathered_mask_eq with (L := L); exact Hshape).
  split; [|split; [|split; [|split; [|split; [|split]]]]].
  - unfold GSU._gsu_module_batch. now apply in_map.
  - intros p Hp. now apply masked_scores_nth.
  - intros p q Hp Hpad Hq HqL Hnq.
    assert (HpL : p < L) by (eapply indices_bound; eassumption).
    assert (Hq' : q < length (GSU.masked_scores L r))
      by (rewrite masked_scores_length; assumption).
    pose proof (@top_k_exact _ _ _ _ Hp Hq' Hnq) as Hex.
    rewrite !(masked_scores_nth Hshape) in Hex by assumption.
    destruct (Nat.ltb_spec q (GSU.long_seq_len r)); [|lia].
    destruct (Nat.ltb_spec p (GSU.long_seq_len r)); [lia|].
    destruct Hex as [Hex|[_ Hex]]; [exact Hex|lia].
  - rewrite Hmask. unfold out, GSU._gsu_module, gather. cbn [fst].
    fold idx. clear. induction idx as [|i idx IH]; simpl; [reflexivity|].
    now rewrite IH.
  - unfold out, GSU._gsu_module, gather. cbn [fst]. apply length_map.
  - rewrite Hmask. apply length_map.
  - intros j Hj Hpad. rewrite Hmask.
    rewrite nth_indep with (d' := 0 <? GSU.long_seq_len r)
      by now rewrite length_map.
    rewrite (map_nth (fun i => i <? GSU.long_seq_len r)).
    now apply Nat.ltb_ge.
Qed.

Lemma gsu_masks_padding_and_gathers_mask_witness :
  combine (fst (GSU._gsu_module 3 2 Examples.gsu_row_1_of_3))
          (snd (GSU._gsu_module 3 2 Examples.gsu_row_1_of_3))
  = [([4%Q], true); ([0%Q], false)].
Proof.
  destruct (@gsu_masks_padding_and_gathers_mask
              3 2 [Examples.gsu_row_1_of_3] Examples.gsu_row_1_of_3)
    as (_ & _ & _ & Hout & _).
  - simpl. left. reflexivity.
  - reflexivity.
  - rewrite Hout. reflexivity.
Defined.

(** C1 as stated fails: a row with two real positions, scoring [-2e9]
    and [-3e9], and one padding position; with [search_topk = 1] the one
    position selected is the padding position, preferred to both real
    ones. *)
Lemma gsu_padding_preferred_counterexample :
  GSU.well_shaped 3 MoreExamples.gsu_row_padding_wins
  /\ 1 <= GSU.long_seq_len MoreExamples.gsu_row_padding_wins
  /\ GSU.masked_scores 3 MoreExamples.gsu_row_padding_wins
     = [(-2000000000 # 1)%Q; (-3000000000 # 1)%Q; neg_1e9]
  /\ GSU.indices 3 1 MoreExamples.gsu_row_padding_wins = [2]
  /\ GSU.long_seq_len MoreExamples.gsu_row_padding_wins <= 2
  /\ GSU._gsu_module 3 1 MoreExamples.gsu_row_padding_wins
     = ([[0%Q]], [false]).
Proof.
  repeat split; try reflexivity; simpl; lia.
Qed.

(** C2, as amended.  For every row and every [search_topk <= long_max_len]
    the unit selects exactly [search_topk] distinct positions of the row,
    and each selected position outranks each position left out: its masked
    score is larger, or equal with the lower index.  If moreover
    [long_seq_len < search_topk] and no real position scores below the
    sentinel [-1e9], exactly [search_topk - long_seq_len] entries of the
    gathered mask are [false]. *)
Theorem gsu_selects_exact_top_k :
  forall (L k : nat) (r : GSU.row),
    GSU.well_shaped L r -> k <= L ->
    let s := GSU.masked_scores L r in
    let idx := GSU.indices L k r in
    length idx = k
    /\ NoDup idx
    /\ (forall i, In i idx -> i < L)
    /\ (forall i j, In i idx -> j < L -> ~ In j idx ->
          (nth j s 0 < nth i s 0)%Q \/ ((nth j s 0 == nth i s 0)%Q /\ i < j))
    /\ (GSU.long_seq_len r < k ->
        (forall p, p < GSU.long_seq_len r ->
                   (neg_1e9 <= nth p (GSU.raw_scores r) 0)%Q) ->
        GSU.count_false (snd (GSU._gsu_module L k r))
        = k - GSU.long_seq_len r).
Proof.
  intros L k r Hshape Hk s idx.
  split; [|split; [|split; [|split]]].
  - apply top_k_length. unfold s. now rewrite masked_scores_length.
  - apply top_k_NoDup.
  - intros i. now apply indices_bound.
  - intros i j Hi Hj Hnj. apply top_k_exact with (k := k); auto.
    unfold s. now rewrite masked_scores_length.
  - intros Hlen Hraw. now apply count_false_gathered.
Qed.


Lemma gsu_selects_exact_top_k_witness :
  GSU.count_false (snd (GSU._gsu_module 3 2 Examples.gsu_row_1_of_3)) = 2 - 1.
Proof.
  refine (proj2 (proj2 (proj2 (proj2
            (@gsu_selects_exact_top_k 3 2 Examples.gsu_row_1_of_3 _ _)))) _ _).
  - reflexivity.
  - lia.
  - simpl. lia.
  - intros p Hp. simpl in Hp.
    assert (p = 0) by lia. subst p. vm_compute. discriminate.
Defined.


(** C2 as stated fails: with [long_seq_len = 1 < search_topk = 2 <=
    long_max_len = 3] both gathered mask entries are [false], not one. *)
Lemma gsu_count_false_counterexample :
  GSU.well_shaped 3 Examples.gsu_row_below_sentinel
  /\ 2 <= 3
  /\ GSU.long_seq_len Examples.gsu_row_below_sentinel < 2
  /\ GSU._gsu_module 3 2 Examples.gsu_row_below_sentinel
     = ([[0%Q]; [0%Q]], [false; false])
  /\ GSU.count_false (snd (GSU._gsu_module 3 2 Examples.gsu_row_below_sentinel))
     <> 2 - GSU.long_seq_len Examples.gsu_row_below_sentinel.
Proof.
  repeat split; try reflexivity; simpl; try lia.
  vm_compute. discriminate.
Qed.

(* ===================================================================== *)
(** * Construction of [SIM]                                               *)
(* ===================================================================== *)

Lemma py_assert_true (c : bool) : c = true -> py_assert c = inr tt.
Proof. now intros ->. Qed.

Lemma py_assert_false (c : bool) : c = false -> py_assert c = inl AssertionError.
Proof. now intros ->. Qed.

Lemma str_in_loss_types (s : string) :
  str_in s ["cross_entropy"; "focal"] = false
  <-> s <> "cross_entropy" /\ s <> "focal".
Proof.
  unfold str_in; simpl. rewrite !orb_false_iff, !String.eqb_neq. tauto.
Qed.

Lemma check_params_ok (self : SIM.t) :
  params_ok self = true -> SIM._check_params self = inr tt.
Proof.
  unfold params_ok, SIM._check_params.
  rewrite !andb_true_iff, negb_true_iff.
  intros [[[[[Ha1 Ha2] [Hb1 Hb2]] Hs] [Hk1 Hk2]] Hl].
  rewrite Ha1, Ha2, Hb1, Hb2, Hs, Hk1, Hk2, Hl. reflexivity.
Qed.

Lemma check_params_fails (self : SIM.t) :
  params_ok self = false ->
  exists e, SIM._check_params self = inl e
            /\ (e = AssertionError \/ exists msg, e = ValueError msg).
Proof.
  unfold params_ok, SIM._check_params. intros H.
  destruct (Qle_bool 0 (SIM.alpha self) && Qle_bool (SIM.alpha self) 1);
    [|eexists; split; [reflexivity|now left]].
  destruct (Qle_bool 0 (SIM.beta self) && Qle_bool (SIM.beta self) 1);
    [|eexists; split; [reflexivity|now left]].
  destruct (0 <? SIM.short_max_len self)%Z;
    [|eexists; split; [reflexivity|now left]].
  destruct ((SIM.search_topk self <=? SIM.long_max_len self)%Z
            && (0 <? SIM.search_topk self)%Z);
    [|eexists; split; [reflexivity|now left]].
  destruct (String.eqb (SIM.task self) "ranking"
            && negb (str_in (SIM.loss_type self) ["cross_entropy"; "focal"]));
    [|simpl in H; discriminate].
  eexists; split; [reflexivity|right; eauto].
Qed.

Lemma params_ok_iff (a : SIM.args) (self : SIM.t) :
  SIM.alpha self = SIM.a_alpha a -> SIM.beta self = SIM.a_beta a ->
  SIM.short_max_len self = SIM.a_short_max_len a ->
  SIM.search_topk self = SIM.a_search_topk a ->
  SIM.long_max_len self = SIM.a_long_max_len a ->
  SIM.task self = SIM.a_task a -> SIM.loss_type self = SIM.a_loss_type a ->
  params_ok self = false <-> SIM.invalid a.
Proof.
  unfold params_ok, SIM.invalid. intros -> -> -> -> -> -> ->.
  rewrite !andb_false_iff, negb_false_iff, andb_true_iff, negb_true_iff.
  rewrite String.eqb_eq, str_in_loss_types.
  rewrite Z.ltb_ge, Z.leb_gt, Z.ltb_ge.
  rewrite <- !not_true_iff_false, !Qle_bool_iff.
  split.
  - intros [[[[[H|H]|[H|H]]|H]|[H|H]]|H]; try tauto; try lra.
    + right; right; right; right; left. lia.
  - intros [H|[H|[H|[H|[H|H]]]]]; try tauto.
    + destruct (Qlt_le_dec (SIM.a_alpha a) 0); [left;left;left;left;left|].
      * lra.
      * left;left;left;left;right. lra.
    + destruct (Qlt_le_dec (SIM.a_beta a) 0); [left;left;left;right;left|].
      * lra.
      * left;left;left;right;right. lra.
    + left; right; left. lia.
Qed.

Lemma params_ok_attributes (a : SIM.args) (cached : SIM.seq_cache) :
  params_ok (SIM.attributes a cached) = false <-> SIM.invalid a.
Proof. apply params_ok_iff; reflexivity. Qed.

(** What [__init__] does once its collaborators have returned: the calls
    made, in their order, and the outcome, which is that of
    [_check_params]. *)
Lemma init_after_helpers (h : SIM.helpers) (a : SIM.args) :
  SIM.helpers_return h a ->
  exists cached sparse dense,
    SIM.get_recent_dual_seqs h (SIM.a_n_users a) (SIM.a_user_consumed a)
      (SIM.a_n_items a) (SIM.a_long_max_len a) (SIM.a_short_max_len a)
    = inr cached
    /\ SIM.check_sparse_indices h = inr sparse
    /\ SIM.check_dense_values h = inr dense
    /\ calls_made (SIM.__init__ h a)
       = ["TfBase.__init__"; "reg_config"; "dropout_config";
          "hidden_units_config"; "get_recent_dual_seqs";
          "check_sparse_indices"; "check_dense_values"]
         ++ (if sparse
             then ["sparse_feat_size"; "sparse_field_size";
                   "check_multi_sparse"]
             else [])
         ++ (if dense then ["dense_field_size"] else [])
         ++ ["_check_params"]
    /\ outcome (SIM.__init__ h a)
       = (SIM._check_params (SIM.attributes a cached) ;;
          ret (SIM.attributes a cached)).
Proof.
  intros (H1 & H2 & H3 & H4 & [cached H5] & sparse & dense & H6 & H7
          & Hs & Hd).
  exists cached, sparse, dense.
  split; [exact H5|]. split; [exact H6|]. split; [exact H7|].
  unfold calls_made, outcome, SIM.__init__, call.
  cbn [bind ret Monad_traced].
  rewrite H1, H2, H3, H4, H5, H6, H7. cbn [app].
  destruct sparse, dense.
  - destruct (Hs eq_refl) as (-> & -> & ->). rewrite (Hd eq_refl).
    cbn [app fst snd].
    destruct (SIM._check_params (SIM.attributes a cached)) as [e|[]];
      split; reflexivity.
  - destruct (Hs eq_refl) as (-> & -> & ->).
    cbn [app fst snd].
    destruct (SIM._check_params (SIM.attributes a cached)) as [e|[]];
      split; reflexivity.
  - rewrite (Hd eq_refl).
    cbn [app fst snd].
    destruct (SIM._check_params (SIM.attributes a cached)) as [e|[]];
      split; reflexivity.
  - cbn [app fst snd].
    destruct (SIM._check_params (SIM.attributes a cached)) as [e|[]];
      split; reflexivity.
Qed.

(** An invalid configuration never yields an instance, whatever the
    collaborators do. *)
Lemma init_invalid_raises (h : SIM.helpers) (a : SIM.args) :
  SIM.invalid a -> raises (outcome (SIM.__init__ h a)).
Proof.
  intros Hinv. unfold raises, outcome, SIM.__init__, call.
  cbn [bind ret Monad_traced].
  destruct (SIM.TfBase__init__ h); [eexists; reflexivity|].
  destruct (SIM.reg_config h); [eexists; reflexivity|].
  destruct (SIM.dropout_config h); [eexists; reflexivity|].
  destruct (SIM.hidden_units_config h); [eexists; reflexivity|].
  destruct (SIM.get_recent_dual_seqs h _ _ _ _ _) as [|cached];
    [eexists; reflexivity|].
  assert (Hlast : forall log,
             exists e log',
               (let (log', r) :=
                  (log ++ ["_check_params"],
                   SIM._check_params (SIM.attributes a cached)) in
                match r with
                | inr _ => (log', inr (SIM.attributes a cached))
                | inl e => (log', @inl PyExc SIM.t e)
                end) = (log', inl e)).
  { intros log.
    destruct (check_params_fails (SIM.attributes a cached)) as (e & He & _);
      [now apply params_ok_attributes|].
    rewrite He. eauto. }
  destruct (SIM.check_sparse_indices h) as [|sparse]; [eexists; reflexivity|].
  destruct (SIM.check_dense_values h) as [|dense]; [eexists; reflexivity|].
  destruct sparse.
  - destruct (SIM.sparse_feat_size h); [eexists; reflexivity|].
    destruct (SIM.sparse_field_size h); [eexists; reflexivity|].
    destruct (SIM.check_multi_sparse h); [eexists; reflexivity|].
    destruct dense.
    + destruct (SIM.dense_field_size h); [eexists; reflexivity|].
      cbn [fst snd].
      match goal with
      | |- context [(?l ++ ["_check_params"], _)] =>
          destruct (Hlast l) as (e & log' & ->)
      end.
      eexists; reflexivity.
    + match goal with
      | |- context [(?l ++ ["_check_params"], _)] =>
          destruct (Hlast l) as (e & log' & ->)
      end.
      eexists; reflexivity.
  - destruct dense.
    + destruct (SIM.dense_field_size h); [eexists; reflexivity|].
      match goal with
      | |- context [(?l ++ ["_check_params"], _)] =>
          destruct (Hlast l) as (e & log' & ->)
      end.
      eexists; reflexivity.
    + match goal with
      | |- context [(?l ++ ["_check_params"], _)] =>
          destruct (Hlast l) as (e & log' & ->)
      end.
      eexists; reflexivity.
Qed.

(** An error of a collaborator is the outcome of the construction,
    whatever the configuration: the validation is not reached. *)
Lemma init_collaborator_error (h : SIM.helpers) (a : SIM.args) (e : PyExc) :
  SIM.TfBase__init__ h = inl e ->
  SIM.__init__ h a [] = (["TfBase.__init__"], inl e).
Proof.
  intros H. unfold SIM.__init__, call. cbn [bind ret Monad_traced].
  now rewrite H.
Qed.

(** C5, as amended.  [_check_params] is the last statement of the
    constructor: when the collaborators return, the base class has been
    initialised, the configuration helpers have run and the sequence
    cache has been built before the configuration is validated.  The
    construction then fails with a validation error ([AssertionError] or
    [ValueError]) exactly when the configuration is invalid: [alpha] or
    [beta] outside [0,1], [short_max_len <= 0], [search_topk <= 0],
    [search_topk > long_max_len], or, for the ranking task, a loss type
    other than ["cross_entropy"] and ["focal"].  Every other configuration
    yields the instance, which carries the configuration. *)
Theorem sim_construction_validates :
  forall (h : SIM.helpers) (a : SIM.args),
    SIM.helpers_return h a ->
    (exists others,
       calls_made (SIM.__init__ h a)
       = ["TfBase.__init__"; "reg_config"; "dropout_config";
          "hidden_units_config"; "get_recent_dual_seqs";
          "check_sparse_indices"; "check_dense_values"]
         ++ others ++ ["_check_params"])
    /\ (SIM.invalid a <->
        exists e, outcome (SIM.__init__ h a) = inl e
                  /\ (e = AssertionError \/ exists msg, e = ValueError msg))
    /\ (~ SIM.invalid a <->
        exists self, outcome (SIM.__init__ h a) = inr self
                     /\ SIM.alpha self = SIM.a_alpha a
                     /\ SIM.beta self = SIM.a_beta a
                     /\ SIM.search_topk self = SIM.a_search_topk a
                     /\ SIM.long_max_len self = SIM.a_long_max_len a
                     /\ SIM.short_max_len self = SIM.a_short_max_len a).
Proof.
  intros h a Hret.
  destruct (init_after_helpers Hret)
    as (cached & sparse & dense & _ & _ & _ & Hcalls & Hout).
  split.
  { eexists. rewrite Hcalls. f_equal. rewrite app_assoc. reflexivity. }
  rewrite Hout. set (self := SIM.attributes a cached).
  assert (Hiff : params_ok self = false <-> SIM.invalid a)
    by apply params_ok_attributes.
  destruct (params_ok self) eqn:Hok.
  - assert (Hvalid : ~ SIM.invalid a)
      by (intro H; apply Hiff in H; discriminate).
    rewrite (check_params_ok _ Hok). simpl.
    split; split.
    + tauto.
    + intros (e & He & _). discriminate.
    + intros _. exists self. repeat split; reflexivity.
    + intros _. exact Hvalid.
  - assert (Hinv : SIM.invalid a) by now apply Hiff.
    destruct (check_params_fails _ Hok) as (e & He & Hkind).
    rewrite He. simpl.
    split; split.
    + intros _. exists e. auto.
    + intros _. exact Hinv.
    + tauto.
    + intros (s & Hs & _). discriminate.
Qed.

Lemma sim_construction_validates_witness :
  exists e,
    outcome (SIM.__init__ Examples.sim_helpers
               (Examples.sim_args "ranking" (3 # 2) 1)) = inl e
    /\ (e = AssertionError \/ exists msg, e = ValueError msg).
Proof.
  refine (proj1 (proj1 (proj2 (@sim_construction_validates
                                 Examples.sim_helpers
                                 (Examples.sim_args "ranking" (3 # 2) 1) _)))
                _).
  - unfold SIM.helpers_return. simpl.
    repeat (split; [reflexivity|]). split; [eexists; reflexivity|].
    exists false, false. repeat split; discriminate.
  - left. intros [_ H]. revert H. vm_compute. intros H. now apply H.
Defined.

(** C5 as stated fails: for the invalid configuration [alpha = 3/2] the
    constructor raises its [AssertionError] only after seven calls to
    collaborators, among them the construction of the sequence cache. *)
Lemma sim_validation_runs_last_counterexample :
  SIM.invalid (Examples.sim_args "ranking" (3 # 2) 1)
  /\ SIM.__init__ Examples.sim_helpers
       (Examples.sim_args "ranking" (3 # 2) 1) []
     = (["TfBase.__init__"; "reg_config"; "dropout_config";
         "hidden_units_config"; "get_recent_dual_seqs";
         "check_sparse_indices"; "check_dense_values"; "_check_params"],
        inl AssertionError).
Proof.
  split; [|reflexivity].
  left. intros [_ H]. revert H. vm_compute. intros H. now apply H.
Qed.

Example sim_init_accepts :
  outcome (SIM.__init__ Examples.sim_helpers
             (Examples.sim_args "ranking" 1 1))
  = inr (Examples.sim_self "ranking" 1 1).
Proof. reflexivity. Qed.

(* ===================================================================== *)
(** * The two-stage head                                                  *)
(* ===================================================================== *)

Lemma vscale_length (a : Q) (v : list Q) : length (vscale a v) = length v.
Proof. apply length_map. Qed.

Lemma vadd_length (u v : list Q) :
  length u = length v -> length (vadd u v) = length u.
Proof.
  revert v. induction u as [|a u IH]; intros [|b v]; simpl; try discriminate;
    auto.
Qed.

Lemma vadd_vscale_nth (a b : Q) (u v : list Q) (i : nat) :
  length u = length v -> i < length u ->
  nth i (vadd (vscale a u) (vscale b v)) 0%Q
  = (a * nth i u 0 + b * nth i v 0)%Q.
Proof.
  revert v i. induction u as [|x u IH]; intros [|y v] i; simpl;
    try discriminate; try lia.
  intros Hl Hi. destruct i as [|i]; [reflexivity|]. apply IH; lia.
Qed.

Section HeadFacts.
Variable seq_feats : nat -> list Q.
Variable first_stage_mlp second_stage_mlp : list Q -> Q.
Variable tf_attention : list Q -> list (list Q) -> list bool -> list Q.
Variable _build_features : SIM.example -> list Q.
Variable topk_op : Type.
Variable build_topk : SIM.tensor -> topk_op.

Let build (first : list Q -> Q) (self : SIM.t) : SIM.graph topk_op :=
  SIM.build_model seq_feats first second_stage_mlp tf_attention
    _build_features build_topk self.

Let second (self : SIM.t) : SIM.tensor :=
  SIM.second_stage_out seq_feats second_stage_mlp tf_attention
    _build_features self.

(** The forward pass yields one scalar per example. *)
Lemma sim_output_length (self : SIM.t) (feed : SIM.batch) :
  length (SIM.output (build first_stage_mlp self) feed) = length feed.
Proof.
  simpl. rewrite vadd_length; rewrite !vscale_length;
    unfold SIM.first_stage_out, SIM.second_stage_out;
    now rewrite !length_map.
Qed.

(** [inference_output] and [serving_topk] are the second stage. *)
Lemma sim_inference_is_second_stage (self : SIM.t) :
  SIM.inference_output (build first_stage_mlp self) = second self
  /\ SIM.serving_topk (build first_stage_mlp self)
     = build_topk (second self).
Proof. split; reflexivity. Qed.

(** The second stage reads neither the fusion weights nor the first
    tower. *)
Lemma sim_inference_ignores_first_stage
    (first' : list Q -> Q) (self self' : SIM.t) :
  SIM.search_topk self' = SIM.search_topk self ->
  SIM.long_max_len self' = SIM.long_max_len self ->
  SIM.short_max_len self' = SIM.short_max_len self ->
  forall feed,
    SIM.inference_output (build first' self') feed
    = SIM.inference_output (build first_stage_mlp self) feed.
Proof.
  intros Hk Hl Hs feed. simpl. unfold SIM.second_stage_out.
  apply map_ext. intros e.
  unfold SIM._build_second_stage, SIM._din_module, SIM.K, SIM.L.
  now rewrite Hk, Hl, Hs.
Qed.

Lemma sim_output_nth (self : SIM.t) (feed : SIM.batch) (i : nat) :
  i < length feed ->
  nth i (SIM.output (build first_stage_mlp self) feed) 0%Q
  = (SIM.alpha self
       * nth i (SIM.first_stage_out seq_feats first_stage_mlp self feed) 0
     + SIM.beta self * nth i (second self feed) 0)%Q.
Proof.
  intros Hi. simpl. apply vadd_vscale_nth;
    unfold SIM.first_stage_out, second, SIM.second_stage_out;
    now rewrite ?length_map.
Qed.
End HeadFacts.

(** C4, as amended.  For all [alpha] and [beta] and every example, the
    fused training output is [alpha * first_stage + beta * second_stage];
    with [alpha = 0] it is [beta * second_stage], which is the
    second-stage score itself when moreover [beta = 1]. *)
Theorem sim_fused_output :
  forall (seq_feats : nat -> list Q)
         (first_stage_mlp second_stage_mlp : list Q -> Q)
         (tf_attention : list Q -> list (list Q) -> list bool -> list Q)
         (_build_features : SIM.example -> list Q)
         (topk_op : Type) (build_topk : SIM.tensor -> topk_op)
         (self : SIM.t) (feed : SIM.batch) (i : nat),
    i < length feed ->
    let g := SIM.build_model seq_feats first_stage_mlp second_stage_mlp
               tf_attention _build_features build_topk self in
    let first := SIM.first_stage_out seq_feats first_stage_mlp self feed in
    let second := SIM.second_stage_out seq_feats second_stage_mlp
                    tf_attention _build_features self feed in
    nth i (SIM.output g feed) 0%Q
    = (SIM.alpha self * nth i first 0 + SIM.beta self * nth i second 0)%Q
    /\ ((SIM.alpha self == 0)%Q ->
        (nth i (SIM.output g feed) 0 == SIM.beta self * nth i second 0)%Q)
    /\ ((SIM.alpha self == 0)%Q -> (SIM.beta self == 1)%Q ->
        (nth i (SIM.output g feed) 0 == nth i second 0)%Q).
Proof.
  intros sf f1 f2 att bf T bt self feed i Hi g first second.
  assert (H : nth i (SIM.output g feed) 0%Q
              = (SIM.alpha self * nth i first 0
                 + SIM.beta self * nth i second 0)%Q)
    by now apply sim_output_nth.
  split; [exact H|]. rewrite H.
  split.
  - intros Ha. rewrite Ha. ring.
  - intros Ha Hb. rewrite Ha, Hb. ring.
Qed.

Lemma sim_fused_output_witness :
  (nth 0 (SIM.output (Examples.sim_graph (Examples.sim_self "rating" 0 1))
                     [Examples.one_example]) 0
   == nth 0 (SIM.second_stage_out Examples.seq_feats Examples.tower
               Examples.attention Examples.no_features
               (Examples.sim_self "rating" 0 1) [Examples.one_example]) 0)%Q.
Proof.
  refine (proj2 (proj2 (@sim_fused_output
            Examples.seq_feats Examples.tower Examples.tower
            Examples.attention Examples.no_features unit Examples.topk_stub
            (Examples.sim_self "rating" 0 1) [Examples.one_example] 0 _)) _ _).
  - simpl. lia.
  - reflexivity.
  - reflexivity.
Defined.

(** C4 as stated fails: with [alpha = 0] and [beta = 1/2] the fused
    output of the example is [11/2], its second-stage score is [11]. *)
Lemma sim_fused_alpha_zero_counterexample :
  let self := Examples.sim_self "rating" 0 (1 # 2) in
  SIM.alpha self = 0%Q
  /\ (0 <= SIM.beta self <= 1)%Q
  /\ SIM.output (Examples.sim_graph self) [Examples.one_example]
     = [(11 # 2)%Q]
  /\ SIM.second_stage_out Examples.seq_feats Examples.tower
       Examples.attention Examples.no_features self [Examples.one_example]
     = [11%Q]
  /\ ~ (nth 0 (SIM.output (Examples.sim_graph self) [Examples.one_example]) 0
        == nth 0 (SIM.second_stage_out Examples.seq_feats Examples.tower
                    Examples.attention Examples.no_features self
                    [Examples.one_example]) 0)%Q.
Proof.
  repeat split; try (vm_compute; congruence).
Qed.

(* ===================================================================== *)
(** * The evaluation driver                                               *)
(* ===================================================================== *)

Lemma Qle_bool_false (a b : Q) : Qle_bool a b = false -> (b < a)%Q.
Proof.
  intros H. apply Qnot_le_lt. intro Hle. apply Qle_bool_iff in Hle. congruence.
Qed.

Lemma np_clip_range (x lo hi : Q) :
  (lo <= hi)%Q -> (lo <= np_clip x lo hi <= hi)%Q.
Proof.
  intros H. unfold np_clip, np_minimum, np_maximum.
  destruct (Qle_bool x lo) eqn:E1.
  - destruct (Qle_bool lo hi) eqn:E2; [lra|].
    apply Qle_bool_false in E2. lra.
  - apply Qle_bool_false in E1.
    destruct (Qle_bool x hi) eqn:E2.
    + apply Qle_bool_iff in E2. lra.
    + lra.
Qed.

Lemma np_clip_cases (x lo hi : Q) :
  ((lo <= hi)%Q ->
   ((x < lo)%Q -> np_clip x lo hi = lo)
   /\ ((lo <= x <= hi)%Q -> (np_clip x lo hi == x)%Q)
   /\ ((hi < x)%Q -> np_clip x lo hi = hi))
  /\ ((hi < lo)%Q -> np_clip x lo hi = hi).
Proof.
  unfold np_clip, np_minimum, np_maximum.
  destruct (Qle_bool x lo) eqn:E1.
  - apply Qle_bool_iff in E1.
    destruct (Qle_bool lo hi) eqn:E2.
    + apply Qle_bool_iff in E2.
      repeat split; intros; try reflexivity; lra.
    + apply Qle_bool_false in E2.
      repeat split; intros; try reflexivity; lra.
  - apply Qle_bool_false in E1.
    destruct (Qle_bool x hi) eqn:E2.
    + apply Qle_bool_iff in E2.
      repeat split; intros; try reflexivity; lra.
    + apply Qle_bool_false in E2.
      repeat split; intros; try reflexivity; lra.
Qed.

Section DriverFacts.
Variable np_exp : Q -> Q.
Variable Feed : Type.
Variable model : Computation.Model Feed.

Lemma predict_tf_feat_unpacked (data : Computation.Dataset)
    (batch_slice : pyslice) (u i l s d : pyval) :
  Computation.__getitem__ data batch_slice = inr [u; i; l; s; d] ->
  Computation.predict_tf_feat np_exp model data batch_slice
  = inr (transformed np_exp model
           (Computation.output model
              (Computation._get_feed_dict model u i s d PyNone false))).
Proof.
  intros H. unfold Computation.predict_tf_feat, transformed.
  rewrite H. reflexivity.
Qed.

(** A slice that does not carry five arrays cannot be evaluated. *)
Lemma predict_tf_feat_arity (data : Computation.Dataset)
    (batch_slice : pyslice) (tup : list pyval) :
  Computation.__getitem__ data batch_slice = inr tup -> length tup <> 5 ->
  exists msg,
    Computation.predict_tf_feat np_exp model data batch_slice
    = inl (ValueError msg).
Proof.
  intros H Hlen. unfold Computation.predict_tf_feat. rewrite H.
  destruct tup as [|a [|b [|c [|d [|e [|f tup]]]]]]; simpl in *;
    try (eexists; reflexivity).
  congruence.
Qed.

Lemma transformed_length (scores : list Q) :
  length (transformed np_exp model scores) = length scores.
Proof.
  unfold transformed.
  repeat match goal with |- context [if ?c then _ else _] => destruct c end;
    now rewrite ?length_map.
Qed.
End DriverFacts.

(** The repository's own [TransformedSet] yields three arrays per slice,
    which the driver cannot unpack. *)
Lemma predict_tf_feat_on_TransformedSet :
  forall (np_exp : Q -> Q) (Feed : Type) (model : Computation.Model Feed)
         (d : TransformedSet.t) (batch_slice : pyslice),
    exists e,
      Computation.predict_tf_feat np_exp model
        (Computation.of_TransformedSet d) batch_slice = inl e.
Proof.
  intros np_exp Feed model d s. unfold Computation.predict_tf_feat.
  simpl. unfold TransformedSet.__getitem__.
  destruct (py_getslice (TransformedSet.user_indices d) s); simpl;
    [eauto|].
  destruct (py_getslice (TransformedSet.item_indices d) s); simpl;
    [eauto|].
  destruct (py_getslice (TransformedSet.labels d) s); simpl; eauto.
Qed.

(** C6.  The forward pass of the model yields one scalar score per
    example of the feed.  For every batch whose slice carries the five
    arrays the driver unpacks, the driver returns one prediction per
    score, in the order of the scores: [1 / (1 + exp(-score))] for the
    ranking task; for the rating task the score itself when it lies within
    [lower_bound, upper_bound], [lower_bound] when it lies below and
    [upper_bound] when it lies above (and [upper_bound] throughout should
    the bounds be crossed). *)
Theorem predict_tf_feat_transforms_scores :
  (forall (seq_feats : nat -> list Q)
          (first_stage_mlp second_stage_mlp : list Q -> Q)
          (tf_attention : list Q -> list (list Q) -> list bool -> list Q)
          (_build_features : SIM.example -> list Q)
          (topk_op : Type) (build_topk : SIM.tensor -> topk_op)
          (self : SIM.t) (feed : SIM.batch),
      length (SIM.output
                (SIM.build_model seq_feats first_stage_mlp second_stage_mlp
                   tf_attention _build_features build_topk self) feed)
      = length feed)
  /\ (forall (np_exp : Q -> Q) (Feed : Type) (model : Computation.Model Feed)
             (data : Computation.Dataset) (batch_slice : pyslice)
             (u i l s d : pyval),
        Computation.__getitem__ data batch_slice = inr [u; i; l; s; d] ->
        let scores :=
          Computation.output model
            (Computation._get_feed_dict model u i s d PyNone false) in
        let lo := Computation.lower_bound model in
        let hi := Computation.upper_bound model in
        exists preds,
          Computation.predict_tf_feat np_exp model data batch_slice = inr preds
          /\ length preds = length scores
          /\ (Computation.task model = "ranking" ->
              preds = map (fun x => (1 / (1 + np_exp (- x)))%Q) scores)
          /\ (Computation.task model = "rating" ->
              Forall2 (fun x p =>
                         ((lo <= hi)%Q ->
                          ((x < lo)%Q -> p = lo)
                          /\ ((lo <= x <= hi)%Q -> (p == x)%Q)
                          /\ ((hi < x)%Q -> p = hi))
                         /\ ((hi < lo)%Q -> p = hi))
                      scores preds)).
Proof.
  split.
  - intros. apply sim_output_length.
  - intros np_exp Feed model data batch_slice u i l s d Hget scores lo hi.
    exists (transformed np_exp model scores).
    split; [apply predict_tf_feat_unpacked with (l := l); exact Hget|].
    split; [apply transformed_length|].
    unfold transformed. split.
    + intros ->. reflexivity.
    + intros ->. simpl. fold lo hi.
      induction scores as [|x scores IH]; simpl; constructor; [|exact IH].
      apply np_clip_cases.
Qed.

Lemma predict_tf_feat_transforms_scores_witness :
  Computation.predict_tf_feat Examples.exp_stub
    (Examples.sim_model MoreExamples.narrow_bounds)
    Examples.five_columns Examples.first_row = inr [5%Q].
Proof.
  destruct (proj2 predict_tf_feat_transforms_scores
              Examples.exp_stub SIM.batch
              (Examples.sim_model MoreExamples.narrow_bounds)
              Examples.five_columns Examples.first_row
              (PyIntArray [0]) (PyIntArray [1]) (PyFloatArray [1%Q])
              PyNone PyNone eq_refl)
    as (preds & Hrun & _ & _ & Hrating).
  rewrite Hrun. f_equal.
  specialize (Hrating eq_refl).
  change (Computation.output _ _) with [20%Q] in Hrating.
  inversion Hrating as [|x p xs ps [Hp _] Hrest]; subst.
  inversion Hrest; subst. f_equal.
  apply Hp; [discriminate|reflexivity].
Defined.

(** C3, the defect.  A SIM instance with [alpha = beta = 1]: the fused
    output of the example is [20], its second-stage score, which
    [inference_output] holds, is [11]; the evaluation driver returns
    [20]. *)
Theorem evaluation_reads_fused_output :
  let self := Examples.sim_self "rating" 1 1 in
  let g := Examples.sim_graph self in
  let feed := Examples.feed_of (PyIntArray [0]) (PyIntArray [1]) PyNone PyNone
                PyNone false in
  feed = [Examples.one_example]
  /\ SIM.inference_output g feed = [11%Q]
  /\ SIM.output g feed = [20%Q]
  /\ Computation.predict_tf_feat Examples.exp_stub (Examples.sim_model self)
       Examples.five_columns Examples.first_row = inr [20%Q].
Proof.
  repeat split; vm_compute; reflexivity.
Qed.

(* ===================================================================== *)
(** * Building the evaluation dataset                                     *)
(* ===================================================================== *)

Lemma dict_get_unknown (d : list (string * nat)) (k : string) (default : nat) :
  ~ In k (map fst d) -> Computation.dict_get d k default = default.
Proof.
  induction d as [|[k' v] d IH]; simpl; intros H; [reflexivity|].
  destruct (String.eqb_spec k' k) as [->|Hne]; [tauto|]. apply IH. tauto.
Qed.

(** Raw IDs the model has never seen become the reserved index. *)
Lemma unknown_ids_map_to_sentinel (di : Computation.DataInfo)
    (users items : list string) (p : nat) :
  (p < length users ->
   ~ In (nth p users "") (map fst (Computation.user2id di)) ->
   nth p (Computation.user_indices_of di users) 0 = Computation.n_users di)
  /\ (p < length items ->
      ~ In (nth p items "") (map fst (Computation.item2id di)) ->
      nth p (Computation.item_indices_of di items) 0 = Computation.n_items di).
Proof.
  unfold Computation.user_indices_of, Computation.item_indices_of.
  split; intros Hp Hnew.
  - rewrite nth_indep
      with (d' := Computation.dict_get (Computation.user2id di) ""
                    (Computation.n_users di)) by now rewrite length_map.
    rewrite (map_nth (fun u => Computation.dict_get (Computation.user2id di) u
                                 (Computation.n_users di))).
    now apply dict_get_unknown.
  - rewrite nth_indep
      with (d' := Computation.dict_get (Computation.item2id di) ""
                    (Computation.n_items di)) by now rewrite length_map.
    rewrite (map_nth (fun u => Computation.dict_get (Computation.item2id di) u
                                 (Computation.n_items di))).
    now apply dict_get_unknown.
Qed.

Lemma TransformedSet_rejects_train (args : list pyval) (v : pyval) :
  exists msg, TransformedSet.__init__ args [("train", v)] = inl (TypeError msg).
Proof.
  unfold TransformedSet.__init__, bind_call.
  destruct (bind_positional TransformedSet.init_params args) as [e|env] eqn:E.
  - simpl.
    assert (H : exists msg, e = TypeError msg).
    { clear -E. revert e E.
      generalize TransformedSet.init_params as ps.
      induction args as [|a args IH]; intros [|p ps] e E; simpl in E;
        try discriminate.
      - inversion E; eauto.
      - destruct (bind_positional ps args) eqn:E'; simpl in E;
          [|discriminate].
        inversion E; subst. eapply IH, E'. }
    destruct H as [msg ->]. eauto.
  - simpl. eauto.
Qed.

(** C10.  Every call of [build_transformed_data] raises a [TypeError]
    and returns no dataset: [TransformedSet.__init__] has no parameter
    [train].  Had the dataset been constructed, a call with
    [negative_sample] set would fail too, with an [AttributeError]:
    [TransformedSet] has no attribute [build_negative_samples]. *)
Theorem build_transformed_data_raises :
  forall (Feed : Type)
         (features_from_batch_data :
            Computation.DataInfo -> bool -> bool -> Computation.Frame ->
            pyval * pyval)
         (drop_duplicates : string -> Computation.Frame -> Computation.Frame)
         (assign_user_features assign_item_features :
            Computation.DataInfo -> Computation.Frame -> Computation.DataInfo)
         (model : Computation.Model Feed) (data : Computation.Frame)
         (negative_sample update_features : bool) (seed : nat),
    (exists msg,
        Computation.build_transformed_data features_from_batch_data
          drop_duplicates assign_user_features assign_item_features
          model data negative_sample update_features seed
        = inl (TypeError msg))
    /\ str_in "train" TransformedSet.init_params = false
    /\ (forall transformed_data : TransformedSet.t,
          Computation.after_construction drop_duplicates assign_user_features
            assign_item_features model data true update_features seed
            transformed_data
          = inl (AttributeError "build_negative_samples")).
Proof.
  intros. split; [|split].
  - unfold Computation.build_transformed_data.
    destruct (match Computation.col_name_mapping (Computation.data_info model)
              with Some _ => _ | None => _ end) as [sparse_indices dense_values].
    match goal with
    | |- context [TransformedSet.__init__ ?a ?k] =>
        destruct (TransformedSet_rejects_train a (PyBool false)) as [msg ->]
    end.
    exists msg. reflexivity.
  - reflexivity.
  - intros td. reflexivity.
Qed.

(* ===================================================================== *)
(** * [UserCF]: construction and [fit]                                    *)
(* ===================================================================== *)

(** C9, as amended.  An invalid configuration of the SIM model is
    detected by its constructor.  For UserCF a [sim_type] outside
    ['cosine', 'pearson', 'jaccard'] is not an error of construction: the
    constructor returns the instance, having printed nothing about it, and
    every later call of [fit] raises the [ValueError]. *)
Theorem usercf_sim_type_rejected_by_fit :
  (forall (h : SIM.helpers) (a : SIM.args),
      SIM.invalid a -> raises (outcome (SIM.__init__ h a)))
  /\ (forall (task : string) (global_mean : Q) (n_users n_items : nat)
             (sim_type : string) (k : nat) (lower_bound upper_bound : Q),
        sim_type <> "cosine" -> sim_type <> "pearson" ->
        sim_type <> "jaccard" ->
        exists self,
          UserCF.__init__ task global_mean n_users n_items sim_type k
            lower_bound upper_bound = inr (self, [])
          /\ UserCF.sim_type self = sim_type
          /\ forall (sim_opts : Type)
                    (cosine_sim pearson_sim jaccard_sim :
                       csr -> csr -> nat -> nat -> sim_opts -> csr)
                    (transpose_tocsr : csr -> csr)
                    (train_data : UserCF.TrainData) (opts : sim_opts),
              UserCF.fit cosine_sim pearson_sim jaccard_sim transpose_tocsr
                self train_data opts
              = inl (ValueError
                  "sim_type must be one of ('cosine', 'pearson', 'jaccard')")).
Proof.
  split.
  - intros h a Hinv. now apply init_invalid_raises.
  - intros task gm nu ni st k lo hi Hc Hp Hj.
    apply String.eqb_neq in Hc, Hp, Hj.
    eexists. split; [|split].
    + unfold UserCF.__init__, UserCF._caution_sim_type; simpl.
      rewrite Hp, Hj, !andb_false_r. reflexivity.
    + reflexivity.
    + intros. unfold UserCF.fit; simpl. rewrite Hc, Hp, Hj. reflexivity.
Qed.

Lemma usercf_sim_type_rejected_by_fit_witness :
  exists self,
    UserCF.__init__ "rating" 3 3 6 "euclidean" 20 1 5 = inr (self, [])
    /\ UserCF.fit UserCFExamples.sim_stub UserCFExamples.sim_stub
         UserCFExamples.sim_stub UserCFExamples.transpose_stub self
         UserCFExamples.train_data tt
       = inl (ValueError
                "sim_type must be one of ('cosine', 'pearson', 'jaccard')").
Proof.
  destruct (proj2 usercf_sim_type_rejected_by_fit
              "rating" 3%Q 3 6 "euclidean" 20 1%Q 5%Q)
    as (self & Hinit & _ & Hfit); try discriminate.
  exists self. split; [exact Hinit|apply Hfit].
Defined.

(** C9 as stated fails: the invalid [sim_type] ["euclidean"] passes
    construction, and the error only appears in [fit]. *)
Lemma usercf_construction_counterexample :
  ~ str_in "euclidean" ["cosine"; "pearson"; "jaccard"] = true
  /\ (exists self out,
        UserCF.__init__ "rating" 3 3 6 "euclidean" 20 1 5 = inr (self, out)
        /\ raises (UserCF.fit UserCFExamples.sim_stub UserCFExamples.sim_stub
                     UserCFExamples.sim_stub UserCFExamples.transpose_stub
                     self UserCFExamples.train_data tt))
  /\ ~ raises (UserCF.__init__ "rating" 3 3 6 "euclidean" 20 1 5).
Proof.
  split; [|split].
  - vm_compute. discriminate.
  - eexists. eexists. split; [reflexivity|]. eexists. reflexivity.
  - intros [e He]. discriminate.
Qed.

(* ===================================================================== *)
(** * [UserCF.predict]                                                    *)
(* ===================================================================== *)

(** C8, the defect.  Whatever [_check_unknown] does to the arrays: when
    it reports unknown entries and names them by a sequence of positions,
    [predict] raises.  If the loop itself gets through, the error is the
    [TypeError] of the assignment [preds[unknown_index] = ...], since
    [preds] is a Python list. *)
Theorem predict_unknown_entries_raise :
  forall (_check_unknown :
            UserCF.t -> list nat -> list nat ->
            nat * pyindex * list nat * list nat)
         (self : UserCF.t) (user item user' item' : list nat)
         (unknown_num : nat) (unknown_index : list nat),
    _check_unknown self user item
    = (unknown_num, IdxSeq unknown_index, user', item') ->
    0 < unknown_num ->
    raises (UserCF.predict _check_unknown self user item)
    /\ (forall sim inter preds,
          UserCF.sim_matrix self = Some sim ->
          UserCF.item_interaction self = Some inter ->
          UserCF.predict_loop self sim inter (combine user' item') []
          = inr preds ->
          UserCF.predict _check_unknown self user item
          = inl (TypeError
                   "list indices must be integers or slices, not list")).
Proof.
  intros cu self user item user' item' n idx Hcu Hn.
  apply Nat.ltb_lt in Hn.
  unfold UserCF.predict. rewrite Hcu.
  split.
  - destruct (UserCF.sim_matrix self) as [sim|]; simpl;
      [|eexists; reflexivity].
    destruct (UserCF.item_interaction self) as [inter|]; simpl;
      [|eexists; reflexivity].
    destruct (UserCF.predict_loop self sim inter (combine user' item') [])
      as [e|preds]; simpl; [eexists; reflexivity|].
    rewrite Hn. simpl. eexists; reflexivity.
  - intros sim inter preds -> -> Hloop. simpl. rewrite Hloop. simpl.
    rewrite Hn. reflexivity.
Qed.

Lemma predict_unknown_entries_raise_witness :
  raises (UserCF.predict _check_unknown_by_range UserCFExamples.fitted_model
            [3] [0]).
Proof.
  refine (proj1 (@predict_unknown_entries_raise _check_unknown_by_range
                   UserCFExamples.fitted_model [3] [0] [3] [0] 1 [0] _ _)).
  - reflexivity.
  - lia.
Defined.

(** The same request, with the unknown entry sent through the loop as
    user 0 and item 0: the loop yields the default prediction, and the
    assignment raises. *)
Lemma predict_unknown_entry_TypeError :
  UserCF.predict (fun _ _ _ => (1, IdxSeq [0], [0], [0]))
    UserCFExamples.fitted_model [3] [0]
  = inl (TypeError "list indices must be integers or slices, not list").
Proof. reflexivity. Qed.

(* ===================================================================== *)
(** * [UserCF.recommend_user]                                             *)
(* ===================================================================== *)

Lemma nat_in_false (x : nat) (l : list nat) :
  nat_in x l = false <-> ~ In x l.
Proof.
  unfold nat_in. split.
  - intros H Hin. assert (existsb (Nat.eqb x) l = true); [|congruence].
    apply existsb_exists. exists x. split; [exact Hin|apply Nat.eqb_refl].
  - intros H. apply not_true_iff_false. intros Hex.
    apply existsb_exists in Hex as (y & Hy & Heq).
    apply Nat.eqb_eq in Heq. now subst.
Qed.




Section Accumulation.
Variable u_consumed : list nat.

(** What may become a key of [result]: an item some neighbour has
    interacted with and the user has not consumed. *)
Variable candidate : nat -> Prop.




End Accumulation.


(** ** Stability of the sort and the order of the candidates *)

Section Precedes.
Variable A : Type.







Variable B : Type.


End Precedes.

Section Stability.
Variable A : Type.
Variable key : A -> Q.
Variable v : Q.



End Stability.










(** The known user 0 gets nothing, and a known user without a similar
    neighbour gets [-1]. *)
Lemma recommend_user_no_list :
  UserCF.recommend_user UserCFExamples.sample_stub
    UserCFExamples.fitted_model 0 10 false = inr UserCF.RecoNone
  /\ UserCF.recommend_user UserCFExamples.sample_stub
       UserCFExamples.fitted_model 2 10 false = inr UserCF.RecoMinusOne.
Proof. split; reflexivity. Qed.

(* ===================================================================== *)
(** * [np.unique]                                                         *)
(* ===================================================================== *)

Lemma drop_repeats_In (l : list nat) (x : nat) :
  In x (drop_repeats l) <-> In x l.
Proof.
  induction l as [|a [|b l] IH]; simpl; try tauto.
  simpl in IH. destruct (Nat.eqb_spec a b) as [->|Hne]; simpl.
  - rewrite IH. tauto.
  - rewrite IH. tauto.
Qed.

Lemma drop_repeats_sorted (l : list nat) :
  StronglySorted le l -> StronglySorted lt (drop_repeats l).
Proof.
  induction l as [|a [|b l] IH]; intros Hs.
  - constructor.
  - simpl. constructor; constructor.
  - apply StronglySorted_inv in Hs as [Hs Ha].
    specialize (IH Hs).
    change (drop_repeats (a :: b :: l))
      with (if a =? b then drop_repeats (b :: l)
            else a :: drop_repeats (b :: l)).
    destruct (Nat.eqb_spec a b) as [->|Hne]; [exact IH|].
    constructor; [exact IH|].
    apply Forall_forall. intros x Hx.
    apply (proj1 (drop_repeats_In _ _)) in Hx.
    apply StronglySorted_inv in Hs as [_ Hb].
    rewrite Forall_forall in Ha, Hb.
    assert (a <= b) by (apply Ha; now left).
    simpl in Hx. destruct Hx as [<-|Hx]; [lia|]. specialize (Hb x Hx). lia.
Qed.

Lemma np_unique_In (l : list nat) (x : nat) : In x (np_unique l) <-> In x l.
Proof.
  unfold np_unique. now rewrite drop_repeats_In, sorted_desc_In.
Qed.

(** [np.unique] returns a strictly increasing list. *)
Lemma np_unique_sorted (l : list nat) : StronglySorted lt (np_unique l).
Proof.
  unfold np_unique. apply drop_repeats_sorted.
  eapply StronglySorted_weaken; [|apply sorted_desc_key_ge].
  unfold key_ge. intros a b H.
  apply Qopp_le_compat in H. rewrite !Qopp_involutive in H.
  rewrite <- Zle_Qle in H. lia.
Qed.


(* ===================================================================== *)
(** * The evaluation loops                                                *)
(* ===================================================================== *)

Lemma py_bind_inr {A B} (x : A) (f : A -> py B) :
  (y <- (inr x : py A) ;; f y) = f x.
Proof. reflexivity. Qed.

Lemma batch_slice_eq {A} (j s : nat) (l : list A) :
  slice_list {| start := j * s; stop := j * s + s |} l
  = firstn s (skipn (j * s) l).
Proof.
  unfold slice_list; simpl. f_equal. lia.
Qed.

(** Consecutive batches of size [s] put the list back together. *)
Lemma batches_cover {A} (s k : nat) (l : list A) :
  length l <= k * s ->
  concat (map (fun j => slice_list {| start := j * s; stop := j * s + s |} l)
              (seq 0 k)) = l.
Proof.
  revert l. induction k as [|k IH]; intros l Hlen.
  - simpl in *. destruct l; [reflexivity|simpl in Hlen; lia].
  - replace (seq 0 (S k)) with (0 :: map S (seq 0 k))
      by (rewrite seq_shift; reflexivity).
    rewrite map_cons, map_map. cbv beta. cbn [concat].
    rewrite (batch_slice_eq 0 s l). cbn [Nat.mul skipn].
    transitivity (firstn s l ++ skipn s l); [|apply firstn_skipn].
    f_equal.
    assert (Hrest : length (skipn s l) <= k * s)
      by (rewrite length_skipn; simpl in Hlen; lia).
    rewrite <- (IH (skipn s l) Hrest).
    f_equal. apply map_ext. intros j.
    unfold slice_list; simpl. rewrite skipn_skipn.
    f_equal; [lia|f_equal; lia].
Qed.

Lemma batch_count_enough (n s : nat) : 0 < s -> n <= (n + s - 1) / s * s.
Proof.
  intros Hs.
  pose proof (Nat.div_mod_eq (n + s - 1) s) as H.
  pose proof (Nat.mod_upper_bound (n + s - 1) s ltac:(lia)) as Hr.
  nia.
Qed.

Lemma py_range0_positive (n : nat) (p : positive) :
  py_range0 n (Z.pos p)
  = inr (map (fun j => j * Pos.to_nat p)
             (seq 0 ((n + Pos.to_nat p - 1) / Pos.to_nat p))).
Proof. reflexivity. Qed.

Section LoopFacts.
Variable np_exp : Q -> Q.
Variable Feed : Type.
Variable model : Computation.Model Feed.
Variable data : Loops.EvalData.

Lemma compute_preds_loop_spec (s : nat) (starts : list nat)
  (y_pred y_label : list Q) :
(forall b, In b starts ->
   returns (Computation.predict_tf_feat np_exp model (Loops.dataset data)
              {| start := b; stop := b + s |})) ->
exists chunks,
  Forall2 (fun b preds =>
             Computation.predict_tf_feat np_exp model (Loops.dataset data)
               {| start := b; stop := b + s |} = inr preds)
          starts chunks
  /\ Loops.compute_preds_loop np_exp model data s starts y_pred y_label
     = inr (y_pred ++ concat chunks,
            y_label
            ++ concat (map (fun b =>
                              slice_list {| start := b; stop := b + s |}
                                         (Loops.labels data)) starts)).
Proof.
revert y_pred y_label.
induction starts as [|b starts IH]; intros y_pred y_label Hrun.
- exists []. split; [constructor|]. simpl. now rewrite !app_nil_r.
- destruct (Hrun b (or_introl eq_refl)) as [preds Hb].
  destruct (IH (y_pred ++ preds)
               (y_label ++ slice_list {| start := b; stop := b + s |}
                                      (Loops.labels data)))
    as (chunks & Hall & Hloop).
  { intros b' Hb'. apply Hrun. now right. }
  exists (preds :: chunks). split; [now constructor|].
  simpl. rewrite Hb. simpl. rewrite Hloop.
  now rewrite <- !app_assoc.
Qed.
End LoopFacts.

(** X1.  With a positive batch size, and when every batch can be
    predicted, [compute_preds] returns all the labels of the data, in
    their order, and the predictions of the batches one after the
    other. *)
Theorem compute_preds_covers_the_data :
  forall (np_exp : Q -> Q) (Feed : Type) (model : Computation.Model Feed)
         (data : Loops.EvalData) (p : positive),
    (forall s, returns (Computation.predict_tf_feat np_exp model
                          (Loops.dataset data) s)) ->
    exists starts chunks,
      py_range0 (Loops.__len__ data) (Z.pos p) = inr starts
      /\ Forall2 (fun b preds =>
                    Computation.predict_tf_feat np_exp model
                      (Loops.dataset data)
                      {| start := b; stop := b + Pos.to_nat p |} = inr preds)
                 starts chunks
      /\ Loops.compute_preds np_exp model data (Z.pos p)
         = inr (concat chunks, Loops.labels data).
Proof.
  intros np_exp Feed model data p Hrun.
  unfold Loops.compute_preds. rewrite py_range0_positive.
  set (s := Pos.to_nat p).
  set (k := (Loops.__len__ data + s - 1) / s).
  destruct (@compute_preds_loop_spec np_exp Feed model data s
              (map (fun j => j * s) (seq 0 k)) [] [])
    as (chunks & Hall & Hloop); [intros; apply Hrun|].
  exists (map (fun j => j * s) (seq 0 k)), chunks.
  split; [reflexivity|]. split; [exact Hall|].
  rewrite py_bind_inr. change (Z.to_nat (Z.pos p)) with s.
  rewrite Hloop. cbn [app].
  rewrite map_map, batches_cover; [reflexivity|].
  apply batch_count_enough. unfold s. lia.
Qed.

Lemma compute_preds_covers_the_data_witness :
  Loops.compute_preds Examples.exp_stub
    (Examples.sim_model (Examples.sim_self "rating" 1 1))
    MoreExamples.five_columns_data 1
  = inr ([20%Q; 21%Q], [1%Q; 0%Q]).
Proof.
  destruct (@compute_preds_covers_the_data Examples.exp_stub SIM.batch
              (Examples.sim_model (Examples.sim_self "rating" 1 1))
              MoreExamples.five_columns_data 1%positive)
    as (starts & chunks & Hstarts & Hall & Hrun).
  - intros s. unfold returns, Computation.predict_tf_feat. simpl.
    eexists. reflexivity.
  - rewrite Hrun. f_equal. f_equal.
    inversion Hstarts; subst starts.
    inversion Hall as [|b0 c0 bs cs H0 Hrest]; subst.
    inversion Hrest as [|b1 c1 bs' cs' H1 Hrest']; subst.
    inversion Hrest'; subst.
    vm_compute in H0. vm_compute in H1.
    inversion H0; inversion H1; subst. reflexivity.
Defined.

(** X2.  [compute_preds] with batch size zero raises the [ValueError] of
    [range]; with a negative batch size, or on data without rows, it
    returns two empty lists and never runs the model. *)
Theorem compute_preds_degenerate :
  forall (np_exp : Q -> Q) (Feed : Type) (model : Computation.Model Feed)
         (data : Loops.EvalData) (p : positive),
    Loops.compute_preds np_exp model data 0
    = inl (ValueError "range() arg 3 must not be zero")
    /\ Loops.compute_preds np_exp model data (Z.neg p) = inr ([], [])
    /\ Loops.compute_preds np_exp model
         {| Loops.dataset := Loops.dataset data; Loops.labels := [] |}
         (Z.pos p) = inr ([], []).
Proof.
  intros. repeat split.
  unfold Loops.compute_preds. rewrite py_range0_positive. simpl.
  rewrite Nat.div_small by lia. reflexivity.
Qed.

(** X3.  On a [TransformedSet] with at least one row and a positive
    batch size, [compute_preds] raises in its first batch: the slice of a
    [TransformedSet] has three components, [predict_tf_feat] unpacks
    five. *)
Theorem compute_preds_on_TransformedSet_raises :
  forall (np_exp : Q -> Q) (Feed : Type) (model : Computation.Model Feed)
         (d : TransformedSet.t) (float_labels : list Q) (p : positive),
    float_labels <> [] ->
    raises (Loops.compute_preds np_exp model
              (Loops.of_TransformedSet d float_labels) (Z.pos p))
    /\ forall u i l,
         TransformedSet._user_indices d = PyIntArray u ->
         TransformedSet._item_indices d = PyIntArray i ->
         TransformedSet._labels d = PyFloatArray l ->
         Loops.compute_preds np_exp model
           (Loops.of_TransformedSet d float_labels) (Z.pos p)
         = inl (ValueError "wrong number of values to unpack (expected 5)").
Proof.
  intros np_exp Feed model d labels p Hne.
  unfold Loops.compute_preds. rewrite py_range0_positive.
  set (s := Pos.to_nat p).
  assert (Hk : exists k, (Loops.__len__ (Loops.of_TransformedSet d labels)
                          + s - 1) / s = S k).
  { unfold Loops.__len__; simpl.
    destruct labels as [|x labels]; [congruence|]. simpl length.
    destruct ((S (length labels) + s - 1) / s) eqn:E; [|eauto].
    apply Nat.div_small_iff in E; unfold s in *; lia. }
  destruct Hk as [k ->].
  replace (seq 0 (S k)) with (0 :: seq 1 k) by reflexivity.
  rewrite py_bind_inr. cbn [map Loops.compute_preds_loop].
  change (Loops.dataset (Loops.of_TransformedSet d labels))
    with (Computation.of_TransformedSet d).
  split.
  - match goal with
    | |- context [Computation.predict_tf_feat _ _ _ ?sl] =>
        destruct (@predict_tf_feat_on_TransformedSet np_exp Feed model d sl)
          as [e He]
    end.
    rewrite He. exists e. reflexivity.
  - intros u i l Hu Hi Hl.
    unfold Computation.predict_tf_feat, Computation.of_TransformedSet,
      TransformedSet.__getitem__, TransformedSet.user_indices,
      TransformedSet.item_indices, TransformedSet.labels.
    cbn [Computation.__getitem__]. rewrite Hu, Hi, Hl. reflexivity.
Qed.

Lemma compute_preds_on_TransformedSet_raises_witness :
  raises (Loops.compute_preds Examples.exp_stub
            (Examples.sim_model (Examples.sim_self "rating" 1 1))
            (Loops.of_TransformedSet MoreExamples.two_rows [1%Q; 0%Q]) 1).
Proof.
  refine (proj1 (@compute_preds_on_TransformedSet_raises Examples.exp_stub
                   SIM.batch
                   (Examples.sim_model (Examples.sim_self "rating" 1 1))
                   MoreExamples.two_rows [1%Q; 0%Q] 1%positive _)).
  discriminate.
Defined.

Lemma dict_set_keys {V} (d : list (nat * V)) (k : nat) (v : V) (u : nat) :
  In u (map fst (dict_set d k v)) <-> In u (map fst d) \/ u = k.
Proof.
  induction d as [|[k' v'] d IH]; simpl.
  - intuition.
  - destruct (Nat.eqb_spec k' k) as [->|Hne]; simpl.
    + intuition.
    + rewrite IH. intuition.
Qed.

Lemma dict_set_NoDup {V} (d : list (nat * V)) (k : nat) (v : V) :
  NoDup (map fst d) -> NoDup (map fst (dict_set d k v)).
Proof.
  induction d as [|[k' v'] d IH]; simpl; intros Hnd.
  - constructor; [intros []|constructor].
  - inversion Hnd as [|? ? Hnin Hnd']; subst.
    destruct (Nat.eqb_spec k' k) as [->|Hne]; simpl.
    + now constructor.
    + constructor; [|now apply IH].
      rewrite dict_set_keys. intuition.
Qed.

Lemma dict_set_entries {V} (d : list (nat * V)) (k : nat) (v : V)
    (u : nat) (w : V) :
  In (u, w) (dict_set d k v) -> In (u, w) d \/ (u = k /\ w = v).
Proof.
  induction d as [|[k' v'] d IH]; simpl.
  - intros [H|[]]. inversion H; auto.
  - destruct (Nat.eqb_spec k' k) as [->|Hne]; simpl.
    + intros [H|H]; [inversion H; auto|auto].
    + intros [H|H]; [auto|]. destruct (IH H); auto.
Qed.

Section RecommendsFacts.
Variable recommend_user : nat -> nat -> py UserCF.recommendation.
Variable k : nat.

Let served := Loops.served recommend_user k.
Let unserved := Loops.unserved recommend_user k.

Lemma served_not_unserved (u : nat) : served u -> ~ unserved u.
Proof.
intros (r & Hr & Hs) (r' & Hr' & Hu). rewrite Hr in Hr'.
inversion Hr'; subst. congruence.
Qed.

Lemma compute_recommends_loop_spec (users : list nat)
  (y0 : list (nat * list nat)) (nr0 : list nat)
  (y : list (nat * list nat)) (nr : list nat) :
Loops.compute_recommends_loop recommend_user users k y0 nr0 = inr (y, nr) ->
(forall u, In u users -> served u \/ unserved u)
/\ (forall u, In u nr <-> In u nr0 \/ (In u users /\ unserved u))
/\ (forall u, In u (map fst y)
              <-> In u (map fst y0) \/ (In u users /\ served u))
/\ (forall u items, In (u, items) y ->
      In (u, items) y0
      \/ exists reco, recommend_user u k = inr reco
                      /\ Loops.no_reco reco = false
                      /\ items = Loops.items_of reco)
/\ (NoDup (map fst y0) -> NoDup (map fst y)).
Proof.
revert y0 nr0. induction users as [|u users IH]; intros y0 nr0 Hrun.
- simpl in Hrun. inversion Hrun; subst.
  split; [intros u []|].
  split; [intros u; split; [auto|intros [H|[[] _]]; exact H]|].
  split; [intros u; split; [auto|intros [H|[[] _]]; exact H]|].
  split; [intros; now left|auto].
- simpl in Hrun.
  destruct (recommend_user u k) as [e|reco] eqn:Hreco; [discriminate|].
  simpl in Hrun.
  destruct (Loops.no_reco reco) eqn:Hno.
  + destruct (IH _ _ Hrun) as (H1 & H2 & H3 & H4 & H5).
    assert (Hu : unserved u) by (exists reco; auto).
    split; [intros u' [<-|Hin]; auto|].
    split; [|split; [|split; [exact H4|exact H5]]].
    * intros u'. rewrite H2, in_app_iff; simpl. split.
      -- intros [[H|[<-|[]]]|[H H']]; auto.
      -- intros [H|[[<-|H] H']]; auto.
    * intros u'. rewrite H3. simpl. split.
      -- intros [H|[H H']]; auto.
      -- intros [H|[[<-|H] H']]; auto.
         exfalso. eapply served_not_unserved; eauto.
  + destruct (IH _ _ Hrun) as (H1 & H2 & H3 & H4 & H5).
    assert (Hu : served u) by (exists reco; auto).
    split; [intros u' [<-|Hin]; auto|].
    split; [|split; [|split]].
    * intros u'. rewrite H2. simpl. split.
      -- intros [H|[H H']]; auto.
      -- intros [H|[[<-|H] H']]; auto.
         exfalso. eapply served_not_unserved; eauto.
    * intros u'. rewrite H3, dict_set_keys. simpl. split.
      -- intros [[H| ->]|[H H']]; auto.
      -- intros [H|[[<-|H] H']]; auto.
    * intros u' items Hin. destruct (H4 _ _ Hin) as [Hold|Hnew]; [|auto].
      apply dict_set_entries in Hold as [Hold|[-> ->]]; [auto|].
      right. exists reco. auto.
    * intros Hnd. apply H5. now apply dict_set_NoDup.
Qed.
End RecommendsFacts.

(** X4.  When [compute_recommends] returns, the users it returns are
    exactly the given users whose recommendation is a non-empty list, and
    they are exactly the keys of the dictionary, each of which occurs once
    and maps to the items of that user's list. *)
Theorem compute_recommends_keeps_served_users :
  forall (recommend_user : nat -> nat -> py UserCF.recommendation)
         (users : list nat) (k : nat)
         (y_recommends : list (nat * list nat)) (users' : list nat),
    Loops.compute_recommends recommend_user users k
    = inr (y_recommends, users') ->
    (forall u, In u users' <->
               In u users /\ Loops.served recommend_user k u)
    /\ (forall u, In u (map fst y_recommends) <-> In u users')
    /\ NoDup (map fst y_recommends)
    /\ (forall u items, In (u, items) y_recommends ->
          items <> []
          /\ exists reco, recommend_user u k = inr reco
                          /\ items = Loops.items_of reco).
Proof.
  intros rec users k y users' Hrun.
  unfold Loops.compute_recommends in Hrun.
  destruct (Loops.compute_recommends_loop rec users k [] [])
    as [e|[y1 nr]] eqn:Hloop; [discriminate|].
  rewrite py_bind_inr in Hrun. inversion Hrun; subst y1 users'. clear Hrun.
  destruct (@compute_recommends_loop_spec rec k users [] [] y nr Hloop)
    as (H1 & H2 & H3 & H4 & H5).
  assert (Husers : forall u,
             In u (if 0 <? length nr
                   then filter (fun u => negb (nat_in u nr))
                               (np_unique users)
                   else users)
             <-> In u users /\ Loops.served rec k u).
  { intros u. destruct (0 <? length nr) eqn:E.
    - rewrite filter_In, np_unique_In, negb_true_iff, nat_in_false, H2.
      simpl. split.
      + intros [Hin Hnot]. split; [exact Hin|].
        destruct (H1 u Hin) as [Hs|Hu]; [exact Hs|]. exfalso. auto.
      + intros [Hin Hs]. split; [exact Hin|].
        intros [[]|[_ Hu]]. eapply served_not_unserved; eauto.
    - apply Nat.ltb_ge in E. destruct nr; [|simpl in E; lia].
      split; [|tauto]. intros Hin. split; [exact Hin|].
      destruct (H1 u Hin) as [Hs|Hu]; [exact Hs|].
      exfalso. apply (proj2 (H2 u)). auto. }
  split; [exact Husers|].
  split; [intros u; rewrite Husers, H3; simpl; tauto|].
  split; [apply H5; constructor|].
  intros u items Hin. destruct (H4 _ _ Hin) as [[]|(reco & Hr & Hno & ->)].
  split; [|eauto].
  destruct reco as [| |[|x l]]; simpl in *; congruence.
Qed.

Lemma compute_recommends_keeps_served_users_witness :
  Loops.compute_recommends MoreExamples.even_only [0; 1; 2; 1; 4; 0] 5
  = inr ([(0, [7; 8]); (2, [7; 8]); (4, [7; 8])], [0; 2; 4])
  /\ (In 4 [0; 2; 4] <->
      In 4 [0; 1; 2; 1; 4; 0] /\ Loops.served MoreExamples.even_only 5 4)
  /\ NoDup (map fst [(0, [7; 8]); (2, [7; 8]); (4, [7; 8])]).
Proof.
  assert (Hrun : Loops.compute_recommends MoreExamples.even_only
                   [0; 1; 2; 1; 4; 0] 5
                 = inr ([(0, [7; 8]); (2, [7; 8]); (4, [7; 8])], [0; 2; 4]))
    by reflexivity.
  split; [exact Hrun|].
  destruct (compute_recommends_keeps_served_users _ _ _ Hrun)
    as (Husers & _ & Hnd & _).
  split; [apply Husers|exact Hnd].
Defined.

(** X5.  [compute_recommends] on a [UserCF] model raises a [TypeError]
    at the first user: it passes [inner_id=True], a keyword that
    [UserCF.recommend_user] does not have.  Without users it returns an
    empty dictionary. *)
Theorem compute_recommends_on_UserCF_raises :
  forall (random_sample : list (nat * Q) -> nat -> list (nat * Q))
         (self : UserCF.t) (u : nat) (users : list nat) (k : nat),
    Loops.compute_recommends (Loops.usercf_recommend_user random_sample self)
      (u :: users) k
    = inl (TypeError "got an unexpected keyword argument inner_id")
    /\ Loops.compute_recommends
         (Loops.usercf_recommend_user random_sample self) [] k
       = inr ([], []).
Proof. intros. split; reflexivity. Qed.

(* ===================================================================== *)
(** * [TransformedEvalSet]                                                *)
(* ===================================================================== *)

Module EvalSetFacts.
Import TransformedEvalSet.

Lemma dict_append_holds (d : list (nat * list nat)) (u i u' i' : nat) :
listed_under (dict_append d u i) u' i'
<-> listed_under d u' i' \/ (u' = u /\ i' = i).
Proof.
unfold listed_under. induction d as [|[v items] d IH]; simpl.
- split.
  + intros (its & [H|[]] & Hi). inversion H; subst.
    destruct Hi as [<-|[]]. auto.
  + intros [(its & [] & _)|[-> ->]]. exists [i]. simpl. auto.
- destruct (Nat.eqb_spec v u) as [->|Hne]; simpl.
  + split.
    * intros (its & [H|H] & Hi).
      -- inversion H; subst. apply in_app_iff in Hi as [Hi|[<-|[]]];
           [left; exists items; auto|auto].
      -- left. exists its. auto.
    * intros [(its & [H|H] & Hi)|[-> ->]].
      -- inversion H; subst. exists (its ++ [i]). split; [auto|].
         apply in_app_iff. auto.
      -- exists its. auto.
      -- exists (items ++ [i]). split; [auto|].
         apply in_app_iff. simpl. auto.
  + split.
    * intros (its & [H|H] & Hi).
      -- left. exists its. auto.
      -- destruct (proj1 IH) as [(its' & H' & Hi')|H']; [eauto| |auto].
         left. exists its'. auto.
    * intros [(its & [H|H] & Hi)|Heq].
      -- exists its. auto.
      -- destruct (proj2 IH) as (its' & H' & Hi'); [left; eauto|].
         exists its'. auto.
      -- destruct (proj2 IH) as (its' & H' & Hi'); [right; exact Heq|].
         exists its'. auto.
Qed.

Lemma dict_append_keys (d : list (nat * list nat)) (u i v : nat) :
In v (map fst (dict_append d u i)) <-> In v (map fst d) \/ v = u.
Proof.
induction d as [|[w items] d IH]; simpl.
- intuition.
- destruct (Nat.eqb_spec w u) as [->|Hne]; simpl.
  + intuition.
  + rewrite IH. intuition.
Qed.

Lemma dict_append_NoDup (d : list (nat * list nat)) (u i : nat) :
NoDup (map fst d) -> NoDup (map fst (dict_append d u i)).
Proof.
induction d as [|[w items] d IH]; simpl; intros Hnd.
- constructor; [intros []|constructor].
- inversion Hnd as [|? ? Hnin Hnd']; subst.
  destruct (Nat.eqb_spec w u) as [->|Hne]; simpl.
  + now constructor.
  + constructor; [|now apply IH].
    rewrite dict_append_keys. intuition.
Qed.

Lemma dict_append_nonempty (d : list (nat * list nat)) (u i : nat) :
Forall (fun e => snd e <> []) d ->
Forall (fun e => snd e <> []) (dict_append d u i).
Proof.
induction d as [|[w items] d IH]; simpl; intros H.
- constructor; [simpl; discriminate|constructor].
- inversion H; subst.
  destruct (Nat.eqb_spec w u) as [->|Hne]; constructor; auto.
  simpl. destruct items; discriminate.
Qed.

Section Fold.
Variable all_positive : bool.

Let step (d : list (nat * list nat)) (uil : nat * nat * Q) :=
  match uil with
  | (u, i, lb) =>
  if all_positive || negb (Qeq_bool lb 0) then dict_append d u i else d
  end.

Let counted (lb : Q) : Prop := all_positive = true \/ ~ (lb == 0)%Q.

Lemma step_counted (lb : Q) :
  all_positive || negb (Qeq_bool lb 0) = true <-> counted lb.
Proof.
  unfold counted. rewrite orb_true_iff, negb_true_iff.
  rewrite <- not_true_iff_false, Qeq_bool_iff. tauto.
Qed.

Lemma fold_holds (rows : list (nat * nat * Q)) (d : list (nat * list nat))
(u i : nat) :
  listed_under (fold_left step rows d) u i
  <-> listed_under d u i \/ exists lb, In (u, i, lb) rows /\ counted lb.
Proof.
  revert d. induction rows as [|[[v j] lb] rows IH]; intros d; simpl.
  - split; [auto|]. intros [H|(lb & [] & _)]. exact H.
  - rewrite IH.
destruct (all_positive || negb (Qeq_bool lb 0)) eqn:E.
+ apply step_counted in E. rewrite dict_append_holds. split.
  * intros [[H|[-> ->]]|(lb' & H & Hc)]; eauto 6.
  * intros [H|(lb' & [H|H] & Hc)]; eauto 6.
    inversion H; subst. auto.
+ assert (Hn : ~ counted lb)
    by (rewrite <- step_counted; congruence).
  split.
  * intros [H|(lb' & H & Hc)]; eauto 6.
  * intros [H|(lb' & [H|H] & Hc)]; eauto 6.
    inversion H; subst. contradiction.
Qed.

Lemma fold_NoDup (rows : list (nat * nat * Q)) (d : list (nat * list nat)) :
  NoDup (map fst d) -> NoDup (map fst (fold_left step rows d)).
Proof.
  revert d. induction rows as [|[[v j] lb] rows IH]; intros d Hnd; simpl;
[exact Hnd|].
  apply IH. destruct (all_positive || negb (Qeq_bool lb 0)); [|exact Hnd].
  now apply dict_append_NoDup.
Qed.

Lemma fold_nonempty (rows : list (nat * nat * Q)) (d : list (nat * list nat)) :
  Forall (fun e => snd e <> []) d ->
  Forall (fun e => snd e <> []) (fold_left step rows d).
Proof.
  revert d. induction rows as [|[[v j] lb] rows IH]; intros d H; simpl;
[exact H|].
  apply IH. destruct (all_positive || negb (Qeq_bool lb 0)); [|exact H].
  now apply dict_append_nonempty.
Qed.
End Fold.
End EvalSetFacts.

(** X6.  [_get_positive_consumed] lists item [i] under user [u] exactly
    when some row [(u, i, label)] of the data has a non-zero label, or
    when all labels of the data are zero; every user occurs once, with a
    non-empty list of items in strictly increasing order. *)
Theorem positive_consumed_spec :
  forall (users items : list nat) (labels : list Q),
    let consumed :=
      TransformedEvalSet._get_positive_consumed users items labels in
    (forall u i,
        (exists its, In (u, its) consumed /\ In i its)
        <-> exists lb,
              In (u, i, lb) (TransformedEvalSet.zip3 users items labels)
              /\ (Forall (fun l => (l == 0)%Q) labels \/ ~ (lb == 0)%Q))
    /\ NoDup (map fst consumed)
    /\ (forall u its, In (u, its) consumed ->
          its <> [] /\ StronglySorted lt its).
Proof.
  intros users items labels consumed.
  unfold consumed, TransformedEvalSet._get_positive_consumed.
  set (allpos := forallb (fun lb => Qeq_bool lb 0) labels).
  set (raw := fold_left _ _ []).
  assert (Hall : allpos = true <-> Forall (fun l => (l == 0)%Q) labels).
  { unfold allpos. rewrite forallb_forall, Forall_forall.
    split; intros H x Hx; apply Qeq_bool_iff; auto. }
  split; [|split].
  - intros u i.
    transitivity (listed_under raw u i).
    + unfold listed_under. split.
      * intros (its & Hin & Hi).
        apply in_map_iff in Hin as ([v raw_its] & Heq & Hin).
        simpl in Heq. inversion Heq; subst.
        exists raw_its. split; [exact Hin|]. now apply np_unique_In.
      * intros (its & Hin & Hi).
        exists (np_unique its). split; [|now apply np_unique_In].
        apply in_map_iff. exists (u, its). auto.
    + unfold raw. rewrite EvalSetFacts.fold_holds. split.
      * intros [(its & [] & _)|(lb & Hin & Hc)].
        exists lb. split; [exact Hin|]. destruct Hc as [Hc|Hc]; [|auto].
        left. now apply Hall.
      * intros (lb & Hin & Hc). right. exists lb. split; [exact Hin|].
        destruct Hc as [Hc|Hc]; [left; now apply Hall|now right].
  - rewrite map_map. simpl.
    change (map (fun x : nat * list nat => fst x) raw) with (map fst raw).
    apply EvalSetFacts.fold_NoDup. constructor.
  - intros u its Hin.
    apply in_map_iff in Hin as ([v raw_its] & Heq & Hin).
    simpl in Heq. inversion Heq; subst.
    split; [|apply np_unique_sorted].
    assert (Hne : raw_its <> []).
    { pose proof (@EvalSetFacts.fold_nonempty allpos
                    (TransformedEvalSet.zip3 users items labels) []
                    (Forall_nil _)) as H.
      rewrite Forall_forall in H. apply (H (u, raw_its)), Hin. }
    destruct raw_its as [|x raw_its]; [congruence|].
    intros Hnil.
    assert (Hx : In x (np_unique (x :: raw_its)))
      by (apply np_unique_In; now left).
    rewrite Hnil in Hx. exact Hx.
Qed.

(* --------------------------------------------------------------------- *)
(** ** Repetition and strided slices                                      *)
(* --------------------------------------------------------------------- *)

Lemma mapi_from_length {A B} (q : nat) (f : nat -> A -> B) (l : list A) :
  length (mapi_from q f l) = length l.
Proof.
  revert q. induction l as [|x l IH]; intros q; simpl; [reflexivity|].
  now rewrite IH.
Qed.

Lemma mapi_from_nth {A} (q j : nat) (f : nat -> A -> A) (l : list A) (d : A) :
  j < length l -> nth j (mapi_from q f l) d = f (q + j) (nth j l d).
Proof.
  revert q j. induction l as [|x l IH]; intros q j Hj; simpl in *; [lia|].
  destruct j as [|j].
  - now rewrite Nat.add_0_r.
  - rewrite IH by lia. f_equal. lia.
Qed.

Lemma np_repeat_length {A} (l : list A) (r : nat) :
  length (np_repeat l r) = length l * r.
Proof.
  unfold np_repeat. apply flat_map_constant_length.
  intros x _. apply repeat_length.
Qed.

Lemma np_repeat_nth {A} (l : list A) (r p j : nat) (d : A) :
  p < length l -> j < r -> nth (p * r + j) (np_repeat l r) d = nth p l d.
Proof.
  unfold np_repeat. revert p.
  induction l as [|x l IH]; intros p Hp Hj; simpl in *; [lia|].
  destruct p as [|p].
  - simpl. rewrite app_nth1 by now rewrite repeat_length.
    now apply nth_repeat_lt.
  - rewrite app_nth2 by (rewrite repeat_length; simpl; lia).
    rewrite repeat_length.
    replace (S p * r + j - r) with (p * r + j) by (simpl; lia).
    apply IH; lia.
Qed.

Lemma stride_count_chunks (n s f : nat) :
  f < s -> stride_count (n * s) f s = n.
Proof.
  intros Hf. unfold stride_count.
  destruct (Nat.ltb_spec f (n * s)) as [H|H].
  - symmetry. apply Nat.div_unique with (r := s - 1 - f); [lia|]. nia.
  - destruct n; [reflexivity|]. simpl in H. lia.
Qed.

Lemma stride_positions (n first step j : nat) :
  0 < step -> j < stride_count n first step -> first + j * step < n.
Proof.
  intros Hs. unfold stride_count.
  destruct (Nat.ltb_spec first n) as [H|H]; [|lia].
  intros Hj.
  pose proof (Nat.div_mod_eq (n - first + step - 1) step) as Hd.
  pose proof (Nat.mod_upper_bound (n - first + step - 1) step ltac:(lia)).
  nia.
Qed.

(** [a[first::step]], element by element. *)
Lemma stride_spec {A} (first step : nat) (a : list A) (d : A) :
  0 < step ->
  stride first step a
  = map (fun j => nth (first + j * step) a d)
        (seq 0 (stride_count (length a) first step)).
Proof.
  intros Hs. unfold stride. rewrite flat_map_concat_map.
  set (c := stride_count (length a) first step).
  assert (H : forall j, In j (seq 0 c) ->
            match nth_error a (first + j * step) with
            | Some x => [x]
            | None => []
            end = [nth (first + j * step) a d]).
  { intros j Hj. apply in_seq in Hj.
    rewrite nth_error_nth' with (d := d); [reflexivity|].
    apply stride_positions; [assumption|]. unfold c in Hj. lia. }
  induction (seq 0 c) as [|j js IH]; simpl; [reflexivity|].
  rewrite H by now left. simpl. f_equal. apply IH.
  intros j' Hj'. apply H. now right.
Qed.

Lemma on_stride_chunk (f s p r : nat) :
  f < s -> r < s -> on_stride f s (p * s + r) = (r =? f).
Proof.
  intros Hf Hr. unfold on_stride.
  destruct (Nat.eqb_spec r f) as [->|Hne].
  - replace (p * s + f - f) with (p * s) by lia.
    rewrite Nat.Div0.mod_mul.
    destruct (Nat.leb_spec f (p * s + f)); [reflexivity|lia].
  - destruct (Nat.leb_spec f (p * s + r)) as [Hle|]; [|reflexivity].
    simpl. apply Nat.eqb_neq. intros Hmod.
    pose proof (Nat.div_mod_eq (p * s + r - f) s) as Hd.
    rewrite Hmod in Hd.
    assert (H1 : r = (p * s + r) mod s)
      by (apply Nat.mod_unique with (q := p); lia).
    assert (H2 : f = (p * s + r) mod s)
      by (apply Nat.mod_unique with (q := (p * s + r - f) / s); lia).
    congruence.
Qed.

Lemma set_stride_fits {A} (first step : nat) (vals a : list A) :
  length vals = stride_count (length a) first step ->
  set_stride first step vals a
  = inr (mapi_from 0 (fun q x =>
           if on_stride first step q
           then nth ((q - first) / step) vals x else x) a).
Proof.
  intros H. unfold set_stride. rewrite H, Nat.eqb_refl. reflexivity.
Qed.

Lemma stride_index_bound (n first step q : nat) :
  0 < step -> q < n -> on_stride first step q = true ->
  (q - first) / step < stride_count n first step.
Proof.
  intros Hs Hq Hon. unfold on_stride in Hon.
  apply andb_true_iff in Hon as [Hle Hmod].
  apply Nat.leb_le in Hle. apply Nat.eqb_eq in Hmod.
  pose proof (Nat.div_mod_eq (q - first) step) as Hd. rewrite Hmod in Hd.
  unfold stride_count. destruct (Nat.ltb_spec first n) as [_|]; [|lia].
  apply Nat.lt_le_trans with (m := S ((q - first) / step)); [lia|].
  apply Nat.div_le_lower_bound; [lia|]. nia.
Qed.

(** A scalar can always be broadcast. *)
Lemma set_stride_scalar {A} (first step : nat) (v : A) (a : list A) (d : A) :
  0 < step ->
  exists a',
    set_stride first step [v] a = inr a'
    /\ length a' = length a
    /\ forall q, q < length a ->
                 nth q a' d = if on_stride first step q then v else nth q a d.
Proof.
  intros Hs. unfold set_stride.
  destruct (length [v] =? stride_count (length a) first step) eqn:E.
  - eexists. split; [reflexivity|]. split; [apply mapi_from_length|].
    intros q Hq. rewrite mapi_from_nth by assumption. simpl "+".
    destruct (on_stride first step q) eqn:Hon; [|reflexivity].
    apply Nat.eqb_eq in E. simpl in E.
    pose proof (stride_index_bound first Hs Hq Hon) as Hb.
    rewrite <- E in Hb.
    destruct ((q - first) / step); [reflexivity|lia].
  - eexists. split; [reflexivity|]. split; [apply mapi_from_length|].
    intros q Hq. now rewrite mapi_from_nth by assumption.
Qed.

Section Negatives.
Variable n m : nat.
Hypothesis Hm : 0 < m.
Variable items_neg : list nat.
Hypothesis Hneg : length items_neg = n * m.

(** One round of the loop writes the negatives of round [i] into column
  [i + 1] of every block and leaves the other columns alone. *)
Lemma place_round (i : nat) (items0 : list nat) :
i < m -> length items0 = n * (m + 1) ->
exists items1,
  set_stride (i + 1) (m + 1) (stride i m items_neg) items0 = inr items1
  /\ length items1 = n * (m + 1)
  /\ forall p r, p < n -> r <= m ->
       nth (p * (m + 1) + r) items1 0
       = if r =? i + 1 then nth (p * m + i) items_neg 0
         else nth (p * (m + 1) + r) items0 0.
Proof.
intros Hi Hlen.
assert (Hvals : stride i m items_neg
                = map (fun j => nth (i + j * m) items_neg 0) (seq 0 n)).
{ rewrite stride_spec with (d := 0) by assumption.
  now rewrite Hneg, stride_count_chunks. }
eexists. split.
- apply set_stride_fits.
  rewrite Hvals, length_map, length_seq, Hlen.
  symmetry. apply stride_count_chunks. lia.
- split; [now rewrite mapi_from_length|].
  intros p r Hp Hr.
  rewrite mapi_from_nth by (rewrite Hlen; nia). simpl "+".
  rewrite on_stride_chunk by lia.
  destruct (Nat.eqb_spec r (i + 1)) as [->|Hne]; [|reflexivity].
  replace (p * (m + 1) + (i + 1) - (i + 1)) with (p * (m + 1)) by lia.
  rewrite Nat.div_mul by lia.
  rewrite Hvals.
  rewrite nth_indep with (d' := nth (i + 0 * m) items_neg 0)
    by now rewrite length_map, length_seq.
  rewrite (map_nth (fun j => nth (i + j * m) items_neg 0)).
  rewrite seq_nth by assumption. f_equal. lia.
Qed.

(** The rounds [a, a + 1, ..., a + b - 1] fill the columns
  [a + 1 .. a + b]. *)
Lemma place_negatives_spec (b a : nat) (items0 : list nat) :
a + b <= m -> length items0 = n * (m + 1) ->
exists items1,
  TransformedEvalSet.place_negatives m items_neg (seq a b) items0
  = inr items1
  /\ length items1 = n * (m + 1)
  /\ forall p r, p < n -> r <= m ->
       nth (p * (m + 1) + r) items1 0
       = if (a + 1 <=? r) && (r <=? a + b)
         then nth (p * m + (r - 1)) items_neg 0
         else nth (p * (m + 1) + r) items0 0.
Proof.
revert a items0. induction b as [|b IH]; intros a items0 Hab Hlen.
- exists items0. split; [reflexivity|]. split; [exact Hlen|].
  intros p r _ _.
  destruct (Nat.leb_spec (a + 1) r), (Nat.leb_spec r (a + 0));
    simpl; try reflexivity; lia.
- destruct (@place_round a items0) as (items1 & Hset & Hlen1 & Hnth1);
    [lia|exact Hlen|].
  destruct (IH (S a) items1) as (items2 & Hrun & Hlen2 & Hnth2);
    [lia|exact Hlen1|].
  exists items2. split.
  + simpl. rewrite Hset. exact Hrun.
  + split; [exact Hlen2|].
    intros p r Hp Hr. rewrite Hnth2, Hnth1 by assumption.
    destruct (Nat.leb_spec (S a + 1) r), (Nat.leb_spec r (S a + b)),
      (Nat.leb_spec (a + 1) r), (Nat.leb_spec r (a + S b)),
      (Nat.eqb_spec r (a + 1));
      simpl; try reflexivity; try lia.
    subst r. f_equal. lia.
Qed.
End Negatives.

Lemma assert_count (a b m : nat) :
  0 < m ->
  Qeq_bool (inject_Z (Z.of_nat a))
           (inject_Z (Z.of_nat b) / inject_Z (Z.of_nat m)) = true
  <-> a * m = b.
Proof.
  intros Hm.
  assert (Hz : ~ (inject_Z (Z.of_nat m) == 0)%Q).
  { change 0%Q with (inject_Z 0). rewrite inject_Z_injective. lia. }
  rewrite Qeq_bool_iff. split.
  - intros H.
    assert (H' : (inject_Z (Z.of_nat a) * inject_Z (Z.of_nat m)
                  == inject_Z (Z.of_nat b))%Q).
    { rewrite H. field. exact Hz. }
    rewrite <- inject_Z_mult, inject_Z_injective in H'. lia.
  - intros <-. rewrite Nat2Z.inj_mul, inject_Z_mult. field. exact Hz.
Qed.

Lemma nth_map_const {A B} (c : B) (l : list A) (q : nat) :
  nth q (map (fun _ => c) l) c = c.
Proof.
  revert q. induction l as [|x l IH]; intros [|q]; simpl; auto.
Qed.

Section BuildNegativesFacts.
Variable negatives_from_unconsumed :
nat -> list (nat * list nat) -> list nat -> list nat -> nat -> nat ->
list nat.
Variable self : TransformedEvalSet.t.
Variable n_items num_neg seed : nat.

Let items_neg : list nat :=
TransformedEvalSet._sample_neg_items negatives_from_unconsumed seed self
  (TransformedEvalSet.user_indices self)
  (TransformedEvalSet.item_indices self) n_items num_neg.

Let n : nat := length (TransformedEvalSet.item_indices self).

Lemma build_negatives_zero :
num_neg = 0 ->
TransformedEvalSet.build_negatives negatives_from_unconsumed self n_items
  num_neg seed = inl ZeroDivisionError.
Proof.
intros ->. unfold TransformedEvalSet.build_negatives. cbv zeta.
destruct (@set_stride_scalar Q 0 (0 + 1) 1%Q
            (map (fun _ : nat => 0%Q)
                 (np_repeat (TransformedEvalSet.item_indices self) (0 + 1)))
            0%Q ltac:(lia)) as (l & Hl & _).
rewrite Hl. reflexivity.
Qed.

Lemma build_negatives_miscount :
0 < num_neg -> length items_neg <> n * num_neg ->
TransformedEvalSet.build_negatives negatives_from_unconsumed self n_items
  num_neg seed = inl (Raised AssertionError).
Proof.
intros Hm Hcount. unfold TransformedEvalSet.build_negatives. cbv zeta.
destruct (@set_stride_scalar Q 0 (num_neg + 1) 1%Q
            (map (fun _ : nat => 0%Q)
                 (np_repeat (TransformedEvalSet.item_indices self)
                            (num_neg + 1)))
            0%Q ltac:(lia)) as (l & Hl & _).
rewrite Hl.
destruct (Nat.eqb_spec num_neg 0) as [|_]; [lia|].
fold items_neg.
match goal with
| |- context [Qeq_bool ?x ?y] => destruct (Qeq_bool x y) eqn:E
end; [|reflexivity].
exfalso. apply assert_count in E; [|assumption].
rewrite np_repeat_length in E. fold n in E. apply Hcount. nia.
Qed.

Lemma build_negatives_layout :
0 < num_neg -> length items_neg = n * num_neg ->
exists self',
  TransformedEvalSet.build_negatives negatives_from_unconsumed self n_items
    num_neg seed = inr self'
  /\ TransformedEvalSet.has_sampled self' = true
  /\ TransformedEvalSet.positive_consumed self'
     = TransformedEvalSet.positive_consumed self
  /\ TransformedEvalSet.user_indices self'
     = np_repeat (TransformedEvalSet.user_indices self) (num_neg + 1)
  /\ length (TransformedEvalSet.item_indices self') = n * (num_neg + 1)
  /\ length (TransformedEvalSet.labels self') = n * (num_neg + 1)
  /\ forall p, p < n ->
       nth (p * (num_neg + 1)) (TransformedEvalSet.item_indices self') 0
       = nth p (TransformedEvalSet.item_indices self) 0
       /\ nth (p * (num_neg + 1)) (TransformedEvalSet.labels self') 0%Q
          = 1%Q
       /\ forall i, i < num_neg ->
            nth (p * (num_neg + 1) + (i + 1))
                (TransformedEvalSet.item_indices self') 0
            = nth (p * num_neg + i) items_neg 0
            /\ nth (p * (num_neg + 1) + (i + 1))
                   (TransformedEvalSet.labels self') 0%Q = 0%Q.
Proof.
intros Hm Hcount. unfold TransformedEvalSet.build_negatives. cbv zeta.
set (items' := np_repeat (TransformedEvalSet.item_indices self)
                         (num_neg + 1)).
assert (Hlen' : length items' = n * (num_neg + 1))
  by apply np_repeat_length.
destruct (@set_stride_scalar Q 0 (num_neg + 1) 1%Q
            (map (fun _ => 0%Q) items') 0%Q)
  as (labels' & Hset & Hll & Hlabels); [lia|].
rewrite Hset.
rewrite length_map in Hll, Hlabels.
destruct (Nat.eqb_spec num_neg 0) as [|_]; [lia|].
fold items_neg.
match goal with
| |- context [Qeq_bool ?x ?y] =>
    assert (E : Qeq_bool x y = true)
      by (apply assert_count; [assumption|]; rewrite Hlen', Hcount; nia)
end.
rewrite E. cbn [negb].
destruct (@place_negatives_spec n num_neg Hm items_neg Hcount num_neg 0
            items')
  as (items'' & Hrun & Hlen'' & Hnth); [lia|exact Hlen'|].
rewrite Hrun.
eexists. split; [reflexivity|]. cbn.
split; [reflexivity|]. split; [reflexivity|]. split; [reflexivity|].
split; [exact Hlen''|]. split; [now rewrite Hll|].
intros p Hp. split; [|split].
- rewrite <- (Nat.add_0_r (p * (num_neg + 1))).
  rewrite Hnth by lia. simpl.
  unfold items'. now rewrite np_repeat_nth by (fold n; lia).
- rewrite <- (Nat.add_0_r (p * (num_neg + 1))).
  rewrite Hlabels by (rewrite Hlen'; nia).
  now rewrite on_stride_chunk by lia.
- intros i Hi. split.
  + rewrite Hnth by lia.
    destruct (Nat.leb_spec (0 + 1) (i + 1)),
      (Nat.leb_spec (i + 1) (0 + num_neg)); simpl; try lia.
    f_equal. lia.
  + rewrite Hlabels by (rewrite Hlen'; nia).
    rewrite on_stride_chunk by lia.
    destruct (Nat.eqb_spec (i + 1) 0); [lia|].
    apply nth_map_const.
Qed.
End BuildNegativesFacts.

(** X7.  When the sampler hands back [num_neg] items for every row
    ([num_neg > 0]), [build_negatives] succeeds and lays the data out in
    blocks of [num_neg + 1] rows: block [p] starts with the original item
    [p] under label 1, followed by the negatives
    [p * num_neg .. p * num_neg + num_neg - 1] of the sample under
    label 0; every user index is repeated [num_neg + 1] times, and
    [positive_consumed] is untouched. *)
Theorem build_negatives_interleaves :
  forall (negatives_from_unconsumed :
            nat -> list (nat * list nat) -> list nat -> list nat -> nat ->
            nat -> list nat)
         (self : TransformedEvalSet.t) (n_items num_neg seed : nat),
    let items_neg :=
      TransformedEvalSet._sample_neg_items negatives_from_unconsumed seed
        self (TransformedEvalSet.user_indices self)
        (TransformedEvalSet.item_indices self) n_items num_neg in
    let n := length (TransformedEvalSet.item_indices self) in
    0 < num_neg -> length items_neg = n * num_neg ->
    exists self',
      TransformedEvalSet.build_negatives negatives_from_unconsumed self
        n_items num_neg seed = inr self'
      /\ TransformedEvalSet.has_sampled self' = true
      /\ TransformedEvalSet.positive_consumed self'
         = TransformedEvalSet.positive_consumed self
      /\ TransformedEvalSet.user_indices self'
         = np_repeat (TransformedEvalSet.user_indices self) (num_neg + 1)
      /\ length (TransformedEvalSet.item_indices self') = n * (num_neg + 1)
      /\ length (TransformedEvalSet.labels self') = n * (num_neg + 1)
      /\ forall p, p < n ->
           nth (p * (num_neg + 1)) (TransformedEvalSet.item_indices self') 0
           = nth p (TransformedEvalSet.item_indices self) 0
           /\ nth (p * (num_neg + 1)) (TransformedEvalSet.labels self') 0%Q
              = 1%Q
           /\ forall i, i < num_neg ->
                nth (p * (num_neg + 1) + (i + 1))
                    (TransformedEvalSet.item_indices self') 0
                = nth (p * num_neg + i) items_neg 0
                /\ nth (p * (num_neg + 1) + (i + 1))
                       (TransformedEvalSet.labels self') 0%Q = 0%Q.
Proof.
  intros sampler self n_items num_neg seed items_neg n Hm Hcount.
  now apply build_negatives_layout.
Qed.

Lemma build_negatives_interleaves_witness :
  exists self',
    TransformedEvalSet.build_negatives MoreExamples.count_up
      MoreExamples.eval_set 20 2 0 = inr self'
    /\ TransformedEvalSet.has_sampled self' = true.
Proof.
  destruct (@build_negatives_interleaves MoreExamples.count_up
              MoreExamples.eval_set 20 2 0)
    as (self' & Hrun & Hs & _).
  - lia.
  - reflexivity.
  - exists self'. split; [exact Hrun|exact Hs].
Defined.

(** X8.  [build_negatives] with [num_neg = 0] raises
    [ZeroDivisionError] in its assertion, whatever the data; with
    [num_neg > 0] and a sample that does not hold exactly [num_neg] items
    per row, the assertion fails. *)
Theorem build_negatives_rejects :
  forall (negatives_from_unconsumed :
            nat -> list (nat * list nat) -> list nat -> list nat -> nat ->
            nat -> list nat)
         (self : TransformedEvalSet.t) (n_items seed : nat),
    TransformedEvalSet.build_negatives negatives_from_unconsumed self n_items
      0 seed = inl ZeroDivisionError
    /\ forall num_neg,
         0 < num_neg ->
         length (TransformedEvalSet._sample_neg_items
                   negatives_from_unconsumed seed self
                   (TransformedEvalSet.user_indices self)
                   (TransformedEvalSet.item_indices self) n_items num_neg)
         <> length (TransformedEvalSet.item_indices self) * num_neg ->
         TransformedEvalSet.build_negatives negatives_from_unconsumed self
           n_items num_neg seed = inl (Raised AssertionError).
Proof.
  intros sampler self n_items seed. split.
  - now apply build_negatives_zero.
  - intros num_neg Hm Hcount. now apply build_negatives_miscount.
Qed.

Lemma build_negatives_rejects_witness :
  TransformedEvalSet.build_negatives MoreExamples.too_few
    MoreExamples.eval_set 20 2 0 = inl (Raised AssertionError).
Proof.
  refine (proj2 (@build_negatives_rejects MoreExamples.too_few
                   MoreExamples.eval_set 20 0) 2 _ _).
  - lia.
  - simpl. lia.
Defined.

(* ===================================================================== *)
(** * More on the SIM graph                                               *)
(* ===================================================================== *)

(** X9.  When the true length of the long sequence is at least
    [search_topk] and no real position scores below the sentinel [-1e9],
    the search unit selects real positions only: all [search_topk] entries
    of the gathered mask are [true]. *)
Theorem gsu_selects_real_positions :
  forall (L k : nat) (r : GSU.row),
    GSU.well_shaped L r -> k <= L -> k <= GSU.long_seq_len r ->
    (forall p, p < GSU.long_seq_len r -> p < L ->
               (neg_1e9 <= nth p (GSU.raw_scores r) 0)%Q) ->
    snd (GSU._gsu_module L k r) = repeat true k.
Proof.
  intros L k r Hshape Hk Hlen Hraw.
  rewrite gathered_mask_eq by assumption.
  assert (Hidx : length (GSU.indices L k r) = k).
  { apply top_k_length. now rewrite masked_scores_length. }
  assert (Hreal : forall i, In i (GSU.indices L k r) ->
                            i < GSU.long_seq_len r).
  { intros i Hi.
    destruct (Nat.lt_ge_cases i (GSU.long_seq_len r)) as [|Hge]; [assumption|].
    exfalso.
    pose proof (@indices_bound L r Hshape k i Hi) as HiL.
    assert (Hall : forall p, p < GSU.long_seq_len r ->
                             In p (GSU.indices L k r)).
    { intros p Hp.
      destruct (in_dec Nat.eq_dec p (GSU.indices L k r)) as [Hin|Hnin];
        [exact Hin|exfalso].
      assert (HpL : p < length (GSU.masked_scores L r))
        by (rewrite masked_scores_length by assumption; lia).
      unfold GSU.indices in Hi, Hnin.
      pose proof (@top_k_exact _ _ _ _ Hi HpL Hnin) as Hex.
      rewrite !masked_scores_nth in Hex by (assumption || lia).
      destruct (Nat.ltb_spec p (GSU.long_seq_len r)); [|lia].
      destruct (Nat.ltb_spec i (GSU.long_seq_len r)); [lia|].
      assert (neg_1e9 <= nth p (GSU.raw_scores r) 0)%Q by (apply Hraw; lia).
      destruct Hex as [Hex|[_ Hex]]; [lra|lia]. }
    assert (Hnd : NoDup (i :: seq 0 (GSU.long_seq_len r))).
    { constructor; [rewrite in_seq; lia|apply seq_NoDup]. }
    assert (Hincl : incl (i :: seq 0 (GSU.long_seq_len r))
                         (GSU.indices L k r)).
    { intros x [<-|Hx]; [exact Hi|]. apply Hall. apply in_seq in Hx. lia. }
    pose proof (@NoDup_incl_length _ _ _ Hnd Hincl) as Hle.
    simpl in Hle. rewrite length_seq, Hidx in Hle. lia. }
  assert (Hmap : forall l,
             (forall i, In i l -> i < GSU.long_seq_len r) ->
             map (fun i => i <? GSU.long_seq_len r) l
             = repeat true (length l)).
  { induction l as [|i l IH]; simpl; intros Hl; [reflexivity|].
    f_equal; [apply Nat.ltb_lt, Hl; now left|].
    apply IH. intros j Hj. apply Hl. now right. }
  rewrite Hmap by exact Hreal. now rewrite Hidx.
Qed.

Lemma gsu_selects_real_positions_witness :
  snd (GSU._gsu_module 5 3 Examples.gsu_row_4_of_5) = repeat true 3.
Proof.
  apply gsu_selects_real_positions.
  - reflexivity.
  - lia.
  - simpl. lia.
  - intros p Hp _. simpl in Hp.
    do 4 (destruct p as [|p]; [vm_compute; discriminate|]). lia.
Defined.

Lemma zeros_like_by_length (u v : list Q) :
  length u = length v -> zeros_like u = zeros_like v.
Proof.
  revert v. induction u as [|a u IH]; intros [|b v]; simpl; try discriminate;
    auto.
  intros H. f_equal. apply IH. lia.
Qed.

Section FirstStage.
Variable seq_feats : nat -> list Q.
Hypothesis Hdim : forall i j, length (seq_feats i) = length (seq_feats j).

(** The masked embeddings depend on the items below the true length
  only. *)
Lemma masked_embeds_agree (len s : nat) (l1 l2 : list nat) :
length l1 = length l2 ->
(forall p, s + p < len -> nth_error l1 p = nth_error l2 p) ->
tf_where (map (fun p => p <? len) (seq s (length l1)))
         (map seq_feats l1) (map (@zeros_like) (map seq_feats l1))
= tf_where (map (fun p => p <? len) (seq s (length l2)))
           (map seq_feats l2) (map (@zeros_like) (map seq_feats l2)).
Proof.
revert s l2. induction l1 as [|a l1 IH]; intros s [|b l2] Hlen Hagree;
  simpl in *; try discriminate; [reflexivity|].
f_equal.
- destruct (Nat.ltb_spec s len) as [Hs|Hs].
  + specialize (Hagree 0). simpl in Hagree.
    rewrite Nat.add_0_r in Hagree. specialize (Hagree Hs).
    inversion Hagree. reflexivity.
  + apply zeros_like_by_length, Hdim.
- apply IH; [lia|]. intros p Hp. apply (Hagree (S p)). lia.
Qed.
End FirstStage.

(** X10.  The first-stage score does not depend on what fills the
    padding of the long sequence: two examples with the same candidate
    item and the same true length, whose long sequences have
    [long_max_len] entries and agree below the true length, get the same
    first-stage score (all embeddings having one dimension). *)
Theorem first_stage_ignores_padding :
  forall (seq_feats : nat -> list Q) (first_stage_mlp : list Q -> Q)
         (self : SIM.t) (e1 e2 : SIM.example),
    (forall i j, length (seq_feats i) = length (seq_feats j)) ->
    SIM.item_indices e1 = SIM.item_indices e2 ->
    SIM.long_seq_lens e1 = SIM.long_seq_lens e2 ->
    length (SIM.long_seqs e1) = SIM.L self ->
    length (SIM.long_seqs e2) = SIM.L self ->
    firstn (SIM.long_seq_lens e1) (SIM.long_seqs e1)
    = firstn (SIM.long_seq_lens e1) (SIM.long_seqs e2) ->
    SIM._build_first_stage seq_feats first_stage_mlp self e1
    = SIM._build_first_stage seq_feats first_stage_mlp self e2.
Proof.
  intros sf mlp self e1 e2 Hdim Hitem Hlens Hl1 Hl2 Hfirst.
  assert (H := @masked_embeds_agree sf Hdim (SIM.long_seq_lens e1) 0
                 (SIM.long_seqs e1) (SIM.long_seqs e2)).
  rewrite Hl1, Hl2 in H.
  unfold SIM._build_first_stage, SIM.target_embeds, SIM.long_seq_embeds,
    sequence_mask.
  rewrite <- Hitem, <- Hlens, H; [reflexivity|reflexivity|].
  intros p Hp. simpl in Hp.
  assert (Hp' : nth_error (firstn (SIM.long_seq_lens e1) (SIM.long_seqs e1)) p
                = nth_error (firstn (SIM.long_seq_lens e1) (SIM.long_seqs e2))
                            p)
    by now rewrite Hfirst.
  rewrite !nth_error_firstn in Hp'.
  destruct (Nat.ltb_spec p (SIM.long_seq_lens e1)); [exact Hp'|lia].
Qed.

Lemma first_stage_ignores_padding_witness :
  SIM._build_first_stage Examples.seq_feats Examples.tower
    (Examples.sim_self "rating" 1 1) Examples.one_example
  = SIM._build_first_stage Examples.seq_feats Examples.tower
      (Examples.sim_self "rating" 1 1) MoreExamples.other_padding.
Proof.
  apply first_stage_ignores_padding; reflexivity.
Defined.

(* ===================================================================== *)
(** * More on [UserCF]                                                    *)
(* ===================================================================== *)

(** X12.  [recommend_user] returns [None] exactly for the users outside
    the trained range and for the user with index 0; whether the model
    has been fitted plays no role. *)
Theorem recommend_user_none_iff :
  forall (random_sample : list (nat * Q) -> nat -> list (nat * Q))
         (self : UserCF.t) (user n_rec : nat) (random_rec : bool),
    UserCF.recommend_user random_sample self user n_rec random_rec
    = inr UserCF.RecoNone
    <-> user = 0 \/ UserCF.n_users self <= user.
Proof.
  intros rs self user n_rec rr.
  unfold UserCF.recommend_user, UserCF._check_unknown_user.
  destruct (Nat.ltb_spec user (UserCF.n_users self)) as [Hk|Hk];
    [|simpl; split; [right; lia|reflexivity]].
  destruct user as [|user]; [simpl; split; [now left|reflexivity]|].
  cbn [py_not].
  split; [|intros [H|H]; [discriminate|lia]].
  intros H. exfalso.
  destruct (UserCF.sim_matrix self) as [sim|]; simpl in H; [|discriminate].
  destruct (csr_row sim (S user)) as [|[su sv]]; simpl in H; [discriminate|].
  destruct ((length su =? 0) || forallb (fun v => Qle_bool v 0) sv);
    [discriminate|].
  destruct (UserCF.user_consumed self); simpl in H; [|discriminate].
  destruct (UserCF.user_interaction self); simpl in H; [|discriminate].
  destruct (UserCF.add_neighbors _ _ _ _); simpl in H; [discriminate|].
  destruct rr; [|discriminate].
  destruct (_ <? _); discriminate.
Qed.

(** X13.  For a known user with a non-zero index on a fitted model whose
    similarity row can be read, [recommend_user] returns [-1] exactly
    when that row is empty or holds no positive similarity. *)
Theorem recommend_user_minus_one_iff :
  forall (random_sample : list (nat * Q) -> nat -> list (nat * Q))
         (self : UserCF.t) (user n_rec : nat) (random_rec : bool)
         (sim : csr) (sim_users : list nat) (sim_values : list Q),
    0 < user < UserCF.n_users self ->
    UserCF.sim_matrix self = Some sim ->
    csr_row sim user = inr (sim_users, sim_values) ->
    (UserCF.recommend_user random_sample self user n_rec random_rec
     = inr UserCF.RecoMinusOne
     <-> sim_users = [] \/ Forall (fun v => (v <= 0)%Q) sim_values).
Proof.
  intros rs self user n_rec rr sim su sv [Hpos Hk] Hsim Hrow.
  unfold UserCF.recommend_user, UserCF._check_unknown_user.
  destruct (Nat.ltb_spec user (UserCF.n_users self)) as [_|]; [|lia].
  destruct user as [|user]; [lia|]. cbn [py_not].
  rewrite Hsim. simpl. rewrite Hrow. simpl.
  assert (Hguard : (length su =? 0) || forallb (fun v => Qle_bool v 0) sv
                   = true
                   <-> su = [] \/ Forall (fun v => (v <= 0)%Q) sv).
  { rewrite orb_true_iff, Nat.eqb_eq, length_zero_iff_nil.
    rewrite forallb_forall, Forall_forall.
    split; intros [H|H]; auto; right; intros x Hx;
      apply Qle_bool_iff; auto. }
  destruct ((length su =? 0) || forallb (fun v => Qle_bool v 0) sv).
  - split; [intros _; now apply Hguard|reflexivity].
  - split; [|intros H; apply Hguard in H; discriminate].
    intros H. exfalso.
    destruct (UserCF.user_consumed self); simpl in H; [|discriminate].
    destruct (UserCF.user_interaction self); simpl in H; [|discriminate].
    destruct (UserCF.add_neighbors _ _ _ _); simpl in H; [discriminate|].
    destruct rr; [|discriminate].
    destruct (_ <? _); discriminate.
Qed.

Lemma recommend_user_minus_one_iff_witness :
  UserCF.recommend_user UserCFExamples.sample_stub
    UserCFExamples.fitted_model 2 10 false = inr UserCF.RecoMinusOne.
Proof.
  apply (@recommend_user_minus_one_iff UserCFExamples.sample_stub
           UserCFExamples.fitted_model 2 10 false
           UserCFExamples.similarities [] []).
  - simpl. lia.
  - reflexivity.
  - reflexivity.
  - now left.
Defined.

(** X14.  On an instance that has been constructed but not fitted,
    [recommend_user] raises an [AttributeError] for every known user with
    a non-zero index. *)
Theorem recommend_user_before_fit :
  forall (task : string) (global_mean : Q) (n_users n_items : nat)
         (sim_type : string) (k : nat) (lower_bound upper_bound : Q),
  exists self out,
    UserCF.__init__ task global_mean n_users n_items sim_type k
      lower_bound upper_bound = inr (self, out)
    /\ UserCF.n_users self = n_users
    /\ forall (random_sample : list (nat * Q) -> nat -> list (nat * Q))
              (user n_rec : nat) (random_rec : bool),
         (0 <? user) && (user <? n_users) = true ->
         UserCF.recommend_user random_sample self user n_rec random_rec
         = inl (AttributeError "indptr").
Proof.
  intros. eexists. eexists. split; [reflexivity|]. split; [reflexivity|].
  intros rs user n_rec rr H. apply andb_true_iff in H as [Hpos Hk].
  apply Nat.ltb_lt in Hpos.
  unfold UserCF.recommend_user, UserCF._check_unknown_user. simpl.
  rewrite Hk. destruct user; [lia|]. reflexivity.
Qed.

Lemma recommend_user_before_fit_witness :
  exists self out,
    UserCF.__init__ "rating" 3 3 6 "cosine" 20 1 5 = inr (self, out)
    /\ UserCF.recommend_user UserCFExamples.sample_stub self 1 10 false
       = inl (AttributeError "indptr").
Proof.
  destruct (@recommend_user_before_fit "rating" 3 3 6 "cosine" 20 1 5)
    as (self & out & Hinit & _ & Hrun).
  exists self, out. split; [exact Hinit|]. now apply Hrun.
Defined.

Lemma bump_key_set (result : UserCF.scores) (i : nat) (a b : Q) (j : nat) :
  In j (map fst (UserCF.bump result i a b))
  <-> In j (map fst result) \/ j = i.
Proof.
  induction result as [|[u [s c]] result IH]; simpl.
  - intuition.
  - destruct (Nat.eqb_spec u i) as [->|Hne]; simpl.
    + intuition.
    + rewrite IH. intuition.
Qed.

Lemma bump_NoDup (result : UserCF.scores) (i : nat) (a b : Q) :
  NoDup (map fst result) -> NoDup (map fst (UserCF.bump result i a b)).
Proof.
  induction result as [|[u [s c]] result IH]; simpl; intros Hnd.
  - constructor; [intros []|constructor].
  - inversion Hnd as [|? ? Hnin Hnd']; subst.
    destruct (Nat.eqb_spec u i) as [->|Hne]; simpl.
    + now constructor.
    + constructor; [|now apply IH].
      rewrite bump_key_set. intuition.
Qed.

Lemma add_items_NoDup (u_consumed : list nat) (n_sim : Q)
    (items : list (nat * Q)) (result : UserCF.scores) :
  NoDup (map fst result) ->
  NoDup (map fst (UserCF.add_items u_consumed n_sim items result)).
Proof.
  revert result. induction items as [|[i v] items IH]; simpl;
    intros result Hnd; [exact Hnd|].
  destruct (nat_in i u_consumed); apply IH; [exact Hnd|].
  now apply bump_NoDup.
Qed.

Lemma add_neighbors_NoDup (ui : csr) (u_consumed : list nat)
    (nbs : list (nat * Q)) (result result' : UserCF.scores) :
  NoDup (map fst result) ->
  UserCF.add_neighbors ui u_consumed nbs result = inr result' ->
  NoDup (map fst result').
Proof.
  revert result. induction nbs as [|[n n_sim] nbs IH]; simpl;
    intros result Hnd Hrun.
  - inversion Hrun; subst. exact Hnd.
  - destruct (csr_row ui n) as [|[items vals]]; simpl in Hrun;
      [discriminate|].
    eapply IH; [|exact Hrun]. now apply add_items_NoDup.
Qed.

Lemma NoDup_firstn {A} (n : nat) (l : list A) : NoDup l -> NoDup (firstn n l).
Proof.
  intros H. rewrite <- (firstn_skipn n l) in H.
  eapply NoDup_app_remove_r, H.
Qed.

(** X15.  A list that [recommend_user] returns (without [random_rec])
    never names the same item twice. *)
Theorem recommend_user_no_repeats :
  forall (random_sample : list (nat * Q) -> nat -> list (nat * Q))
         (self : UserCF.t) (user n_rec : nat) (l : list (nat * Q)),
    UserCF.recommend_user random_sample self user n_rec false
    = inr (UserCF.RecoList l) ->
    NoDup (map fst l).
Proof.
  intros rs self user n_rec l H.
  unfold UserCF.recommend_user in H.
  destruct (py_not (UserCF._check_unknown_user self user));
    [discriminate|].
  destruct (UserCF.sim_matrix self) as [sim|]; simpl in H; [|discriminate].
  destruct (csr_row sim _) as [|[su sv]]; simpl in H; [discriminate|].
  destruct ((length su =? 0) || forallb (fun v => Qle_bool v 0) sv);
    [discriminate|].
  destruct (UserCF.user_consumed self); simpl in H; [|discriminate].
  destruct (UserCF.user_interaction self); simpl in H; [|discriminate].
  destruct (UserCF.add_neighbors _ _ _ _) as [|result] eqn:Hrun;
    simpl in H; [discriminate|].
  inversion H; subst l. clear H.
  apply add_neighbors_NoDup in Hrun; [|constructor].
  rewrite <- firstn_map. apply NoDup_firstn.
  eapply Permutation_NoDup;
    [apply Permutation_map; symmetry; apply sorted_desc_perm|].
  now rewrite map_map.
Qed.

Lemma recommend_user_no_repeats_witness :
  NoDup (map fst [(5, (10000 # 10000)%Q); (2, (10000 # 10000)%Q)]).
Proof.
  apply (@recommend_user_no_repeats UserCFExamples.sample_stub
           UserCFExamples.fitted_model 1 10).
  reflexivity.
Defined.

(* --------------------------------------------------------------------- *)
(** ** The values [UserCF.predict] returns                                *)
(* --------------------------------------------------------------------- *)

Lemma takewhile_Forall {A} (p : A -> bool) (l : list A) :
  Forall (fun x => p x = true) (takewhile p l).
Proof.
  induction l as [|x l IH]; simpl; [constructor|].
  destruct (p x) eqn:E; constructor; auto.
Qed.

Lemma Forall_firstn {A} (P : A -> Prop) (n : nat) (l : list A) :
  Forall P l -> Forall P (firstn n l).
Proof.
  rewrite !Forall_forall. intros H x Hx. apply H.
  rewrite <- (firstn_skipn n l). apply in_or_app. now left.
Qed.

Lemma qsum_positive (l : list Q) :
  l <> [] -> Forall (fun v => (0 < v)%Q) l -> (0 < qsum l)%Q.
Proof.
  induction l as [|x l IH]; intros Hne Hpos; [congruence|].
  inversion Hpos; subst. simpl.
  destruct l as [|y l]; [simpl; lra|].
  assert (0 < qsum (y :: l))%Q by (apply IH; [discriminate|assumption]).
  lra.
Qed.

Lemma np_mean_positive (l : list Q) :
  l <> [] -> Forall (fun v => (0 < v)%Q) l -> (0 < np_mean l)%Q.
Proof.
  intros Hne Hpos. unfold np_mean.
  apply Qlt_shift_div_l.
  - change 0%Q with (inject_Z 0). rewrite <- Zlt_Qlt.
    destruct l; [congruence|simpl length; lia].
  - rewrite Qmult_0_l. now apply qsum_positive.
Qed.

Section PairFacts.
Variable self : UserCF.t.
Variable sim_matrix interaction : csr.
Variable u i : nat.

(** What one turn of the loop appends: the default prediction, or a
  value computed from the positively similar neighbours. *)
Lemma predict_pair_cases (o : option Q) :
UserCF.predict_pair self sim_matrix interaction u i = inr o ->
o = Some (UserCF.default_prediction self)
\/ exists labels sims,
     sims <> [] /\ Forall (fun s => (0 < s)%Q) sims
     /\ o = if String.eqb (UserCF.task self) "rating" then
              Some (np_clip
                      (np_average labels
                         (map (fun s => (s / qsum sims)%Q) sims))
                      (UserCF.lower_bound self) (UserCF.upper_bound self))
            else if String.eqb (UserCF.task self) "ranking" then
              Some (np_mean sims)
            else None.
Proof.
unfold UserCF.predict_pair. intros H.
destruct (csr_row sim_matrix u) as [|[su sv]]; simpl in H; [discriminate|].
destruct (csr_row interaction i) as [|[iu iv]]; simpl in H; [discriminate|].
match type of H with
| (if ?g then _ else _) = _ => destruct g
end.
- inversion H. now left.
- match type of H with
  | match ?n with [] => _ | _ :: _ => _ end = _ => set (nbs := n) in H
  end.
  assert (Hpos : Forall (fun x => (0 < snd x)%Q) nbs).
  { unfold nbs. apply Forall_firstn.
    eapply Forall_impl; [|apply takewhile_Forall].
    intros x Hx. unfold Qpos_bool in Hx. apply negb_true_iff in Hx.
    now apply Qle_bool_false. }
  destruct nbs as [|nb rest]; [discriminate|].
  right. exists (map fst (nb :: rest)), (map snd (nb :: rest)).
  split; [discriminate|]. split.
  + apply Forall_forall. intros s Hs.
    apply in_map_iff in Hs as (x & <- & Hx).
    rewrite Forall_forall in Hpos. now apply Hpos.
  + destruct (String.eqb (UserCF.task self) "rating");
      [now inversion H|].
    destruct (String.eqb (UserCF.task self) "ranking"); now inversion H.
Qed.
End PairFacts.

Section PredictFacts.
Variable _check_unknown :
UserCF.t -> list nat -> list nat -> nat * pyindex * list nat * list nat.
Variable self : UserCF.t.
Variable P : Q -> Prop.
Hypothesis Hdefault : P (UserCF.default_prediction self).
Hypothesis Hpair :
forall sim inter u i v,
  UserCF.predict_pair self sim inter u i = inr (Some v) -> P v.

Lemma predict_loop_Forall (sim inter : csr) (pairs : list (nat * nat))
  (preds0 preds : list Q) :
Forall P preds0 ->
UserCF.predict_loop self sim inter pairs preds0 = inr preds ->
Forall P preds.
Proof.
revert preds0. induction pairs as [|[u i] pairs IH]; simpl;
  intros preds0 H0 Hrun.
- inversion Hrun; subst. exact H0.
- destruct (UserCF.predict_pair self sim inter u i) as [|o] eqn:E;
    simpl in Hrun; [discriminate|].
  eapply IH; [|exact Hrun].
  destruct o as [v|]; [|exact H0].
  apply Forall_app. split; [exact H0|]. constructor; [|constructor].
  eapply Hpair, E.
Qed.

Lemma replace_nth_Forall (n : nat) (l : list Q) :
Forall P l -> Forall P (replace_nth n (UserCF.default_prediction self) l).
Proof.
revert n. induction l as [|x l IH]; intros [|n] H; simpl;
  try constructor; inversion H; subst; auto.
Qed.

Lemma predict_Forall (user item : list nat) (res : UserCF.prediction) :
UserCF.predict _check_unknown self user item = inr res ->
Forall P (prediction_values res).
Proof.
unfold UserCF.predict. intros H.
destruct (_check_unknown self user item) as [[[n idx] user'] item'].
destruct (UserCF.sim_matrix self) as [sim|]; simpl in H; [|discriminate].
destruct (UserCF.item_interaction self) as [inter|]; simpl in H;
  [|discriminate].
destruct (UserCF.predict_loop self sim inter (combine user' item') [])
  as [|preds] eqn:Hloop; simpl in H; [discriminate|].
apply predict_loop_Forall in Hloop; [|constructor].
assert (Hset : forall preds',
           (if 0 <? n
            then list_setitem preds idx (UserCF.default_prediction self)
            else ret preds) = inr preds' -> Forall P preds').
{ intros preds' Hs. destruct (0 <? n).
  - destruct idx as [j|js]; simpl in Hs; [|discriminate].
    destruct (j <? length preds); inversion Hs.
    now apply replace_nth_Forall.
  - inversion Hs; subst. exact Hloop. }
destruct (if 0 <? n then _ else _) as [|preds']; simpl in H;
  [discriminate|].
specialize (Hset preds' eq_refl).
destruct (length user' =? 1).
- unfold np_index in H.
  destruct (nth_error preds' 0) as [p|] eqn:E; simpl in H; [|discriminate].
  inversion H; subst. simpl. constructor; [|constructor].
  rewrite Forall_forall in Hset. eapply Hset, nth_error_In, E.
- inversion H; subst. exact Hset.
Qed.
End PredictFacts.

(** X16.  For the rating task with [lower_bound <= upper_bound], every
    value [predict] returns is the default prediction or lies within the
    bounds. *)
Theorem predict_rating_within_bounds :
  forall (_check_unknown :
            UserCF.t -> list nat -> list nat ->
            nat * pyindex * list nat * list nat)
         (self : UserCF.t) (user item : list nat) (res : UserCF.prediction),
    UserCF.task self = "rating" ->
    (UserCF.lower_bound self <= UserCF.upper_bound self)%Q ->
    UserCF.predict _check_unknown self user item = inr res ->
    Forall (fun v => v = UserCF.default_prediction self
                     \/ (UserCF.lower_bound self <= v
                         <= UserCF.upper_bound self)%Q)
           (prediction_values res).
Proof.
  intros cu self user item res Htask Hb Hrun.
  eapply predict_Forall; [| |exact Hrun]; [now left|].
  intros sim inter u i v Hv.
  destruct (predict_pair_cases _ _ _ _ _ Hv) as [H|(ls & ss & _ & _ & H)].
  - inversion H. now left.
  - rewrite Htask in H. simpl in H. inversion H. right.
    now apply np_clip_range.
Qed.

Lemma predict_rating_within_bounds_witness :
  exists res,
    UserCF.predict _check_unknown_by_range MoreExamples.rating_model
      [1; 1] [5; 3] = inr res
    /\ Forall (fun v => v = 3%Q \/ (1 <= v <= 5)%Q) (prediction_values res).
Proof.
  eexists. split; [vm_compute; reflexivity|].
  apply (@predict_rating_within_bounds _check_unknown_by_range
           MoreExamples.rating_model [1; 1] [5; 3]).
  - reflexivity.
  - simpl. lra.
  - vm_compute. reflexivity.
Defined.

(** X17.  For the ranking task, every value [predict] returns is the
    default prediction or a positive number, the mean of positive
    similarities. *)
Theorem predict_ranking_positive :
  forall (_check_unknown :
            UserCF.t -> list nat -> list nat ->
            nat * pyindex * list nat * list nat)
         (self : UserCF.t) (user item : list nat) (res : UserCF.prediction),
    UserCF.task self = "ranking" ->
    UserCF.predict _check_unknown self user item = inr res ->
    Forall (fun v => v = UserCF.default_prediction self \/ (0 < v)%Q)
           (prediction_values res).
Proof.
  intros cu self user item res Htask Hrun.
  eapply predict_Forall; [| |exact Hrun]; [now left|].
  intros sim inter u i v Hv.
  destruct (predict_pair_cases _ _ _ _ _ Hv) as [H|(ls & ss & Hne & Hp & H)].
  - inversion H. now left.
  - rewrite Htask in H. simpl in H. inversion H. right.
    now apply np_mean_positive.
Qed.

Lemma predict_ranking_positive_witness :
  exists res,
    UserCF.predict _check_unknown_by_range UserCFExamples.fitted_model
      [1; 1] [5; 3] = inr res
    /\ Forall (fun v => v = 0%Q \/ (0 < v)%Q) (prediction_values res).
Proof.
  eexists. split; [vm_compute; reflexivity|].
  apply (@predict_ranking_positive _check_unknown_by_range
           UserCFExamples.fitted_model [1; 1] [5; 3]).
  - reflexivity.
  - vm_compute. reflexivity.
Defined.

Lemma replace_nth_length {A} (n : nat) (v : A) (l : list A) :
  length (replace_nth n v l) = length l.
Proof.
  revert n. induction l as [|x l IH]; intros [|n]; simpl; auto.
Qed.

Lemma predict_loop_length (self : UserCF.t) (sim inter : csr)
    (pairs : list (nat * nat)) (preds0 preds : list Q) :
  UserCF.task self = "rating" \/ UserCF.task self = "ranking" ->
  UserCF.predict_loop self sim inter pairs preds0 = inr preds ->
  length preds = length preds0 + length pairs.
Proof.
  intros Htask. revert preds0.
  induction pairs as [|[u i] pairs IH]; simpl; intros preds0 Hrun.
  - inversion Hrun; subst. lia.
  - destruct (UserCF.predict_pair self sim inter u i) as [|o] eqn:E;
      simpl in Hrun; [discriminate|].
    apply IH in Hrun. rewrite Hrun.
    destruct (predict_pair_cases _ _ _ _ _ E) as [->|(ls & ss & _ & _ & ->)].
    + rewrite length_app. simpl. lia.
    + destruct Htask as [-> | ->]; simpl; rewrite length_app; simpl; lia.
Qed.

(** X18.  For the rating and the ranking task, [predict] answers every
    pair of the request: it returns a single value when the request has
    one user, and otherwise a list with one value per (user, item)
    pair. *)
Theorem predict_answers_every_pair :
  forall (_check_unknown :
            UserCF.t -> list nat -> list nat ->
            nat * pyindex * list nat * list nat)
         (self : UserCF.t) (user item user' item' : list nat)
         (unknown_num : nat) (unknown_index : pyindex)
         (res : UserCF.prediction),
    UserCF.task self = "rating" \/ UserCF.task self = "ranking" ->
    _check_unknown self user item
    = (unknown_num, unknown_index, user', item') ->
    UserCF.predict _check_unknown self user item = inr res ->
    if length user' =? 1 then exists v, res = UserCF.One v
    else exists vs,
           res = UserCF.Many vs
           /\ length vs = Nat.min (length user') (length item').
Proof.
  intros cu self user item user' item' n idx res Htask Hcu Hrun.
  unfold UserCF.predict in Hrun. rewrite Hcu in Hrun.
  destruct (UserCF.sim_matrix self) as [sim|]; simpl in Hrun;
    [|discriminate].
  destruct (UserCF.item_interaction self) as [inter|]; simpl in Hrun;
    [|discriminate].
  destruct (UserCF.predict_loop self sim inter (combine user' item') [])
    as [|preds] eqn:Hloop; simpl in Hrun; [discriminate|].
  apply predict_loop_length in Hloop; [|exact Htask].
  rewrite length_combine in Hloop. simpl in Hloop.
  assert (Hset : forall preds',
             (if 0 <? n
              then list_setitem preds idx (UserCF.default_prediction self)
              else ret preds) = inr preds' ->
             length preds' = length preds).
  { intros preds' Hs. destruct (0 <? n).
    - destruct idx as [j|js]; simpl in Hs; [|discriminate].
      destruct (j <? length preds); inversion Hs.
      apply replace_nth_length.
    - now inversion Hs. }
  destruct (if 0 <? n then _ else _) as [|preds']; simpl in Hrun;
    [discriminate|].
  specialize (Hset preds' eq_refl).
  destruct (length user' =? 1).
  - destruct (np_index preds' 0) as [|p]; simpl in Hrun; [discriminate|].
    inversion Hrun. eauto.
  - inversion Hrun. exists preds'. split; [reflexivity|]. lia.
Qed.

Lemma predict_answers_every_pair_witness :
  exists vs,
    UserCF.predict _check_unknown_by_range UserCFExamples.fitted_model
      [1; 1] [5; 3] = inr (UserCF.Many vs)
    /\ length vs = 2.
Proof.
  destruct (UserCF.predict _check_unknown_by_range UserCFExamples.fitted_model
              [1; 1] [5; 3]) as [e|res] eqn:Hrun;
    [vm_compute in Hrun; discriminate|].
  pose proof (@predict_answers_every_pair _check_unknown_by_range
                UserCFExamples.fitted_model [1; 1] [5; 3] [1; 1] [5; 3]
                0 (IdxSeq []) res (or_intror eq_refl) eq_refl Hrun) as H.
  simpl in H. destruct H as (vs & -> & Hlen).
  exists vs. split; [reflexivity|exact Hlen].
Defined.

(** ** [fit] followed by [recommend_user] and [predict] *)

Lemma py_bind_ret {A B} (x : A) (f : A -> py B) :
  (y <- (ret x : py A) ;; f y) = f x.
Proof. reflexivity. Qed.

Lemma np_index_error :
  forall A (a : list A) (i : nat) (e : PyExc),
    np_index a i = inl e -> e = IndexError.
Proof.
  intros A a i e. unfold np_index.
  destruct (nth_error a i); simpl; intros H; inversion H; reflexivity.
Qed.

Lemma csr_row_error :
  forall (m : csr) (r : nat) (e : PyExc),
    csr_row m r = inl e -> e = IndexError.
Proof.
  intros m r e. unfold csr_row.
  destruct (np_index (indptr m) r) as [e1|lo] eqn:E1.
  - simpl. intros H. inversion H; subst. eapply np_index_error, E1.
  - rewrite py_bind_inr.
    destruct (np_index (indptr m) (r + 1)) as [e2|hi] eqn:E2.
    + simpl. intros H. inversion H; subst. eapply np_index_error, E2.
    + simpl. discriminate.
Qed.

Lemma add_neighbors_error :
  forall (ui : csr) (u_consumed : list nat) (nbs : list (nat * Q))
         (result : UserCF.scores) (e : PyExc),
    UserCF.add_neighbors ui u_consumed nbs result = inl e -> e = IndexError.
Proof.
  intros ui uc nbs. induction nbs as [|[n s] rest IH]; intros result e.
  - simpl. discriminate.
  - cbn [UserCF.add_neighbors].
    destruct (csr_row ui n) as [e1|[its vs]] eqn:E1.
    + simpl. intros H. inversion H; subst. eapply csr_row_error, E1.
    + rewrite py_bind_inr. apply IH.
Qed.

Lemma predict_pair_error :
  forall (self : UserCF.t) (sim inter : csr) (u i : nat) (e : PyExc),
    UserCF.predict_pair self sim inter u i = inl e ->
    forall name, e <> AttributeError name.
Proof.
  intros self sim inter u i e H name. unfold UserCF.predict_pair in H.
  destruct (csr_row sim u) as [e1|[su sv]] eqn:E1.
  - simpl in H. inversion H; subst.
    rewrite (csr_row_error _ _ E1). discriminate.
  - rewrite py_bind_inr in H.
    destruct (csr_row inter i) as [e2|[iu iv]] eqn:E2.
    + simpl in H. inversion H; subst.
      rewrite (csr_row_error _ _ E2). discriminate.
    + rewrite py_bind_inr in H.
      destruct (intersect1d su iu) as [[cu ixu] ixi].
      match type of H with
      | (if ?g then _ else _) = _ => destruct g
      end; [discriminate|].
      match type of H with
      | match ?n with [] => _ | _ :: _ => _ end = _ => destruct n
      end.
      * inversion H; subst. discriminate.
      * destruct (String.eqb (UserCF.task self) "rating"); [discriminate|].
        destruct (String.eqb (UserCF.task self) "ranking"); discriminate.
Qed.

Lemma predict_loop_error :
  forall (self : UserCF.t) (sim inter : csr) (pairs : list (nat * nat))
         (preds : list Q) (e : PyExc),
    UserCF.predict_loop self sim inter pairs preds = inl e ->
    forall name, e <> AttributeError name.
Proof.
  intros self sim inter pairs.
  induction pairs as [|[u i] rest IH]; intros preds e H name.
  - simpl in H. discriminate.
  - cbn [UserCF.predict_loop] in H.
    destruct (UserCF.predict_pair self sim inter u i) as [e1|p] eqn:E1.
    + simpl in H. inversion H; subst. eapply predict_pair_error, E1.
    + rewrite py_bind_inr in H. eapply IH, H.
Qed.

(** X19.  A [fit] that goes through has seen one of the three similarity
    types and a similarity matrix with sorted indices; the instance it
    leaves keeps the hyper-parameters, holds the interaction matrix of the
    training set, and neither [recommend_user] nor [predict] raises an
    [AttributeError] on it any more. *)
Theorem fit_makes_the_model_usable :
  forall (sim_opts : Type)
         (cosine_sim pearson_sim jaccard_sim :
            csr -> csr -> nat -> nat -> sim_opts -> csr)
         (transpose_tocsr : csr -> csr)
         (self self' : UserCF.t) (train_data : UserCF.TrainData)
         (opts : sim_opts),
    UserCF.fit cosine_sim pearson_sim jaccard_sim transpose_tocsr self
      train_data opts = inr self' ->
    str_in (UserCF.sim_type self) ["cosine"; "pearson"; "jaccard"] = true
    /\ UserCF.k self' = UserCF.k self
    /\ UserCF.task self' = UserCF.task self
    /\ UserCF.default_prediction self' = UserCF.default_prediction self
    /\ UserCF.user_interaction self'
       = Some (UserCF.sparse_interaction train_data)
    /\ (exists sim, UserCF.sim_matrix self' = Some sim
                    /\ has_sorted_indices sim = true)
    /\ (forall random_sample user n_rec random_rec name,
          UserCF.recommend_user random_sample self' user n_rec random_rec
          <> inl (AttributeError name))
    /\ (forall _check_unknown user item name,
          UserCF.predict _check_unknown self' user item
          <> inl (AttributeError name)).
Proof.
  intros opts_t cs ps js tr self self' td opts Hfit.
  unfold UserCF.fit in Hfit.
  assert (Htype : str_in (UserCF.sim_type self)
                    ["cosine"; "pearson"; "jaccard"] = true).
  { unfold str_in. cbn [existsb].
    destruct (String.eqb (UserCF.sim_type self) "cosine"); [reflexivity|].
    destruct (String.eqb (UserCF.sim_type self) "pearson"); [reflexivity|].
    destruct (String.eqb (UserCF.sim_type self) "jaccard"); [reflexivity|].
    simpl in Hfit. discriminate. }
  split; [exact Htype|].
  match type of Hfit with
  | (_ <- ?c ;; _) = _ => destruct c as [e|f]; [discriminate|]
  end.
  rewrite py_bind_inr in Hfit.
  match type of Hfit with
  | (_ <- py_assert ?b ;; _) = _ => destruct b eqn:Hsorted; [|discriminate]
  end.
  simpl in Hfit. inversion Hfit; subst self'. clear Hfit. 
  cbn [UserCF.k UserCF.task UserCF.default_prediction
       UserCF.user_interaction UserCF.sim_matrix].
  repeat (split; [reflexivity|]).
  split; [eexists; split; [reflexivity|exact Hsorted]|].
  split.
  - intros rs user n_rec rr name.
    unfold UserCF.recommend_user.
    cbn [UserCF.sim_matrix UserCF.user_consumed UserCF.user_interaction
         UserCF.k fitted].
    destruct (py_not _); [discriminate|].
    rewrite ?py_bind_ret, ?py_bind_inr.
    match goal with
    | |- (_ <- ?c ;; _) <> _ => destruct c as [e|[su sv]] eqn:E
    end.
    + simpl. intros H. inversion H; subst.
      apply csr_row_error in E. discriminate.
    + rewrite ?py_bind_ret, ?py_bind_inr.
      match goal with
      | |- (if ?g then _ else _) <> _ => destruct g
      end; [discriminate|].
      rewrite ?py_bind_ret, ?py_bind_inr.
      match goal with
      | |- (_ <- ?c ;; _) <> _ => destruct c as [e|res] eqn:E2
      end.
      * simpl. intros H. inversion H; subst.
        apply add_neighbors_error in E2. discriminate.
      * rewrite ?py_bind_ret, ?py_bind_inr.
        destruct rr; [|discriminate].
        match goal with
        | |- (if ?g then _ else _) <> _ => destruct g
        end; discriminate.
  - intros cu user item name.
    unfold UserCF.predict.
    destruct (cu _ user item) as [[[un ui] us] its].
    cbn [UserCF.sim_matrix UserCF.item_interaction fitted].
    rewrite ?py_bind_ret, ?py_bind_inr.
    match goal with
    | |- (_ <- ?c ;; _) <> _ => destruct c as [e|preds] eqn:E
    end.
    + simpl. intros H. inversion H; subst.
      eapply predict_loop_error; [exact E|reflexivity].
    + rewrite ?py_bind_ret, ?py_bind_inr.
      match goal with
      | |- (_ <- ?c ;; _) <> _ => destruct c as [e|preds'] eqn:E2
      end.
      * simpl. intros H. inversion H; subst.
        destruct (0 <? un); [|discriminate].
        unfold list_setitem in E2. destruct ui.
        -- destruct (_ <? _); discriminate.
        -- discriminate.
      * rewrite ?py_bind_ret, ?py_bind_inr.
        destruct (length us =? 1); [|discriminate].
        destruct (np_index preds' 0) as [e|p] eqn:E3.
        -- simpl. intros H. inversion H; subst.
           apply np_index_error in E3. discriminate.
        -- simpl. discriminate.
Qed.

Lemma fit_makes_the_model_usable_witness :
  UserCF.fit UserCFExamples.sim_stub UserCFExamples.sim_stub
    UserCFExamples.sim_stub UserCFExamples.transpose_stub
    MoreExamples.unfitted_model UserCFExamples.train_data tt
  = inr UserCFExamples.fitted_model
  /\ forall name,
       UserCF.recommend_user UserCFExamples.sample_stub
         UserCFExamples.fitted_model 1 10 false
       <> inl (AttributeError name).
Proof.
  assert (Hfit : UserCF.fit UserCFExamples.sim_stub UserCFExamples.sim_stub
                   UserCFExamples.sim_stub UserCFExamples.transpose_stub
                   MoreExamples.unfitted_model UserCFExamples.train_data tt
                 = inr UserCFExamples.fitted_model) by reflexivity.
  split; [exact Hfit|].
  intros name.
  destruct (fit_makes_the_model_usable _ _ _ _ _ _ _ Hfit)
    as (_ & _ & _ & _ & _ & _ & Hreco & _).
  apply Hreco.
Defined.
